(** * Gunoba scraper: store, page parser, deep scraper and download resolver

    A shallow embedding of [script_a.py] (class [GuncadScraper]) and
    [script_b.py] (the download resolver), with the properties of the
    specification proved on it.

    Conventions.
    - Python [str] is [string], one character for each code point, which
      are those below 256: [len] is [String.length], and slices and
      bounds count characters.
    - A SQLite table is the list of its rows in scan order.  An
      [INTEGER PRIMARY KEY] column is a [Z]; a nullable column is an [option].
    - The libraries the scripts call (the HTML parser of BeautifulSoup,
      [urllib.parse], the rowid allocator of SQLite, the network) are not part
      of the repository: they are classes ([HtmlParser], [UrlLib],
      [Sqlite]) or arguments, so that every statement holds for whatever
      they return. *)

From Stdlib Require Import List String Ascii ZArith Lia Bool Arith Permutation.
Import ListNotations.
Local Open Scope string_scope.
Local Open Scope list_scope.

Set Warnings "-register-all".

(** ** Python string operations used by the scripts *)

Module PyStr.

(** [s[:n]] *)
Fixpoint slice_to (n : nat) (s : string) : string :=
  match n, s with
  | O, _ => EmptyString
  | S _, EmptyString => EmptyString
  | S k, String c r => String c (slice_to k r)
  end.

(** [s[n:]] *)
Fixpoint slice_from (n : nat) (s : string) : string :=
  match n, s with
  | O, _ => s
  | S _, EmptyString => EmptyString
  | S k, String _ r => slice_from k r
  end.

(** [s.startswith(p)] *)
Definition startswith (s p : string) : bool := String.prefix p s.

(** [p in s] for strings: [p] occurs in [s] as a substring. *)
Fixpoint contains (p s : string) : bool :=
  String.prefix p s ||
  match s with
  | EmptyString => false
  | String _ r => contains p r
  end.

(** [c in s] for a one-character [c]. *)
Fixpoint has_char (c : ascii) (s : string) : bool :=
  match s with
  | EmptyString => false
  | String d r => Ascii.eqb c d || has_char c r
  end.

(** Truthiness of a [str]: non-empty. *)
Definition truthy (s : string) : bool :=
  match s with EmptyString => false | _ => true end.

(** [s.lstrip(...)], [s.rstrip(...)], [s.strip(...)] for the set of
    characters recognised by [p]. *)
Fixpoint lstrip_by (p : ascii -> bool) (s : string) : string :=
  match s with
  | EmptyString => EmptyString
  | String c r => if p c then lstrip_by p r else s
  end.

Fixpoint rstrip_by (p : ascii -> bool) (s : string) : string :=
  match s with
  | EmptyString => EmptyString
  | String c r =>
      match rstrip_by p r with
      | EmptyString => if p c then EmptyString else String c EmptyString
      | r' => String c r'
      end
  end.

Definition strip_by (p : ascii -> bool) (s : string) : string :=
  rstrip_by p (lstrip_by p s).

(** [str.isspace] on the characters of a [string], the code points
    below 256: TAB, LF, VT, FF, CR, FS, GS, RS, US, SPACE, NEL (U+0085)
    and the no-break space (U+00A0). *)
Definition isspace (c : ascii) : bool :=
  let n := nat_of_ascii c in
  ((9 <=? n)%nat && (n <=? 13)%nat) || ((28 <=? n)%nat && (n <=? 32)%nat)
  || (n =? 133)%nat || (n =? 160)%nat.

(** [s.strip()] *)
Definition strip (s : string) : string := strip_by isspace s.

(** [s.strip("/")] *)
Definition strip_slash (s : string) : string := strip_by (Ascii.eqb "/") s.

(** [s.split(c)] for a one-character separator: never empty. *)
Fixpoint split (c : ascii) (s : string) : list string :=
  match s with
  | EmptyString => [EmptyString]
  | String d r =>
      if Ascii.eqb d c then EmptyString :: split c r
      else match split c r with
           | [] => [String d EmptyString]
           | h :: t => String d h :: t
           end
  end.

(** [s.split(c, 1)] when [c] occurs in [s]: the text before the first
    occurrence and the text after it; [None] when [c] does not occur
    (Python then returns a one-element list). *)
Fixpoint split_once (c : ascii) (s : string) : option (string * string) :=
  match s with
  | EmptyString => None
  | String d r =>
      if Ascii.eqb d c then Some (EmptyString, r)
      else match split_once c r with
           | Some (a, b) => Some (String d a, b)
           | None => None
           end
  end.

(** [sep.join(l)] *)
Fixpoint join (sep : string) (l : list string) : string :=
  match l with
  | [] => EmptyString
  | [x] => x
  | x :: r => x ++ sep ++ join sep r
  end.

(** [s.lower()] on the characters below 128. *)
Definition lower_char (c : ascii) : ascii :=
  let n := nat_of_ascii c in
  if ((65 <=? n)%nat && (n <=? 90)%nat) then ascii_of_nat (n + 32) else c.

Fixpoint lower (s : string) : string :=
  match s with
  | EmptyString => EmptyString
  | String c r => String (lower_char c) (lower r)
  end.

(** [s.split()] without argument: the maximal runs of non-space
    characters. *)
Fixpoint words_aux (cur : string) (s : string) : list string :=
  match s with
  | EmptyString => if truthy cur then [cur] else []
  | String c r =>
      if isspace c
      then (if truthy cur then cur :: words_aux EmptyString r
            else words_aux EmptyString r)
      else words_aux (cur ++ String c EmptyString) r
  end.

Definition words (s : string) : list string := words_aux EmptyString s.

End PyStr.

(** ** Absolute URLs *)

(** The specification asks for absolute urls.  A reference is absolute
    when it starts with a scheme (RFC 3986, section 4.3): a letter, then
    letters, digits, [+], [-] or [.], then a colon. *)
Module Url.

Definition is_alpha (c : ascii) : bool :=
  let n := nat_of_ascii c in
  ((65 <=? n)%nat && (n <=? 90)%nat) || ((97 <=? n)%nat && (n <=? 122)%nat).

Definition is_digit (c : ascii) : bool :=
  let n := nat_of_ascii c in (48 <=? n)%nat && (n <=? 57)%nat.

Definition is_scheme_char (c : ascii) : bool :=
  is_alpha c || is_digit c || Ascii.eqb c "+" || Ascii.eqb c "-" || Ascii.eqb c ".".

Fixpoint scheme_tail (s : string) : bool :=
  match s with
  | EmptyString => false
  | String c r => Ascii.eqb c ":" || (is_scheme_char c && scheme_tail r)
  end.

Definition is_absolute (s : string) : bool :=
  match s with
  | EmptyString => false
  | String c r => is_alpha c && scheme_tail r
  end.

End Url.

(** ** Exceptions *)

Inductive exn : Type :=
  | AttributeError
  | IndexError
  | KeyError
  | TypeError
  | ValueError
  | OverflowError
  | OSError.

Inductive res (A : Type) : Type :=
  | Ok (a : A)
  | Raise (e : exn).
Arguments Ok {A} a.
Arguments Raise {A} e.

Definition bind {A B : Type} (m : res A) (k : A -> res B) : res B :=
  match m with
  | Ok a => k a
  | Raise e => Raise e
  end.

Notation "x <- m ;; k" := (bind m (fun x => k))
  (at level 61, m at next level, right associativity).

(** ** The document tree of BeautifulSoup *)

Module Dom.

(** A parsed document.  [Text] is a [NavigableString]; [Special] stands
    for the string objects that [get_text] leaves out (comments,
    declarations, the contents of script and style elements); [Tag] is an
    element with its attributes (the dictionary [tag.attrs], as the list of
    its items, each value as written in the page) and its children in
    document order. *)
Inductive node : Type :=
  | Text (s : string)
  | Special (s : string)
  | Tag (name : string) (attrs : list (string * string)) (children : list node).

(** [tag.descendants]: every node below [n], in document order. *)
Fixpoint descendants (n : node) : list node :=
  match n with
  | Tag _ _ cs =>
      (fix go (l : list node) : list node :=
         match l with
         | [] => []
         | c :: r => c :: descendants c ++ go r
         end) cs
  | _ => []
  end.

(** [tag.get(key)] ([None] when the attribute is absent). *)
Fixpoint lookup (key : string) (attrs : list (string * string)) : option string :=
  match attrs with
  | [] => None
  | (k, v) :: r => if String.eqb k key then Some v else lookup key r
  end.

Definition get (key : string) (n : node) : option string :=
  match n with
  | Tag _ attrs _ => lookup key attrs
  | _ => None
  end.

Definition tag_name (n : node) : option string :=
  match n with
  | Tag name _ _ => Some name
  | _ => None
  end.

Definition is_named (names : list string) (n : node) : bool :=
  match tag_name n with
  | Some name => existsb (String.eqb name) names
  | None => false
  end.

(** The value of the [class] attribute as BeautifulSoup keeps it: the
    list of its whitespace-separated items ([None] when absent). *)
Definition classes (n : node) : option (list string) :=
  option_map PyStr.words (get "class" n).

(** How a [class_] filter [f] is matched against an element: on each
    item of the class list, then on the items joined by one space; on
    [None] when the element has no class attribute. *)
Definition class_matches (f : option string -> bool) (n : node) : bool :=
  match classes n with
  | Some items =>
      existsb (fun c => f (Some c)) items || f (Some (PyStr.join " " items))
  | None => f None
  end.

(** [tag.find_all(...)] and [tag.find(...)] with the filter [p]. *)
Definition find_all (p : node -> bool) (n : node) : list node :=
  filter p (descendants n).

Definition find (p : node -> bool) (n : node) : option node :=
  hd_error (find_all p n).

(** The strings [get_text] joins: the [NavigableString]s below [n]. *)
Definition all_strings (n : node) : list string :=
  flat_map (fun d => match d with Text s => [s] | _ => [] end) (descendants n).

(** [tag.get_text(strip=True)]: every string is stripped, the ones that
    become empty are dropped, the rest is concatenated. *)
Definition get_text_strip (n : node) : string :=
  String.concat EmptyString (filter PyStr.truthy (map PyStr.strip (all_strings n))).

(** The CSS test [.c]: [c] is one of the classes of the element. *)
Definition has_class (c : string) (n : node) : bool :=
  match classes n with
  | Some items => existsb (String.eqb c) items
  | None => false
  end.

Definition is_description_container (n : node) : bool :=
  is_named ["div"] n && has_class "description-container" n.

Definition is_description_span (n : node) : bool :=
  is_named ["span"] n && has_class "description-text" n
  && has_class "textbox" n && has_class "md" n.

(** [soup.select('div.description-container
    span.description-text.textbox.md')] from [n] on: the elements, in
    document order, that are a [span] carrying the three classes and lie
    below a [div] of class [description-container].  [anc] tells whether a
    proper ancestor of [n] is such a [div]. *)
Fixpoint select_below (anc : bool) (n : node) : list node :=
  (if anc && is_description_span n then [n] else []) ++
  match n with
  | Tag _ _ cs =>
      (fix go (l : list node) : list node :=
         match l with
         | [] => []
         | c :: r =>
             select_below (anc || is_description_container n) c ++ go r
         end) cs
  | _ => []
  end.

(** [soup.select_one(...)]: the first of them. *)
Definition select_description (soup : node) : option node :=
  hd_error (select_below false soup).

End Dom.

(** ** External libraries *)

(** [BeautifulSoup(html, 'html.parser')]: the document object, an element
    whose descendants are the nodes of the page. *)
Class HtmlParser : Type := {
  parse_html : string -> Dom.node
}.

(** The value list of one key in the dictionary [parse_qs] returns: such a
    list is never empty. *)
Record qs_values : Type := {
  first_value : string;
  more_values : list string
}.

(** The two fields of [urlparse(uri)] that the resolver reads. *)
Record ParseResult : Type := {
  netloc : string;
  path : string
}.

(** [urllib.parse]: [unquote], [parse_qs] (a dictionary, as the list of its
    items) and [urlparse], which raises [ValueError] on some malformed
    inputs. *)
Class UrlLib : Type := {
  unquote : string -> string;
  parse_qs : string -> list (string * qs_values);
  urlparse : string -> res ParseResult
}.

(** SQLite chooses the rowid of a row inserted without an explicit id from
    the ids in use. *)
Class Sqlite : Type := {
  new_rowid : list Z -> Z
}.

(** [d.get(key)] on a dictionary given by its items. *)
Fixpoint dict_get {V : Type} (key : string) (d : list (string * V)) : option V :=
  match d with
  | [] => None
  | (k, v) :: r => if String.eqb k key then Some v else dict_get key r
  end.

(** ** The store (the three tables of [init_db]) *)

Module Store.

(** [links (id INTEGER PRIMARY KEY, page INTEGER, title TEXT,
         link TEXT UNIQUE, scanned_at TIMESTAMP)] *)
Record link_row : Type := {
  l_id : Z;
  l_page : Z;
  l_title : string;
  l_link : string;
  l_scanned_at : Z
}.

(** [details (id INTEGER PRIMARY KEY, link_id INTEGER UNIQUE,
           description TEXT, scraped_at TIMESTAMP)] *)
Record detail_row : Type := {
  d_id : Z;
  d_link_id : option Z;
  d_description : string;
  d_scraped_at : Z
}.

(** [exturl (id INTEGER PRIMARY KEY, link_id INTEGER, external_url TEXT,
          source_href TEXT, link_text TEXT, scraped_at TIMESTAMP)] *)
Record exturl_row : Type := {
  e_id : Z;
  e_link_id : option Z;
  e_external_url : string;
  e_source_href : string;
  e_link_text : string;
  e_scraped_at : Z
}.

Record db : Type := {
  links : list link_row;
  details : list detail_row;
  exturl : list exturl_row
}.

(** What the engine does with one statement: whether it fails with a
    [sqlite3.Error] (a locked or full database), and the value of
    [CURRENT_TIMESTAMP]. *)
Record stmt_env : Type := {
  se_error : bool;
  se_now : Z
}.

(** The outcome of [cursor.execute]: the table afterwards and
    [cursor.rowcount], or [None] for a [sqlite3.Error]. *)
Definition exec_result (row : Type) : Type := (list row * option nat)%type.

Definition link_exists (link : string) (t : list link_row) : bool :=
  existsb (fun r => String.eqb (l_link r) link) t.

(** The integers that can be bound to a parameter of a statement: 64
    bits, signed. *)
Definition fits_int64 (n : Z) : bool :=
  ((- 2 ^ 63 <=? n) && (n <? 2 ^ 63))%Z.

(** [INSERT OR IGNORE INTO links (page, title, link) VALUES (?, ?, ?)],
    for a page number that can be bound (see [save_links_bound] for the
    others). *)
Definition insert_or_ignore_link `{Sqlite} (e : stmt_env)
    (page : Z) (title link : string) (t : list link_row) : exec_result link_row :=
  if se_error e then (t, None)
  else if link_exists link t then (t, Some 0)
  else (t ++ [{| l_id := new_rowid (map l_id t); l_page := page;
                 l_title := title; l_link := link;
                 l_scanned_at := se_now e |}], Some 1).

Definition is_detail_of (id : Z) (d : detail_row) : bool :=
  match d_link_id d with
  | Some k => Z.eqb k id
  | None => false
  end.

(** [INSERT OR REPLACE INTO details (link_id, description) VALUES (?, ?)]:
    the id of the new row is chosen from the ids in use, the rows in
    conflict on the unique [link_id] are deleted, then the new row is
    inserted. *)
Definition insert_or_replace_detail `{Sqlite} (now : Z)
    (link_id : Z) (description : string) (t : list detail_row) : list detail_row :=
  let kept := filter (fun d => negb (is_detail_of link_id d)) t in
  kept ++ [{| d_id := new_rowid (map d_id t); d_link_id := Some link_id;
              d_description := description; d_scraped_at := now |}].

(** [INSERT INTO exturl (link_id, external_url, source_href, link_text)
    VALUES (?, ?, ?, ?)] *)
Definition insert_exturl `{Sqlite} (now : Z) (link_id : Z)
    (external_url source_href link_text : string)
    (t : list exturl_row) : list exturl_row :=
  t ++ [{| e_id := new_rowid (map e_id t); e_link_id := Some link_id;
           e_external_url := external_url; e_source_href := source_href;
           e_link_text := link_text; e_scraped_at := now |}].

(** [links l LEFT JOIN details d ON l.id = d.link_id]: every listing
    paired with each detail row that matches it, or with a row of NULLs
    when none does. *)
Definition left_join (ls : list link_row) (ds : list detail_row)
    : list (link_row * option detail_row) :=
  flat_map
    (fun l =>
       match filter (is_detail_of (l_id l)) ds with
       | [] => [(l, None)]
       | ms => map (fun d => (l, Some d)) ms
       end) ls.

(** [d.link_id IS NULL] on a row of the join. *)
Definition link_id_is_null (r : link_row * option detail_row) : bool :=
  match snd r with
  | None => true
  | Some d => match d_link_id d with None => true | Some _ => false end
  end.

(** [SELECT l.id, l.link FROM links l LEFT JOIN details d
    ON l.id = d.link_id WHERE d.link_id IS NULL].  The query has no
    [ORDER BY]: which rows it returns is fixed, their order is the
    engine's choice (SQLite may walk the index of the unique column);
    they are listed here in table order, and stage 2, the only reader,
    runs its tasks in any order. *)
Definition select_undetailed (s : db) : list (Z * string) :=
  map (fun r => (l_id (fst r), l_link (fst r)))
    (filter link_id_is_null (left_join (links s) (details s))).

Definition is_exturl_of (id : Z) (e : exturl_row) : bool :=
  match e_link_id e with
  | Some k => Z.eqb k id
  | None => false
  end.

(** The detail rows and the reference rows of the listing [id]. *)
Definition details_of (id : Z) (s : db) : list detail_row :=
  filter (is_detail_of id) (details s).

Definition exturl_of (id : Z) (s : db) : list exturl_row :=
  filter (is_exturl_of id) (exturl s).

End Store.

(** ** [script_a.py]: class [GuncadScraper] *)

Module Scraper.
Import Dom Store.

(** An item of [self.links].  The script keeps the page number as
    [str(page_num)] under ['Page'] and reads it back with [int(...)];
    the number itself is kept here. *)
Record link_item : Type := {
  Page : Z;
  Title : string;
  Link : string
}.

(** An item of [ext_links] in [scrape_detail]. *)
Record ext_link : Type := {
  external_url : string;
  source_href : string;
  link_text : string
}.

(** The scraper object: [self.links], [self.failed_deep] and the database
    behind [self.db_path]. *)
Record scraper : Type := {
  links_found : list link_item;
  failed_deep : list string;
  database : db
}.

(** [tag[key]] *)
Definition getitem (key : string) (n : node) : res string :=
  match get key n with
  | Some v => Ok v
  | None => Raise KeyError
  end.

(** *** Listing pages: [extract_links] *)

(** [find_all('div', class_='grid-view-max')] *)
Definition is_card (n : node) : bool :=
  is_named ["div"] n &&
  class_matches (fun x => match x with
                          | Some c => String.eqb c "grid-view-max"
                          | None => false
                          end) n.

(** [find('a', href=True)] *)
Definition is_anchor_with_href (n : node) : bool :=
  is_named ["a"] n &&
  match get "href" n with Some _ => true | None => false end.

(** [find(['h2', 'h3', 'h4'],
       class_=lambda x: x and 'title' in x.lower())] *)
Definition is_title_heading (n : node) : bool :=
  is_named ["h2"; "h3"; "h4"] n &&
  class_matches (fun x => match x with
                          | Some c => PyStr.truthy c
                                      && PyStr.contains "title" (PyStr.lower c)
                          | None => false
                          end) n.

Definition origin : string := "https://guncadindex.com".

(** [if href.startswith('/'): href = f"https://guncadindex.com{href}"] *)
Definition absolutize (href : string) : string :=
  if PyStr.startswith href "/" then origin ++ href else href.

(** [(div.find([...], class_=...) or a.get('title') or a)
     .get_text(strip=True)].  An element is always true; a non-empty
    [title] attribute is a [str], which has no [get_text]. *)
Definition card_title (div a : node) : res string :=
  match find is_title_heading div with
  | Some h => Ok (get_text_strip h)
  | None =>
      match get "title" a with
      | Some t => if PyStr.truthy t then Raise AttributeError
                  else Ok (get_text_strip a)
      | None => Ok (get_text_strip a)
      end
  end.

(** The body of the loop for one card: the item appended to
    [self.links], if any. *)
Definition extract_card (page_num : Z) (div : node) : res (option link_item) :=
  match find is_anchor_with_href div with
  | None => Ok None
  | Some a =>
      href <- getitem "href" a ;;
      title <- card_title div a ;;
      if PyStr.truthy title
      then Ok (Some {| Page := page_num; Title := PyStr.slice_to 100 title;
                       Link := absolutize href |})
      else Ok None
  end.

(** The loop over the cards: [self.links] afterwards, and whether the
    loop ended normally. *)
Fixpoint extract_cards (page_num : Z) (divs : list node)
    (found : list link_item) : list link_item * res unit :=
  match divs with
  | [] => (found, Ok tt)
  | div :: rest =>
      match extract_card page_num div with
      | Ok (Some item) => extract_cards page_num rest (found ++ [item])
      | Ok None => extract_cards page_num rest found
      | Raise e => (found, Raise e)
      end
  end.

Definition extract_links `{HtmlParser} (html : string) (page_num : Z)
    (found : list link_item) : list link_item * res unit :=
  if negb (PyStr.truthy html) then (found, Ok tt)
  else extract_cards page_num (find_all is_card (parse_html html)) found.

(** The record of a card, when there is one: the card has an anchor with
    an href and a title that is not empty. *)
Definition from_card (page_num : Z) (div : node) (r : link_item) : Prop :=
  exists a href title,
    find is_anchor_with_href div = Some a
    /\ get "href" a = Some href
    /\ card_title div a = Ok title
    /\ title <> EmptyString
    /\ r = {| Page := page_num; Title := PyStr.slice_to 100 title;
              Link := absolutize href |}.

(** *** Persistence of the listings: [save_links] *)

(** The loop of [save_links] from the [i]-th statement on: the table and
    [inserted] afterwards. *)
Fixpoint save_links_loop `{Sqlite} (env : nat -> stmt_env) (i : nat)
    (items : list link_item) (t : list link_row) (inserted : nat)
    : list link_row * nat :=
  match items with
  | [] => (t, inserted)
  | item :: rest =>
      match insert_or_ignore_link (env i) (Page item) (Title item) (Link item) t with
      | (t', Some rowcount) =>
          save_links_loop env (S i) rest t'
            (if (0 <? rowcount)%nat then S inserted else inserted)
      | (t', None) => save_links_loop env (S i) rest t' inserted
      end
  end.

(** [save_links] on a batch whose page numbers can be bound: the scraper
    afterwards and the count returned. *)
Definition save_links `{Sqlite} (env : nat -> stmt_env) (s : scraper)
    : scraper * nat :=
  let '(t, inserted) :=
    save_links_loop env 0 (links_found s) (links (database s)) 0 in
  ({| links_found := links_found s; failed_deep := failed_deep s;
      database := {| links := t; details := details (database s);
                     exturl := exturl (database s) |} |}, inserted).

(** [save_links] on any batch.  For a page number outside 64 bits
    [cursor.execute] raises an [OverflowError], which
    [except sqlite3.Error] does not catch: it leaves the loop and the
    [with] block, which rolls back what the call has inserted, so that
    the database is as before the call. *)
Definition save_links_bound `{Sqlite} (env : nat -> stmt_env) (s : scraper)
    : res (scraper * nat) :=
  if forallb (fun item => fits_int64 (Page item)) (links_found s)
  then Ok (save_links env s)
  else Raise OverflowError.

Definition get_unscraped (s : scraper) : list (Z * string) :=
  select_undetailed (database s).

(** *** Detail pages: [scrape_detail] *)

(** [find_all('a', href=lambda h: h and '/out/?u=' in h)] *)
Definition is_out_anchor (n : node) : bool :=
  is_named ["a"] n &&
  match get "href" n with
  | Some h => PyStr.truthy h && PyStr.contains "/out/?u=" h
  | None => false
  end.

(** [parse_qs(href.split('?')[1]).get('u', [None])[0]
    if '?' in href else None] *)
Definition u_param `{UrlLib} (href : string) : res (option string) :=
  if PyStr.has_char "?" href then
    match PyStr.split "?" href with
    | _ :: query :: _ =>
        Ok (option_map first_value (dict_get "u" (parse_qs query)))
    | _ => Raise IndexError
    end
  else Ok None.

(** The loop that fills [ext_links]. *)
Fixpoint ext_links_loop `{UrlLib} (anchors : list node)
    (ext_links : list ext_link) : res (list ext_link) :=
  match anchors with
  | [] => Ok ext_links
  | a :: rest =>
      href <- getitem "href" a ;;
      u <- u_param href ;;
      match u with
      | Some v =>
          if PyStr.truthy v
          then ext_links_loop rest
                 (ext_links ++ [{| external_url := unquote v;
                                   source_href := href;
                                   link_text := PyStr.slice_to 50 (get_text_strip a) |}])
          else ext_links_loop rest ext_links
      | None => ext_links_loop rest ext_links
      end
  end.

Definition extract_ext_links `{UrlLib} (soup : node) : res (list ext_link) :=
  ext_links_loop (find_all is_out_anchor soup) [].

(** The [u] parameter of an href as the code reads it: from the text
    between the first and the second question mark, as [parse_qs] returns
    it; it is usable when it is present and not empty. *)
Definition usable_u `{UrlLib} (href : string) : option string :=
  match PyStr.split "?" href with
  | _ :: query :: _ =>
      match dict_get "u" (parse_qs query) with
      | Some values =>
          if PyStr.truthy (first_value values) then Some (first_value values)
          else None
      | None => None
      end
  | _ => None
  end.

(** Following the specification's words, the URL-unescaped value of
    the [u] query parameter: the query of an href is all that follows its
    first question mark, and [parse_qs] returns the values of the
    parameters with their escapes resolved. *)
Definition unescaped_u `{UrlLib} (href : string) : option string :=
  match PyStr.split_once "?" href with
  | Some (_, query) => option_map first_value (dict_get "u" (parse_qs query))
  | None => None
  end.

(** The reference of one anchor as the code builds it: none without a
    usable [u]. *)
Definition reference_of `{UrlLib} (a : node) : option ext_link :=
  match get "href" a with
  | Some href =>
      match usable_u href with
      | Some u => Some {| external_url := unquote u;
                          source_href := href;
                          link_text := PyStr.slice_to 50 (get_text_strip a) |}
      | None => None
      end
  | None => None
  end.

(** The references of a page: the ones of its anchors whose href holds
    the marker, in document order. *)
Definition references_of_page `{UrlLib} (soup : node) : list ext_link :=
  flat_map (fun a => match reference_of a with Some r => [r] | None => [] end)
    (find_all is_out_anchor soup).

(** [desc.get_text(strip=True) if desc else <empty string>] *)
Definition extract_description (soup : node) : string :=
  match select_description soup with
  | Some desc => get_text_strip desc
  | None => EmptyString
  end.

(** The inserts of the references, in order. *)
Definition insert_ext_links `{Sqlite} (now : Z) (link_id : Z)
    (refs : list ext_link) (t : list exturl_row) : list exturl_row :=
  fold_left
    (fun t ext => insert_exturl now link_id (external_url ext)
                    (source_href ext) (link_text ext) t)
    refs t.

(** [scrape_detail] from the point where [fetch] has returned [html],
    at time [now]. *)
Definition scrape_detail `{HtmlParser} `{UrlLib} `{Sqlite} (now : Z)
    (html : string) (link_id : Z) (url : string) (s : scraper) : res scraper :=
  if negb (PyStr.truthy html)
  then Ok {| links_found := links_found s;
             failed_deep := failed_deep s ++ [url];
             database := database s |}
  else
    let soup := parse_html html in
    let description := extract_description soup in
    ext_links <- extract_ext_links soup ;;
    let d := database s in
    let details' :=
      if PyStr.truthy description
      then insert_or_replace_detail now link_id description (details d)
      else details d in
    let exturl' := insert_ext_links now link_id ext_links (exturl d) in
    Ok {| links_found := links_found s; failed_deep := failed_deep s;
          database := {| links := links d; details := details';
                         exturl := exturl' |} |}.

(** The number of reference rows a task writes for a url, and whether it
    writes a detail row. *)
Definition refs_added `{HtmlParser} `{UrlLib} (html : string) : nat :=
  if PyStr.truthy html
  then List.length (references_of_page (parse_html html))
  else 0.

Definition writes_detail `{HtmlParser} (html : string) : bool :=
  PyStr.truthy html && PyStr.truthy (extract_description (parse_html html)).

(** What a run of stage 2 meets outside the program: the content [fetch]
    returns for a url (empty on failure) and the time at which the item
    of a listing is written. *)
Record world : Type := {
  fetch : string -> string;
  clock : Z -> Z
}.

(** The number of reference rows a task writes for the listing [id]. *)
Definition task_refs `{HtmlParser} `{UrlLib} (w : world) (id : Z)
    (task : Z * string) : nat :=
  if Z.eqb (fst task) id then refs_added (fetch w (snd task)) else 0.

(** The tasks of [stage2_deep] in the order [order] in which they reach
    the database: a task does not yield between its first statement and
    its commit. *)
Fixpoint run_tasks `{HtmlParser} `{UrlLib} `{Sqlite} (w : world)
    (order : list (Z * string)) (s : scraper) : res scraper :=
  match order with
  | [] => Ok s
  | (link_id, url) :: rest =>
      s' <- scrape_detail (clock w link_id) (fetch w url) link_id url s ;;
      run_tasks w rest s'
  end.

(** [stage2_deep]: [asyncio.gather] runs one task per unscraped listing,
    in any order. *)
Definition stage2_deep `{HtmlParser} `{UrlLib} `{Sqlite} (w : world)
    (s s' : scraper) : Prop :=
  exists order,
    Permutation order (get_unscraped s) /\ run_tasks w order s = Ok s'.

(** A new run of the program builds a new scraper on the same
    database. *)
Definition restart (s : scraper) : scraper :=
  {| links_found := []; failed_deep := []; database := database s |}.


End Scraper.

(** ** [script_b.py]: the download resolver *)

Module Resolver.

(** *** Canonical identifiers: [odysee_to_canonical] *)

(** The body of the loop over the segments:
    [if ":" in segment and "#" not in segment:
       name, short_id = segment.split(":", 1)
       segment = f"{name}#{short_id}"].
    The split has two parts whenever the test holds. *)
Definition rewrite_segment (segment : string) : string :=
  if PyStr.has_char ":" segment && negb (PyStr.has_char "#" segment) then
    match PyStr.split_once ":" segment with
    | Some (name, short_id) => name ++ "#" ++ short_id
    | None => segment
    end
  else segment.

Definition odysee_to_canonical `{UrlLib} (uri : string) : res (option string) :=
  if PyStr.startswith uri "lbry://"
  then Ok (Some (PyStr.strip_slash (PyStr.slice_from (String.length "lbry://") uri)))
  else
    parsed <- urlparse uri ;;
    if negb (PyStr.contains "odysee.com" (PyStr.lower (netloc parsed)))
    then Ok None
    else
      let path := unquote (PyStr.strip_slash (path parsed)) in
      if negb (PyStr.truthy path) then Ok None
      else Ok (Some (PyStr.strip_slash
                       (PyStr.join "/" (map rewrite_segment (PyStr.split "/" path))))).

(** Following the specification's words, the host matches the known
    portal: the host of a network location is what stands after the user
    information (up to the last [@]) and before the port (from the first
    colon on), in lower case; it matches when it is [odysee.com] or a
    subdomain of it. *)
Fixpoint endswith (s suffix : string) : bool :=
  String.eqb s suffix
  || match s with
     | EmptyString => false
     | String _ r => endswith r suffix
     end.

Definition hostname (netloc : string) : string :=
  let hostport := List.last (PyStr.split "@" netloc) EmptyString in
  PyStr.lower (match PyStr.split_once ":" hostport with
               | Some (host, _) => host
               | None => hostport
               end).

Definition host_matches (netloc : string) : bool :=
  String.eqb (hostname netloc) "odysee.com"
  || endswith (hostname netloc) ".odysee.com".

(** *** Python values *)

(** The values [response.json()] returns. *)
Inductive pyval : Type :=
  | PNone
  | PBool (b : bool)
  | PInt (n : Z)
  | PFloat (nonzero : bool)   (* a float, by whether it differs from 0.0 *)
  | PStr (s : string)
  | PList (l : list pyval)
  | PDict (d : list (string * pyval)).

(** [bool(v)] *)
Definition truthy (v : pyval) : bool :=
  match v with
  | PNone => false
  | PBool b => b
  | PInt n => negb (Z.eqb n 0)
  | PFloat nonzero => nonzero
  | PStr s => PyStr.truthy s
  | PList l => match l with [] => false | _ => true end
  | PDict d => match d with [] => false | _ => true end
  end.

(** ["error" in data] *)
Definition contains_error (data : pyval) : res bool :=
  match data with
  | PDict d => Ok (match dict_get "error" d with Some _ => true | None => false end)
  | PList l => Ok (existsb (fun v => match v with
                                     | PStr s => String.eqb s "error"
                                     | _ => false
                                     end) l)
  | PStr s => Ok (PyStr.contains "error" s)
  | _ => Raise TypeError
  end.

(** [v.get(key)] *)
Definition py_get (key : string) (v : pyval) : res pyval :=
  match v with
  | PDict d => Ok (match dict_get key d with Some x => x | None => PNone end)
  | _ => Raise AttributeError
  end.

(** [data[key]] for a key that is a string: only an object can be
    indexed by a string. *)
Definition py_item (key : string) (data : pyval) : res pyval :=
  match data with
  | PDict d =>
      match dict_get key d with
      | Some x => Ok x
      | None => Raise KeyError
      end
  | _ => Raise TypeError
  end.

(** [a or b] *)
Definition py_or (a b : pyval) : pyval := if truthy a then a else b.

(** *** The collaborators *)

(** What [lbryt.download_single] does: it raises an exception with a
    message, or returns a value, possibly an object of a type that is
    neither a [bool] nor a [dict]. *)
Inductive client_outcome : Type :=
  | Raised (message : string)
  | Returned (v : pyval)
  | ReturnedObject.

(** What the POST to [LBRY_RPC_URL] does: a [requests.RequestException]
    (from the request or from [raise_for_status]), a body that is not
    JSON, or a decoded body. *)
Inductive rpc_outcome : Type :=
  | RequestFailed
  | InvalidJson
  | Body (data : pyval).

(** [lbryt] is [None] when the import failed. *)
Record daemon : Type := {
  lbryt : option (string -> client_outcome);
  rpc_post : string -> string -> rpc_outcome;
  download_dir : string
}.

(** What the resolver does to the outside, in order. *)
Inductive event : Type :=
  | MakeDownloadDir
  | CallDownloadSingle (uri : string)
  | PostRpc (method uri : string)
  | LogInfo (message : string)
  | LogWarning (message : string)
  | LogError (message : string).

Definition is_rpc_post (e : event) : bool :=
  match e with PostRpc _ _ => true | _ => false end.

(** *** Tier C: [call_lbry_rpc] and [fallback_lbry_get] *)

(** [call_lbry_rpc(method, params)], with the [uri] of [params].  When
    ["error" in data] holds, the warning is logged with [data["error"]],
    which is evaluated first and raises for a string or a list. *)
Definition call_lbry_rpc (dm : daemon) (method uri : string)
    : list event * res (option pyval) :=
  match rpc_post dm method uri with
  | RequestFailed => ([PostRpc method uri; LogError "Failed to call lbrynet RPC"], Ok None)
  | InvalidJson => ([PostRpc method uri; LogError "Invalid JSON from lbrynet RPC"], Ok None)
  | Body data =>
      match contains_error data with
      | Raise e => ([PostRpc method uri], Raise e)
      | Ok true =>
          match py_item "error" data with
          | Raise e => ([PostRpc method uri], Raise e)
          | Ok _ => ([PostRpc method uri; LogWarning "lbrynet RPC error"], Ok None)
          end
      | Ok false =>
          match py_get "result" data with
          | Raise e => ([PostRpc method uri], Raise e)
          | Ok PNone =>
              ([PostRpc method uri; LogWarning "lbrynet RPC returned no result field."],
               Ok None)
          | Ok result => ([PostRpc method uri], Ok (Some result))
          end
      end
  end.

(** [rpc_result.get("download_path") or rpc_result.get("file_path")
    or str(download_dir)] *)
Definition output_path (dm : daemon) (result : pyval) : res pyval :=
  p1 <- py_get "download_path" result ;;
  if truthy p1 then Ok p1
  else
    p2 <- py_get "file_path" result ;;
    Ok (py_or p2 (PStr (download_dir dm))).

Definition fallback_lbry_get (dm : daemon) (canonical_uri : string)
    : list event * res bool :=
  let start := LogInfo "Falling back to direct lbrynet RPC download" in
  match call_lbry_rpc dm "get" ("lbry://" ++ canonical_uri) with
  | (evs, Raise e) => (start :: evs, Raise e)
  | (evs, Ok rpc_result) =>
      let falsy :=
        match rpc_result with
        | None => true
        | Some v => negb (truthy v)
        end in
      if falsy
      then (start :: evs ++ [LogWarning "lbrynet RPC get call returned no result"],
            Ok false)
      else
        match rpc_result with
        | None => (start :: evs, Ok false)
        | Some v =>
            match output_path dm v with
            | Raise e => (start :: evs, Raise e)
            | Ok _ => (start :: evs ++ [LogInfo "lbrynet RPC download saved"], Ok true)
            end
        end
  end.

(** *** Tiers A and B: [download_with_lbrytools] and [handle_lbry_error] *)

Definition handle_lbry_error (dm : daemon) (message canonical_uri : string)
    : list event * res bool :=
  if PyStr.contains "Cannot establish connection" message
  then ([LogError "Cannot connect to lbrynet daemon. Please run `lbrynet start` before Stage2."],
        Ok false)
  else
    let '(evs, r) := fallback_lbry_get dm canonical_uri in
    (LogWarning "lbrytools download failed" :: evs, r).

Definition download_with_lbrytools (dm : daemon) (canonical_uri : string)
    : list event * res bool :=
  match lbryt dm with
  | None => ([LogWarning "lbrytools is not installed; cannot download LBRY content."],
             Ok false)
  | Some download_single =>
      let call := CallDownloadSingle canonical_uri in
      match download_single canonical_uri with
      | Raised message =>
          let '(evs, r) := handle_lbry_error dm message canonical_uri in
          (MakeDownloadDir :: call :: evs, r)
      | Returned (PBool result) =>
          let info := LogInfo "lbrytools download_single returned" in
          if result then ([MakeDownloadDir; call; info], Ok true)
          else
            let '(evs, r) := fallback_lbry_get dm canonical_uri in
            (MakeDownloadDir :: call :: info :: evs, r)
      | Returned (PDict d) =>
          match output_path dm (PDict d) with
          | Raise e => ([MakeDownloadDir; call], Raise e)
          | Ok p =>
              if truthy p
              then ([MakeDownloadDir; call; LogInfo "LBRY download saved"], Ok true)
              else ([MakeDownloadDir; call; LogInfo "LBRY download triggered"], Ok true)
          end
      | Returned _ | ReturnedObject =>
          let '(evs, r) := fallback_lbry_get dm canonical_uri in
          (MakeDownloadDir :: call
             :: LogWarning "Unexpected result type from lbrytools" :: evs, r)
      end
  end.

(** The download falls through to tier C: it ends with what
    [fallback_lbry_get] does and returns, and posts nothing to the RPC
    endpoint before. *)
Definition falls_through (dm : daemon) (canonical_uri : string) : Prop :=
  exists before,
    fst (download_with_lbrytools dm canonical_uri)
    = before ++ fst (fallback_lbry_get dm canonical_uri)
    /\ existsb is_rpc_post before = false
    /\ snd (download_with_lbrytools dm canonical_uri)
       = snd (fallback_lbry_get dm canonical_uri).

End Resolver.

(** ** The constraints of the schema *)

Module Schema.
Import Store.

(** The values of a nullable column that are not NULL. *)
Definition non_null {A : Type} (l : list (option A)) : list A :=
  flat_map (fun o => match o with Some a => [a] | None => [] end) l.

(** [links.id] is a primary key and [links.link] is [UNIQUE]. *)
Definition listing_ids (s : db) : list Z := map l_id (links s).

Definition unique_listings (s : db) : Prop :=
  NoDup (listing_ids s) /\ NoDup (map l_link (links s)).

(** [details.link_id] is [UNIQUE] (a NULL never conflicts). *)
Definition unique_details (s : db) : Prop :=
  NoDup (non_null (map d_link_id (details s))).

(** [FOREIGN KEY (link_id) REFERENCES links(id)] on [details] and on
    [exturl]: a [link_id] that is not NULL is the id of a listing. *)
Definition refers_to (ids : list Z) (link_id : option Z) : bool :=
  match link_id with
  | Some k => existsb (Z.eqb k) ids
  | None => true
  end.

Definition foreign_keys_hold (s : db) : bool :=
  forallb (fun d => refers_to (listing_ids s) (d_link_id d)) (details s)
  && forallb (fun e => refers_to (listing_ids s) (e_link_id e)) (exturl s).

(** SQLite gives a new row an id that no row of the table has. *)
Definition fresh_rowids (S : Sqlite) : Prop :=
  forall ids, ~ In (new_rowid ids) ids.

End Schema.

(** ** More of [script_b.py] *)

Module Chain.
Import Resolver.

(** [s[0]] and [s[-1]], when [s] is not empty. *)
Definition first_char (s : string) : option ascii :=
  match s with
  | EmptyString => None
  | String c _ => Some c
  end.

Fixpoint last_char (s : string) : option ascii :=
  match s with
  | EmptyString => None
  | String c EmptyString => Some c
  | String _ r => last_char r
  end.

Definition is_client_call (e : event) : bool :=
  match e with CallDownloadSingle _ => true | _ => false end.

(** The number of posts to the RPC endpoint and of calls of the client
    in a run. *)
Definition posts (evs : list event) : nat := List.length (filter is_rpc_post evs).

Definition client_calls (evs : list event) : nat :=
  List.length (filter is_client_call evs).

(** The answers of the endpoint that [call_lbry_rpc] and
    [fallback_lbry_get] do not expect: a JSON value that is not an
    object, and an object without [error] whose [result] is true in the
    sense of Python and is not an object. *)
Definition is_dict (v : pyval) : bool :=
  match v with PDict _ => true | _ => false end.

Definition unexpected_answer (data : pyval) : bool :=
  match data with
  | PDict d =>
      match dict_get "error" d, dict_get "result" d with
      | None, Some v => truthy v && negb (is_dict v)
      | _, _ => false
      end
  | _ => true
  end.

(** The answers that are not iterable, and the strings and lists in
    which ["error" in data] holds. *)
Definition not_iterable (data : pyval) : bool :=
  match data with
  | PNone | PBool _ | PInt _ | PFloat _ => true
  | _ => false
  end.

Definition holds_error (data : pyval) : bool :=
  match data with
  | PStr s => PyStr.contains "error" s
  | PList l => existsb (fun v => match v with
                                 | PStr s => String.eqb s "error"
                                 | _ => false
                                 end) l
  | _ => false
  end.

End Chain.

From Stdlib Require Import DecimalString.

(** [str(n)] for an [int] that [str] converts (by default CPython
    refuses an [int] of more than 4300 digits). *)
Definition py_str (n : Z) : string := NilZero.string_of_int (Z.to_int n).

(** ** More of [script_a.py]: the crawl of the listing pages *)

Module Crawl.
Import Dom Store Scraper.

(** What [session.get(url)] meets: an exception (a network error, a
    timeout, a body that cannot be decoded), or a response with its status
    and text. *)
Inductive response : Type :=
  | NoResponse
  | Response (status : Z) (text : string).

Record site : Type := {
  session_get : string -> response
}.

(** [fetch]: the text of a response of status 200, the empty string for
    every other status and for every exception. *)
Definition fetch (net : site) (url : string) : string :=
  match session_get net url with
  | Response status text => if Z.eqb status 200 then text else EmptyString
  | NoResponse => EmptyString
  end.

Definition base_url : string := "https://guncadindex.com/search".

(** [f"{self.base_url}?page={page}"] *)
Definition page_url (page : Z) : string :=
  (base_url ++ "?page=" ++ py_str page)%string.

(** [scan_search], from the end of its sleep on: [self.links] afterwards
    and whether [extract_links] ended normally. *)
Definition scan_search `{HtmlParser} (net : site) (page : Z)
    (found : list link_item) : list link_item * res unit :=
  extract_links (fetch net (page_url page)) page found.

(** What the records of the scan of a page look like. *)
Definition scanned (page : Z) (it : link_item) : Prop :=
  Page it = page /\ String.length (Title it) <= 100 /\ Title it <> EmptyString.

(** [range(start_page, end_page + 1)] *)
Definition page_range (start_page end_page : Z) : list Z :=
  map (fun i => (start_page + Z.of_nat i)%Z)
    (seq 0 (Z.to_nat (end_page + 1 - start_page))).

(** The scans in the order [order] in which they reach [extract_links]
    (a scan does not yield while it parses), up to the first exception,
    which [asyncio.gather] hands to [stage1_search]. *)
Fixpoint run_scans `{HtmlParser} (net : site) (order : list Z)
    (found : list link_item) : list link_item * res unit :=
  match order with
  | [] => (found, Ok tt)
  | page :: rest =>
      match scan_search net page found with
      | (found', Ok _) => run_scans net rest found'
      | (found', Raise e) => (found', Raise e)
      end
  end.

Definition with_links (found : list link_item) (s : scraper) : scraper :=
  {| links_found := found; failed_deep := failed_deep s; database := database s |}.

(** [stage1_search] for one order of the scans: the scraper afterwards,
    and the count of [save_links] ([None] when it was not called) or the
    exception, of a scan or of [save_links]. *)
Definition stage1_in_order `{HtmlParser} `{Sqlite} (net : site)
    (env : nat -> stmt_env) (order : list Z) (s : scraper)
    : scraper * res (option nat) :=
  match run_scans net order (links_found s) with
  | (found, Raise e) => (with_links found s, Raise e)
  | (found, Ok _) =>
      match found with
      | [] => (with_links found s, Ok None)
      | _ :: _ =>
          match save_links_bound env (with_links found s) with
          | Ok (s', inserted) => (s', Ok (Some inserted))
          | Raise e => (with_links found s, Raise e)
          end
      end
  end.

(** [stage1_search]: one scan per page of the range, in any order. *)
Definition stage1_search `{HtmlParser} `{Sqlite} (net : site)
    (env : nat -> stmt_env) (start_page end_page : Z) (s : scraper)
    (outcome : scraper * res (option nat)) : Prop :=
  exists order,
    Permutation order (page_range start_page end_page)
    /\ outcome = stage1_in_order net env order s.

(** The world of stage 2 on a site: [scrape_detail] fetches with the
    same [fetch]. *)
Definition world_of (net : site) (clock : Z -> Z) : world :=
  {| Scraper.fetch := fetch net; Scraper.clock := clock |}.

End Crawl.

(** ** More of [script_a.py]: statistics and export *)

Module Report.
Import Dom Store Scraper Schema.

(** [COUNT(DISTINCT x)]: the number of different values that are not
    NULL. *)
Definition count_distinct (l : list (option Z)) : nat :=
  List.length (nodup Z.eq_dec (non_null l)).

(** The dictionary [get_stats] returns. *)
Record stats : Type := {
  total_links : nat;
  pages_with_links : nat;
  links_with_details : nat;
  links_with_ext_urls : nat;
  total_ext_urls : nat
}.

Definition get_stats (s : scraper) : stats :=
  let d := database s in
  {| total_links := List.length (links d);
     pages_with_links := count_distinct (map (fun l => Some (l_page l)) (links d));
     links_with_details := count_distinct (map d_link_id (details d));
     links_with_ext_urls := count_distinct (map e_link_id (exturl d));
     total_ext_urls := List.length (exturl d) |}.

(** An item of the export, with the keys [Page], [Title], [Link],
    [Description] and, when present, [ExternalURLs] (pairs of [url] and
    [text]). *)
Record export_item : Type := {
  x_Page : Z;
  x_Title : string;
  x_Link : string;
  x_Description : string;
  x_ExternalURLs : option (list (string * string))
}.

Record export_metadata : Type := {
  timestamp : string;
  search_pages : string;
  mode : string
}.

Record export_data : Type := {
  metadata : export_metadata;
  items : list export_item
}.

(** [ORDER BY l.page, l.id] on the rows of the join: a stable insertion
    sort (SQLite leaves the order of rows with equal keys open). *)
Definition row_before (a b : link_row * option detail_row) : bool :=
  (l_page (fst a) <? l_page (fst b))%Z
  || ((l_page (fst a) =? l_page (fst b))%Z && (l_id (fst a) <=? l_id (fst b))%Z).

Fixpoint insert_row (r : link_row * option detail_row)
    (rows : list (link_row * option detail_row))
    : list (link_row * option detail_row) :=
  match rows with
  | [] => [r]
  | x :: rest => if row_before r x then r :: rows else x :: insert_row r rest
  end.

Definition order_by_page_id (rows : list (link_row * option detail_row))
    : list (link_row * option detail_row) :=
  fold_right insert_row [] rows.

(** The body of the loop of [export_json] for one row of
    [SELECT l.id, l.page, l.title, l.link, d.description ...], with the
    rows of [SELECT external_url, link_text FROM exturl WHERE link_id = ?]. *)
Definition export_item_of (d : db) (r : link_row * option detail_row)
    : export_item :=
  let ext_urls :=
    map (fun e => (e_external_url e, e_link_text e)) (exturl_of (l_id (fst r)) d) in
  {| x_Page := l_page (fst r);
     x_Title := l_title (fst r);
     x_Link := l_link (fst r);
     x_Description :=
       match snd r with
       | Some detail => d_description detail
       | None => EmptyString
       end;
     x_ExternalURLs :=
       match ext_urls with
       | [] => None
       | _ :: _ => Some ext_urls
       end |}.

(** [export_json]: the data it dumps, at the time [now] as
    [time.strftime] prints it. *)
Definition export_json (now : string) (start_page end_page : Z) (s : scraper)
    : export_data :=
  {| metadata :=
       {| timestamp := now;
          search_pages := (py_str start_page ++ "-" ++ py_str end_page)%string;
          mode := match failed_deep s with
                  | [] => "search"
                  | _ :: _ => "search+deep"
                  end |};
     items := map (export_item_of (database s))
                (order_by_page_id
                   (left_join (links (database s)) (details (database s)))) |}.

End Report.

(** ** More of [script_b.py]: the generic pages and the loop over the
    references *)

(** [urllib.parse.urljoin], which raises [ValueError] on some
    malformed references (as [urlparse] does). *)
Class UrlJoin : Type := {
  urljoin : string -> string -> res string
}.

Module Downloads.
Import Dom Store Resolver.

(** [tag.get_text(separator, strip=True)] *)
Definition get_text_sep (separator : string) (n : node) : string :=
  String.concat separator (filter PyStr.truthy (map PyStr.strip (all_strings n))).

(** ["download" in (tag.get_text(" ", strip=True) or "").lower()] *)
Definition says_download (tag : node) : bool :=
  PyStr.contains "download" (PyStr.lower (get_text_sep " " tag)).

(** [tag.has_attr(key)] *)
Definition has_attr (key : string) (tag : node) : bool :=
  match get key tag with Some _ => true | None => false end.

(** [download_selectors]: the name of the elements to look at and the
    test on them, in the order of the list. *)
Definition download_selectors : list (string * (node -> bool)) :=
  [ ("a", says_download);
    ("button", says_download);
    ("a", has_attr "download");
    ("button", has_attr "data-download") ].

(** [href = tag.get("href") or tag.get("data-href")], when [if href:]
    lets it through. *)
Definition usable_href (tag : node) : option string :=
  let href :=
    match get "href" tag with
    | Some h => if PyStr.truthy h then Some h else get "data-href" tag
    | None => get "data-href" tag
    end in
  match href with
  | Some h => if PyStr.truthy h then Some h else None
  | None => None
  end.

(** The inner loop, over the elements of one selector:
    [return urljoin(page_url, href)] ends the function, with the url or
    with the exception of [urljoin]. *)
Fixpoint scan_tags `{UrlJoin} (page_url : string) (predicate : node -> bool)
    (tags : list node) : res (option string) :=
  match tags with
  | [] => Ok None
  | tag :: rest =>
      if predicate tag then
        match usable_href tag with
        | Some href => target <- urljoin page_url href ;; Ok (Some target)
        | None => scan_tags page_url predicate rest
        end
      else scan_tags page_url predicate rest
  end.

(** The outer loop, over the selectors. *)
Fixpoint scan_selectors `{UrlJoin} (page_url : string) (soup : node)
    (selectors : list (string * (node -> bool))) : res (option string) :=
  match selectors with
  | [] => Ok None
  | (selector, predicate) :: rest =>
      match scan_tags page_url predicate (find_all (is_named [selector]) soup) with
      | Raise e => Raise e
      | Ok (Some target) => Ok (Some target)
      | Ok None => scan_selectors page_url soup rest
      end
  end.

Definition find_download_target `{HtmlParser} `{UrlJoin} (page_url html : string)
    : res (option string) :=
  scan_selectors page_url (parse_html html) download_selectors.



(** What [requests.get(url, timeout=30)] meets: a
    [requests.RequestException], or a response. *)
Inductive reply : Type :=
  | Unreachable
  | Reply (status : Z) (text : string).

Record web : Type := {
  requests_get : string -> reply
}.

(** [response.raise_for_status()] raises for the statuses 400 to 599. *)
Definition raises_for_status (status : Z) : bool :=
  (400 <=? status)%Z && (status <? 600)%Z.

(** The text of the response when neither the request nor
    [raise_for_status] raised. *)
Definition loaded (r : reply) : option string :=
  match r with
  | Reply status text => if raises_for_status status then None else Some text
  | Unreachable => None
  end.

Definition trigger_download (net : web) (url : string) : bool :=
  match loaded (requests_get net url) with
  | Some _ => true
  | None => false
  end.

(** The dataclass [ExternalLink] (its fields [id], [link_id],
    [external_url], [source_href], [link_text]). *)
Record ExternalLink : Type := {
  el_id : Z;
  el_link_id : option Z;
  el_external_url : string;
  el_source_href : string;
  el_link_text : string
}.

(** [ORDER BY id]: a stable insertion sort. *)
Fixpoint insert_by_id (e : exturl_row) (rows : list exturl_row) : list exturl_row :=
  match rows with
  | [] => [e]
  | x :: rest =>
      if (e_id e <=? e_id x)%Z then e :: rows else x :: insert_by_id e rest
  end.

Definition order_by_id (rows : list exturl_row) : list exturl_row :=
  fold_right insert_by_id [] rows.

(** [fetch_external_links]: [SELECT id, link_id, external_url,
    source_href, link_text FROM exturl ORDER BY id]. *)
Definition fetch_external_links (s : db) : list ExternalLink :=
  map (fun e => {| el_id := e_id e; el_link_id := e_link_id e;
                   el_external_url := e_external_url e;
                   el_source_href := e_source_href e;
                   el_link_text := e_link_text e |})
    (order_by_id (exturl s)).

(** What [process_external_links] does to the outside, in order: the two
    log lines that name a reference, the events of the download chain, the
    requests, and the other log lines. *)
Inductive step : Type :=
  | Processing (id : Z) (canonical : string)
  | Chain (e : event)
  | Visiting (id : Z) (url : string)
  | Get (url : string)
  | Inform (message : string)
  | Warn (message : string).

(** The part of the loop body for a reference that is not a
    content-network one.  [find_download_target] is called outside the
    [try]: its exception leaves the loop. *)
Definition visit_page `{HtmlParser} `{UrlJoin} (net : web) (ext : ExternalLink)
    : list step * res unit :=
  let url := el_external_url ext in
  let start := [Visiting (el_id ext) url; Get url] in
  match loaded (requests_get net url) with
  | None => (start ++ [Warn "Failed to load page"], Ok tt)
  | Some text =>
      match find_download_target url text with
      | Raise e => (start, Raise e)
      | Ok None => (start ++ [Warn "No download button found"], Ok tt)
      | Ok (Some target) =>
          if PyStr.truthy target then
            (start ++ Get target ::
               (if trigger_download net target
                then [Inform "Download request sent"]
                else [Warn "Download trigger failed"]), Ok tt)
          else (start ++ [Warn "No download button found"], Ok tt)
      end
  end.

(** The body of the loop for one reference. *)
Definition process_link `{HtmlParser} `{UrlLib} `{UrlJoin} (dm : daemon)
    (net : web) (ext : ExternalLink) : list step * res unit :=
  match odysee_to_canonical (el_external_url ext) with
  | Raise e => ([], Raise e)
  | Ok canonical =>
      match canonical with
      | Some (String c r) =>
          let '(evs, result) := download_with_lbrytools dm (String c r) in
          (Processing (el_id ext) (String c r) :: map Chain evs,
           match result with
           | Ok _ => Ok tt
           | Raise e => Raise e
           end)
      | _ => visit_page net ext
      end
  end.

(** The loop, from the reference of index [idx] on. *)
Fixpoint process_from `{HtmlParser} `{UrlLib} `{UrlJoin} (dm : daemon) (net : web)
    (limit : option Z) (idx : Z) (exts : list ExternalLink)
    : list step * res unit :=
  match exts with
  | [] => ([], Ok tt)
  | ext :: rest =>
      if match limit with
         | Some n => (n <=? idx)%Z
         | None => false
         end
      then ([], Ok tt)
      else
        match process_link dm net ext with
        | (steps, Raise e) => (steps, Raise e)
        | (steps, Ok _) =>
            let '(more, result) := process_from dm net limit (idx + 1) rest in
            (steps ++ more, result)
        end
  end.

Definition process_external_links `{HtmlParser} `{UrlLib} `{UrlJoin} (dm : daemon)
    (net : web) (s : db) (limit : option Z) : list step * res unit :=
  let '(steps, result) := process_from dm net limit 0 (fetch_external_links s) in
  (Inform "Stage 2 download triggering:" :: steps, result).

(** The ids of the references a run has taken up, in order. *)
Definition taken_up (steps : list step) : list Z :=
  flat_map (fun st => match st with
                      | Processing id _ => [id]
                      | Visiting id _ => [id]
                      | _ => []
                      end) steps.

Definition is_get (st : step) : bool :=
  match st with Get _ => true | _ => false end.

Definition is_chain (st : step) : bool :=
  match st with Chain _ => true | _ => false end.

End Downloads.

(** ** [master.py] and the entry points of the two scripts *)

Module Master.
Import Dom Store Scraper Resolver Downloads Crawl Report.

(** [logging.DEBUG], [logging.INFO] and [logging.WARNING] *)
Definition DEBUG : Z := 10.
Definition INFO : Z := 20.
Definition WARNING : Z := 30.

Definition determine_log_level (verbose debug : bool) : Z :=
  if debug then DEBUG
  else if verbose then INFO
  else WARNING.

(** The namespace [parse_args] returns for the parser of
    [build_parser]: one attribute for each argument, under its [dest]
    ([s], [e], [db], [o], [c], [cd], [fast], [deep], [stage1], [verbose],
    [debug]). *)
Record Namespace : Type := {
  arg_s : Z;
  arg_e : Z;
  arg_db : string;
  arg_o : option string;
  arg_c : Z;
  arg_cd : Z;
  arg_fast : bool;
  arg_deep : bool;
  arg_stage1 : bool;
  arg_verbose : bool;
  arg_debug : bool
}.

Inductive attr_value : Type :=
  | AInt (n : Z)
  | AStr (s : string)
  | ABool (b : bool)
  | ANone.

(** [bool(v)] *)
Definition attr_truthy (v : attr_value) : bool :=
  match v with
  | AInt n => negb (Z.eqb n 0)
  | AStr s => PyStr.truthy s
  | ABool b => b
  | ANone => false
  end.

(** [args.name]: an [AttributeError] for a name the parser does not
    define. *)
Definition getattr (args : Namespace) (name : string) : res attr_value :=
  if String.eqb name "s" then Ok (AInt (arg_s args))
  else if String.eqb name "e" then Ok (AInt (arg_e args))
  else if String.eqb name "db" then Ok (AStr (arg_db args))
  else if String.eqb name "o"
       then Ok (match arg_o args with Some f => AStr f | None => ANone end)
  else if String.eqb name "c" then Ok (AInt (arg_c args))
  else if String.eqb name "cd" then Ok (AInt (arg_cd args))
  else if String.eqb name "fast" then Ok (ABool (arg_fast args))
  else if String.eqb name "deep" then Ok (ABool (arg_deep args))
  else if String.eqb name "stage1" then Ok (ABool (arg_stage1 args))
  else if String.eqb name "verbose" then Ok (ABool (arg_verbose args))
  else if String.eqb name "debug" then Ok (ABool (arg_debug args))
  else Raise AttributeError.

(** The dictionary [_run_scraper] returns and [run_stage_two] takes: its
    keys [stats], [json_file], [db_path] and [failed_details] ([None] for
    a key that is missing or holds [None]). *)
Record payload : Type := {
  p_stats : option stats;
  p_json_file : option string;
  p_db_path : option string;
  p_failed_details : list string
}.

(** [run_stage_two] of [script_b.py], on the databases [connect] opens. *)
Definition run_stage_two `{HtmlParser} `{UrlLib} `{UrlJoin} (dm : daemon)
    (net : web) (connect : string -> db) (p : payload)
    : list step * res payload :=
  let summary :=
    [Inform "Stage 2 processing summary:"]
    ++ match p_stats p with
       | Some _ =>
           [Inform "  - total_links"; Inform "  - pages_with_links";
            Inform "  - links_with_details"; Inform "  - links_with_ext_urls";
            Inform "  - total_ext_urls"]
       | None => []
       end
    ++ match p_json_file p with
       | Some f => if PyStr.truthy f then [Inform "  JSON export"] else []
       | None => []
       end
    ++ [Inform "  DB path"]
    ++ match p_failed_details p with
       | [] => []
       | _ :: _ => [Warn "  Failed detail pages"]
       end in
  let skipped :=
    (summary ++ [Warn "No database path provided; skipping download triggers."],
     Ok p) in
  match p_db_path p with
  | Some path =>
      if PyStr.truthy path then
        let '(steps, result) := process_external_links dm net (connect path) None in
        (summary ++ steps,
         match result with
         | Ok _ => Ok p
         | Raise e => Raise e
         end)
      else skipped
  | None => skipped
  end.

(** What [main] does, in order. *)
Inductive act : Type :=
  | ConfigureLogging (level : Z)
  | RunScraper
  | RunStageTwo.

(** [main] of [master.py], for the arguments [parse_args] returned;
    [run_scraper] and [run_stage_two] stand for the calls of
    [script_a.run_scraper] and [script_b.run_stage_two].  In
    [args.stage2 and result] the dictionary [result] has four keys in
    both branches, so it is true. *)
Definition main (run_scraper : Namespace -> res payload)
    (run_stage_two : payload -> res payload) (args : Namespace)
    : list act * res unit :=
  match getattr args "verbose", getattr args "debug", getattr args "stage1" with
  | Ok verbose, Ok debug, Ok stage1 =>
      let configured :=
        [ConfigureLogging
           (determine_log_level (attr_truthy verbose) (attr_truthy debug))] in
      let '(acts, result) :=
        if attr_truthy stage1
        then (configured ++ [RunScraper], run_scraper args)
        else (configured,
              Ok {| p_stats := None; p_json_file := None;
                    p_db_path := Some (arg_db args); p_failed_details := [] |}) in
      match result with
      | Raise e => (acts, Raise e)
      | Ok p =>
          match getattr args "stage2" with
          | Raise e => (acts, Raise e)
          | Ok stage2 =>
              if attr_truthy stage2
              then (acts ++ [RunStageTwo],
                    match run_stage_two p with
                    | Ok _ => Ok tt
                    | Raise e => Raise e
                    end)
              else (acts, Ok tt)
          end
      end
  | Raise e, _, _ | _, Raise e, _ | _, _, Raise e => ([], Raise e)
  end.

(** [_run_scraper] of [script_a.py] on the database [store] behind
    [args.db]: the database afterwards and the dictionary returned, or the
    exception.  The scraper starts with empty lists; stage 2 runs when
    [args.deep] is set; the export runs when [args.o] is set, and its
    [open] raises an [OSError] for a path that cannot be written
    ([writable] tells which can), after the stages have committed.
    [absolute] stands for [Path.absolute].  [args.fast] only changes the
    number of connections and the delays, and what [export_json] writes
    does not reach the dictionary (a [Path] is always true, so
    [json_file] is set whenever the export has run).  The console and
    the database engine are taken not to fail. *)
Definition run_scraper `{HtmlParser} `{UrlLib} `{Sqlite} (net : site)
    (env : nat -> stmt_env) (clock : Z -> Z) (absolute : string -> string)
    (writable : string -> bool) (args : Namespace) (store final : db)
    (out : res payload) : Prop :=
  exists s1 r1,
    stage1_search net env (arg_s args) (arg_e args)
      {| links_found := []; failed_deep := []; database := store |} (s1, r1)
    /\ match r1 with
       | Raise e => final = database s1 /\ out = Raise e
       | Ok _ =>
           exists s2,
             (if arg_deep args then stage2_deep (world_of net clock) s1 s2
              else s2 = s1)
             /\ final = database s2
             /\ out = match arg_o args with
                      | Some f =>
                          if PyStr.truthy f then
                            if writable f
                            then Ok {| p_stats := Some (get_stats s2);
                                       p_json_file := Some (absolute f);
                                       p_db_path := Some (absolute (arg_db args));
                                       p_failed_details := failed_deep s2 |}
                            else Raise OSError
                          else Ok {| p_stats := Some (get_stats s2);
                                     p_json_file := None;
                                     p_db_path := Some (absolute (arg_db args));
                                     p_failed_details := failed_deep s2 |}
                      | None => Ok {| p_stats := Some (get_stats s2);
                                      p_json_file := None;
                                      p_db_path := Some (absolute (arg_db args));
                                      p_failed_details := failed_deep s2 |}
                      end
       end.

End Master.

(** ** Concrete collaborators and data, for the examples *)

Module Samples.
Import Dom Store Scraper.

(** The rowid SQLite gives on a table that has not reached the largest
    id: one more than the largest id in use. *)
Definition sqlite_next : Sqlite :=
  {| new_rowid := fun ids => (fold_right Z.max 0 ids + 1)%Z |}.

(** An engine that never fails, at time [1000]. *)
Definition calm (i : nat) : stmt_env := {| se_error := false; se_now := 1000 |}.

Definition empty_db : db := {| links := []; details := []; exturl := [] |}.

(** A scraper that found the same url on two pages, and another one. *)
Definition found_three : scraper :=
  {| links_found :=
     [ {| Page := 1; Title := "Frame"; Link := "https://guncadindex.com/detail/frame" |};
       {| Page := 1; Title := "Rail"; Link := "https://guncadindex.com/detail/rail" |};
       {| Page := 2; Title := "Frame v2"; Link := "https://guncadindex.com/detail/frame" |} ];
   failed_deep := [];
   database := empty_db |}.

(** A listing page with one card whose anchor has a relative href, and
    the document [html.parser] builds from it. *)
Definition relative_page : string :=
  "<div class='grid-view-max'><a href='detail/frame'>Frame</a></div>".

Definition relative_soup : node :=
  Tag "[document]" []
  [Tag "div" [("class", "grid-view-max")]
     [Tag "a" [("href", "detail/frame")] [Text "Frame"]]].

Definition empty_soup : node := Tag "[document]" [] [].

Definition relative_parser : HtmlParser :=
  {| parse_html := fun html =>
     if String.eqb html relative_page then relative_soup else empty_soup |}.



(** A [urllib.parse] for plain URLs: ASCII text of the form
    [scheme://host/path?query#fragment], without path parameters, brackets
    or control characters, and with escapes below [%80]. *)

Definition hex_value (c : ascii) : option nat :=
  let n := nat_of_ascii c in
  if ((48 <=? n)%nat && (n <=? 57)%nat) then Some (n - 48)
  else if ((65 <=? n)%nat && (n <=? 70)%nat) then Some (n - 55)
  else if ((97 <=? n)%nat && (n <=? 102)%nat) then Some (n - 87)
  else None.

(** [unquote]: every [%XX] with two hexadecimal digits becomes the
    character of that code. *)
Fixpoint plain_unquote (s : string) : string :=
  match s with
  | EmptyString => EmptyString
  | String c t =>
    match t with
    | String h (String l r) =>
        match Ascii.eqb c "%", hex_value h, hex_value l with
        | true, Some a, Some b => String (ascii_of_nat (16 * a + b)) (plain_unquote r)
        | _, _, _ => String c (plain_unquote t)
        end
    | _ => String c (plain_unquote t)
    end
  end.

Fixpoint plus_to_space (s : string) : string :=
  match s with
  | EmptyString => EmptyString
  | String c r => String (if Ascii.eqb c "+" then " "%char else c) (plus_to_space r)
  end.

(** [parse_qsl]: the pairs [name=value] between ampersands whose value is
    not empty, unquoted. *)
Definition plain_parse_qsl (qs : string) : list (string * string) :=
  flat_map
  (fun name_value =>
     match PyStr.split_once "=" name_value with
     | Some (name, value) =>
         if PyStr.truthy value
         then [(plain_unquote (plus_to_space name),
                plain_unquote (plus_to_space value))]
         else []
     | None => []
     end)
  (PyStr.split "&" qs).

(** [parse_qs]: the values of each name, in order. *)
Fixpoint add_value (name value : string) (d : list (string * qs_values))
  : list (string * qs_values) :=
  match d with
  | [] => [(name, {| first_value := value; more_values := [] |})]
  | (k, vs) :: r =>
    if String.eqb k name
    then (k, {| first_value := first_value vs;
                more_values := more_values vs ++ [value] |}) :: r
    else (k, vs) :: add_value name value r
  end.

Definition plain_parse_qs (qs : string) : list (string * qs_values) :=
  fold_left (fun d nv => add_value (fst nv) (snd nv) d) (plain_parse_qsl qs) [].

(** The text before the first character that satisfies [p], and the rest. *)
Fixpoint take_until (p : ascii -> bool) (s : string) : string * string :=
  match s with
  | EmptyString => (EmptyString, EmptyString)
  | String c r =>
    if p c then (EmptyString, s)
    else let '(a, b) := take_until p r in (String c a, b)
  end.

Definition is_one_of (chars : string) (c : ascii) : bool := PyStr.has_char c chars.

(** [urlparse]: the scheme up to the first colon is taken off, the
    network location follows [//] up to the next [/], [?] or [#], and the
    path runs up to the next [?] or [#]. *)
Definition plain_urlparse (uri : string) : res ParseResult :=
  let rest :=
  match PyStr.split_once ":" uri with
  | Some (scheme, after) =>
      if Url.is_absolute uri then after else uri
  | None => uri
  end in
  let '(loc, rest') :=
  if PyStr.startswith rest "//"
  then take_until (is_one_of "/?#") (PyStr.slice_from 2 rest)
  else (EmptyString, rest) in
  Ok {| netloc := loc; path := fst (take_until (is_one_of "?#") rest') |}.

Definition plain_urllib : UrlLib :=
  {| unquote := plain_unquote;
   parse_qs := plain_parse_qs;
   urlparse := plain_urlparse |}.

(** A detail page with two redirect anchors, the second without [u]. *)
Definition out_soup : node :=
  Tag "[document]" []
  [Tag "div" [("class", "description-container")]
     [Tag "a" [("href", "/out/?u=https%3A%2F%2Fodysee.com%2F%40maker%3A1%2Fframe%3Aab")]
        [Text " Odysee "];
      Tag "a" [("href", "/out/?u=&x=1")] [Text "broken"]]].

(** The detail page of [out_soup]: no description, two redirect
    anchors. *)
Definition out_page : string :=
  "<div class='description-container'><a href='/out/?u=https%3A%2F%2Fodysee.com%2F%40maker%3A1%2Fframe%3Aab'> Odysee </a><a href='/out/?u=&x=1'>broken</a></div>".

Definition detail_parser : HtmlParser :=
  {| parse_html := fun html =>
       if String.eqb html out_page then out_soup else empty_soup |}.

(** A store with two listings and no detail row. *)
Definition two_listings : scraper :=
  {| links_found := [];
     failed_deep := [];
     database :=
       {| links :=
            [ {| l_id := 1; l_page := 1; l_title := "Frame";
                 l_link := "https://guncadindex.com/detail/frame";
                 l_scanned_at := 1000 |};
              {| l_id := 2; l_page := 1; l_title := "Rail";
                 l_link := "https://guncadindex.com/detail/rail";
                 l_scanned_at := 1000 |} ];
          details := [];
          exturl := [] |} |}.

(** The fetch of the first listing fails, the second one gives
    [out_page]. *)
Definition flaky : world :=
  {| fetch := fun url =>
       if String.eqb url "https://guncadindex.com/detail/rail" then out_page
       else EmptyString;
     clock := fun _ => 2000%Z |}.

(** A daemon whose client cannot reach [lbrynet], and whose RPC endpoint
    would answer with an empty result object. *)
Definition unreachable : Resolver.daemon :=
  {| Resolver.lbryt :=
       Some (fun _ => Resolver.Raised "Cannot establish connection to lbrynet");
     Resolver.rpc_post :=
       fun _ _ => Resolver.Body (Resolver.PDict [("result", Resolver.PDict [])]);
     Resolver.download_dir := "/srv/lbry_downloads" |}.

(** A daemon whose RPC endpoint answers with the path of the saved file. *)
Definition serving : Resolver.daemon :=
  {| Resolver.lbryt := None;
     Resolver.rpc_post :=
       fun _ _ =>
         Resolver.Body
           (Resolver.PDict
              [("result",
                Resolver.PDict [("download_path", Resolver.PStr "/srv/frame.zip")])]);
     Resolver.download_dir := "/srv/lbry_downloads" |}.

End Samples.


(** ** More concrete data *)

Module MoreSamples.
Import Dom Store Scraper.

(** A detail page with a description and one redirect anchor, and the
    document [html.parser] builds from it. *)
Definition described_page : string :=
  "<div class='description-container'><span class='description-text textbox md'> A frame. </span></div><a href='/out/?u=lbry%3A%2F%2Fframe%23ab'>LBRY</a>".

Definition described_soup : node :=
  Tag "[document]" []
    [Tag "div" [("class", "description-container")]
       [Tag "span" [("class", "description-text textbox md")] [Text " A frame. "]];
     Tag "a" [("href", "/out/?u=lbry%3A%2F%2Fframe%23ab")] [Text "LBRY"]].

Definition pages_parser : HtmlParser :=
  {| parse_html := fun html =>
       if String.eqb html described_page then described_soup
       else if String.eqb html Samples.out_page then Samples.out_soup
       else Samples.empty_soup |}.

(** The first listing gives [described_page], the second one
    [out_page]. *)
Definition steady : world :=
  {| fetch := fun url =>
       if String.eqb url "https://guncadindex.com/detail/frame" then described_page
       else if String.eqb url "https://guncadindex.com/detail/rail"
            then Samples.out_page
            else EmptyString;
     clock := fun _ => 2000%Z |}.

(** A site where page 1 of the search is the listing page of
    [relative_page], page 2 answers 404 and everything else fails. *)
Definition small_site : Crawl.site :=
  {| Crawl.session_get := fun url =>
       if String.eqb url "https://guncadindex.com/search?page=1"
       then Crawl.Response 200 Samples.relative_page
       else if String.eqb url "https://guncadindex.com/search?page=2"
            then Crawl.Response 404 "Not found"
            else Crawl.NoResponse |}.

Definition fresh_scraper : scraper :=
  {| links_found := []; failed_deep := []; database := Samples.empty_db |}.

(** [urljoin] for a base without path and a reference that starts with a
    slash or is absolute; an absolute reference whose network location
    has an opening bracket and no closing one, or the reverse, is
    refused. *)
Definition plain_urljoin : UrlJoin :=
  {| urljoin := fun base ref =>
       if Url.is_absolute ref then
         match Samples.plain_urlparse ref with
         | Ok parsed =>
             if Bool.eqb (PyStr.has_char "[" (netloc parsed))
                  (PyStr.has_char "]" (netloc parsed))
             then Ok ref
             else Raise ValueError
         | Raise e => Raise e
         end
       else match Samples.plain_urlparse base with
            | Ok parsed => Ok ("https://" ++ netloc parsed ++ ref)%string
            | Raise e => Raise e
            end |}.

(** A page whose only download link has a malformed href. *)
Definition broken_link_parser : HtmlParser :=
  {| parse_html := fun _ =>
       Tag "[document]" []
         [Tag "a" [("href", "http://[::1")] [Text "Download"]] |}.

(** A page with an anchor that carries a [download] attribute before an
    anchor whose text says [Download]. *)
Definition download_page : string :=
  "<a download href='/files/manual.pdf'>Manual</a><a href='/files/frame.zip'>Download now</a>".

Definition download_soup : node :=
  Tag "[document]" []
    [Tag "a" [("download", EmptyString); ("href", "/files/manual.pdf")] [Text "Manual"];
     Tag "a" [("href", "/files/frame.zip")] [Text "Download now"]].

Definition download_parser : HtmlParser :=
  {| parse_html := fun html =>
       if String.eqb html download_page then download_soup else Samples.empty_soup |}.

(** A web where the page of the files answers with [download_page], the
    file itself is served and everything else is unreachable. *)
Definition file_web : Downloads.web :=
  {| Downloads.requests_get := fun url =>
       if String.eqb url "https://files.example/frame"
       then Downloads.Reply 200 download_page
       else if String.eqb url "https://files.example/files/frame.zip"
            then Downloads.Reply 200 "PK"
            else Downloads.Unreachable |}.

(** A store with three references: a portal url, a generic page and a
    native uri, inserted in another order than their ids. *)
Definition three_references : db :=
  {| links := links (database Samples.two_listings);
     details := [];
     exturl :=
       [ {| e_id := 3; e_link_id := Some 2%Z;
            e_external_url := "lbry://frame#ab"; e_source_href := "/out/?u=c";
            e_link_text := "LBRY"; e_scraped_at := 2000 |};
         {| e_id := 1; e_link_id := Some 1%Z;
            e_external_url := "https://odysee.com/@maker:1/frame:ab";
            e_source_href := "/out/?u=a"; e_link_text := "Odysee";
            e_scraped_at := 2000 |};
         {| e_id := 2; e_link_id := Some 1%Z;
            e_external_url := "https://files.example/frame";
            e_source_href := "/out/?u=b"; e_link_text := "Files";
            e_scraped_at := 2000 |} ] |}.


(** A dictionary as [main] builds it without stage 1, for the database
    of [three_references]. *)
Definition stored_payload : Master.payload :=
  {| Master.p_stats := None; Master.p_json_file := None;
     Master.p_db_path := Some "guncad.db"; Master.p_failed_details := [] |}.

End MoreSamples.

(** * Properties *)

Import Dom Store Scraper.
Local Close Scope list_scope.
Local Open Scope list_scope.

(** ** The store *)

Section StoreFacts.
Context `{Sqlite}.

Lemma link_exists_app (link : string) (t u : list link_row) :
  link_exists link (t ++ u) = link_exists link t || link_exists link u.
Proof. unfold link_exists. apply existsb_app. Qed.

Lemma link_exists_In (link : string) (t : list link_row) :
  link_exists link t = true <-> In link (map l_link t).
Proof.
  unfold link_exists. rewrite existsb_exists, in_map_iff. split.
  - intros [r [Hin Heq]]. apply String.eqb_eq in Heq. now exists r.
  - intros [r [Heq Hin]]. exists r. split; [assumption|].
    now apply String.eqb_eq.
Qed.

(** The insert of a listing whose url is in the table changes nothing
    and reports no row, whatever the engine does. *)
Lemma insert_existing (e : stmt_env) (page : Z) (title link : string)
  (t : list link_row) :
  link_exists link t = true ->
  exists rc, insert_or_ignore_link e page title link t = (t, rc)
           /\ (rc = None \/ rc = Some 0).
Proof.
  intros Hex. unfold insert_or_ignore_link.
  destruct (se_error e).
  - exists None. auto.
  - rewrite Hex. exists (Some 0). auto.
Qed.

(** What the loop of [save_links] appends: new rows only, one per url,
    each counted once. *)
Lemma save_links_loop_appends (env : nat -> stmt_env) (items : list link_item) :
  forall (i : nat) (t : list link_row) (n : nat),
  exists added,
  save_links_loop env i items t n = (t ++ added, n + List.length added)
  /\ NoDup (map l_link added)
  /\ (forall r, In r added -> link_exists (l_link r) t = false)
  /\ (forall r, In r added -> In (l_link r) (map Link items)).
Proof.
  induction items as [|item rest IH]; intros i t n.
  - exists []. cbn. rewrite app_nil_r, Nat.add_0_r.
    repeat split; try constructor; intros r [].
  - cbn [save_links_loop]. unfold insert_or_ignore_link.
    destruct (se_error (env i)).
    + destruct (IH (S i) t n) as [added [Heq [Hnd [Hnew Hsrc]]]].
      exists added. repeat split; auto.
      all: intros r Hr; right; now apply Hsrc.
    + destruct (link_exists (Link item) t) eqn:Hex.
      * destruct (IH (S i) t n) as [added [Heq [Hnd [Hnew Hsrc]]]].
        exists added. cbn. repeat split; auto.
        all: intros r Hr; right; now apply Hsrc.
      * set (row := {| l_id := new_rowid (map l_id t); l_page := Page item;
                       l_title := Title item; l_link := Link item;
                       l_scanned_at := se_now (env i) |}).
        destruct (IH (S i) (t ++ [row]) (S n)) as [added [Heq [Hnd [Hnew Hsrc]]]].
        exists (row :: added). cbn [Nat.ltb Nat.leb].
        rewrite Heq, <- app_assoc. cbn [app List.length map].
        replace (S n + List.length added) with (n + S (List.length added)) by lia.
        repeat split.
        -- constructor; [|assumption].
           intros Hin. apply in_map_iff in Hin. destruct Hin as [r [Hl Hr]].
           specialize (Hnew r Hr). rewrite link_exists_app in Hnew.
           apply orb_false_elim in Hnew. destruct Hnew as [_ Hrow].
           unfold link_exists in Hrow. cbn in Hrow.
           rewrite orb_false_r in Hrow. rewrite Hl in Hrow.
           now rewrite String.eqb_refl in Hrow.
        -- intros r [<-|Hr]; [exact Hex|].
           specialize (Hnew r Hr). rewrite link_exists_app in Hnew.
           now apply orb_false_elim in Hnew.
        -- intros r [<-|Hr]; [now left|]. right. now apply Hsrc.
Qed.

(** Without an engine error, every url of the batch is in the table at
    the end of the loop. *)
Lemma save_links_loop_covers (env : nat -> stmt_env) (items : list link_item) :
  forall (i : nat) (t : list link_row) (n : nat),
  (forall k, k < List.length items -> se_error (env (i + k)) = false) ->
  forall item, In item items ->
    link_exists (Link item) (fst (save_links_loop env i items t n)) = true.
Proof.
  induction items as [|x rest IH]; intros i t n Hok item Hin; [destruct Hin|].
  assert (Hrest : forall k, k < List.length rest -> se_error (env (S i + k)) = false).
  { intros k Hk. replace (S i + k) with (i + S k) by lia. apply Hok. cbn. lia. }
  assert (Hx : se_error (env i) = false).
  { replace i with (i + 0) by lia. apply Hok. cbn. lia. }
  cbn [save_links_loop]. unfold insert_or_ignore_link. rewrite Hx.
  destruct (link_exists (Link x) t) eqn:Hex.
  - destruct Hin as [<-|Hin]; [|now apply IH].
    match goal with
      | |- context [save_links_loop env (S i) rest ?t' ?n'] =>
        destruct (save_links_loop_appends env rest (S i) t' n') as [added [Heq _]]
      end.
    rewrite Heq. cbn [fst]. rewrite link_exists_app, Hex. reflexivity.
  - destruct Hin as [<-|Hin]; [|now apply IH].
    match goal with
      | |- context [save_links_loop env (S i) rest ?t' ?n'] =>
        destruct (save_links_loop_appends env rest (S i) t' n') as [added [Heq _]]
      end.
    rewrite Heq. cbn [fst]. rewrite !link_exists_app.
    unfold link_exists at 2. cbn. rewrite String.eqb_refl.
    now rewrite orb_true_r.
Qed.

(** When every url of the batch is in the table, the loop changes
    neither the table nor the count. *)
Lemma save_links_loop_noop (env : nat -> stmt_env) (items : list link_item) :
  forall (i : nat) (t : list link_row) (n : nat),
  (forall item, In item items -> link_exists (Link item) t = true) ->
  save_links_loop env i items t n = (t, n).
Proof.
  induction items as [|x rest IH]; intros i t n Hall; [reflexivity|].
  cbn [save_links_loop].
  destruct (insert_existing (env i) (Page x) (Title x) (Link x) t)
  as [rc [Heq Hrc]]; [apply Hall; now left|].
  rewrite Heq.
  destruct Hrc as [-> | ->]; cbn; apply IH; intros; apply Hall; now right.
Qed.

End StoreFacts.

(** C1. Stage 1 persistence is idempotent.  [save_links] only appends rows
    to the [links] table; the rows it appends carry pairwise different
    urls, none of which was in the table, and their number is the count it
    returns; a record whose url is in the table is passed over without a
    change or a count; and when the first run met no engine error, a second
    run over the same records (whatever the engine does then) leaves the
    store as it is and returns 0. *)
Theorem save_links_idempotent `{Sqlite} (env1 env2 : nat -> stmt_env) (s : scraper) :
  (forall i, i < List.length (links_found s) -> se_error (env1 i) = false) ->
  (exists added,
      links (database (fst (save_links env1 s))) = links (database s) ++ added
      /\ snd (save_links env1 s) = List.length added
      /\ NoDup (map l_link added)
      /\ (forall r, In r added -> link_exists (l_link r) (links (database s)) = false))
  /\ (forall env i item rest t n,
         link_exists (Link item) t = true ->
         save_links_loop env i (item :: rest) t n = save_links_loop env (S i) rest t n)
  /\ save_links env2 (fst (save_links env1 s)) = (fst (save_links env1 s), 0).
Proof.
  intros Hcalm. split; [|split].
  - unfold save_links.
    destruct (save_links_loop_appends env1 (links_found s) 0 (links (database s)) 0)
      as [added [Heq [Hnd [Hnew _]]]].
    rewrite Heq. cbn. exists added. auto.
  - intros env i item rest t n Hex. cbn [save_links_loop].
    destruct (insert_existing (env i) (Page item) (Title item) (Link item) t Hex)
      as [rc [Heq [-> | ->]]]; rewrite Heq; reflexivity.
  - pose proof (save_links_loop_covers env1 (links_found s) 0 (links (database s)) 0
                  Hcalm) as Hcov.
    unfold save_links at 2 3.
    destruct (save_links_loop env1 0 (links_found s) (links (database s)) 0)
      as [t1 n1] eqn:Hrun.
    cbn [fst snd] in *. unfold save_links. cbn [links_found database links].
    rewrite (save_links_loop_noop env2 (links_found s) 0 t1 0 Hcov).
    reflexivity.
Qed.

(** The second run over three found records, two of them with the same
    url, inserts nothing. *)
Lemma save_links_idempotent_witness :
  save_links (H := Samples.sqlite_next) Samples.calm
    (fst (save_links (H := Samples.sqlite_next) Samples.calm Samples.found_three))
  = (fst (save_links (H := Samples.sqlite_next) Samples.calm Samples.found_three), 0).
Proof.
  apply (save_links_idempotent (H := Samples.sqlite_next)
           Samples.calm Samples.calm Samples.found_three).
  intros i _. reflexivity.
Defined.

(** The query of [get_unscraped] is the anti-join, as a filter. *)
Lemma get_unscraped_filter (s : scraper) :
  get_unscraped s
  = map (fun l => (l_id l, l_link l))
      (filter (fun l => negb (existsb (is_detail_of (l_id l)) (details (database s))))
         (links (database s))).
Proof.
  unfold get_unscraped, select_undetailed, left_join.
  generalize (details (database s)) as ds.
  induction (links (database s)) as [|l ls IH]; intros ds; [reflexivity|].
  cbn [flat_map filter]. rewrite filter_app, map_app, IH.
  destruct (filter (is_detail_of (l_id l)) ds) as [|m ms] eqn:Hf.
  - assert (Hno : existsb (is_detail_of (l_id l)) ds = false).
    { apply not_true_is_false. intros Hex. apply existsb_exists in Hex.
      destruct Hex as [d [Hin Hd]].
      assert (Hd' : In d (filter (is_detail_of (l_id l)) ds))
        by (apply filter_In; auto).
      rewrite Hf in Hd'. destruct Hd'. }
    rewrite Hno. reflexivity.
  - assert (Hyes : existsb (is_detail_of (l_id l)) ds = true).
    { apply existsb_exists. exists m.
      apply (proj1 (filter_In _ _ _)). rewrite Hf. now left. }
    rewrite Hyes. cbn [negb].
    assert (Hnone : forall ms',
               (forall d, In d ms' -> is_detail_of (l_id l) d = true) ->
               filter link_id_is_null (map (fun d => (l, Some d)) ms') = []).
    { induction ms' as [|d rest IHr]; intros Hall; [reflexivity|].
      cbn [map filter].
      assert (Hd : link_id_is_null (l, Some d) = false).
      { specialize (Hall d (or_introl eq_refl)).
        unfold is_detail_of in Hall. unfold link_id_is_null. cbn.
        destruct (d_link_id d); [reflexivity|discriminate]. }
      rewrite Hd. apply IHr. intros d' Hd'. apply Hall. now right. }
    rewrite Hnone; [reflexivity|].
    intros d Hd. rewrite <- Hf in Hd. now apply filter_In in Hd.
Qed.

Lemma no_detail_iff (id : Z) (ds : list detail_row) :
  existsb (is_detail_of id) ds = false <->
  forall d, In d ds -> d_link_id d <> Some id.
Proof.
  split.
  - intros Hno d Hd Hlink.
    assert (Hex : existsb (is_detail_of id) ds = true).
    { apply existsb_exists. exists d. split; [assumption|].
      unfold is_detail_of. rewrite Hlink. apply Z.eqb_refl. }
    congruence.
  - intros Hno. apply not_true_is_false. intros Hex.
    apply existsb_exists in Hex. destruct Hex as [d [Hd Hmatch]].
    apply (Hno d Hd). unfold is_detail_of in Hmatch.
    destruct (d_link_id d) as [k|]; [|discriminate].
    apply Z.eqb_eq in Hmatch. congruence.
Qed.

Lemma in_get_unscraped (s : scraper) (id : Z) (url : string) :
  In (id, url) (get_unscraped s) <->
  exists l, In l (links (database s)) /\ l_id l = id /\ l_link l = url
            /\ forall d, In d (details (database s)) -> d_link_id d <> Some id.
Proof.
  rewrite get_unscraped_filter, in_map_iff. split.
  - intros [l [Hpair Hin]]. apply filter_In in Hin. destruct Hin as [Hin Hno].
    injection Hpair as Hid Hurl. exists l. repeat split; auto.
    apply negb_true_iff in Hno. rewrite Hid in Hno. now apply no_detail_iff.
  - intros [l [Hin [Hid [Hurl Hno]]]]. exists l. split; [now subst|].
    apply filter_In. split; [assumption|]. apply negb_true_iff.
    rewrite Hid. now apply no_detail_iff.
Qed.

(** C4. The undetailed work set is the anti-join of the listings with the
    detail rows: [get_unscraped] returns, in table order, the id and url of
    exactly the listings for whose id no detail row exists. *)
Theorem get_unscraped_anti_join (s : scraper) :
  get_unscraped s
  = map (fun l => (l_id l, l_link l))
      (filter (fun l => negb (existsb (is_detail_of (l_id l)) (details (database s))))
         (links (database s)))
  /\ forall id url,
       In (id, url) (get_unscraped s) <->
       exists l, In l (links (database s)) /\ l_id l = id /\ l_link l = url
                 /\ forall d, In d (details (database s)) -> d_link_id d <> Some id.
Proof.
  split.
  - apply get_unscraped_filter.
  - intros id url. apply in_get_unscraped.
Qed.

(** ** Listing pages *)

Section ListingFacts.

Lemma slice_to_length (n : nat) (s : string) :
  String.length (PyStr.slice_to n s) <= n.
Proof.
  revert s. induction n as [|n IH]; intros [|c r]; cbn; try lia.
  specialize (IH r). lia.
Qed.

Lemma slice_to_truthy (n : nat) (s : string) :
  PyStr.truthy s = true -> PyStr.truthy (PyStr.slice_to (S n) s) = true.
Proof. destruct s; [discriminate|reflexivity]. Qed.

Lemma truthy_nonempty (s : string) : PyStr.truthy s = true <-> s <> EmptyString.
Proof. destruct s; cbn; split; congruence. Qed.

(** What [absolutize] does to absoluteness: the result is absolute
    exactly when the href starts with a slash or is absolute itself. *)
Lemma absolutize_absolute (href : string) :
  Url.is_absolute (absolutize href)
  = PyStr.startswith href "/" || Url.is_absolute href.
Proof.
  unfold absolutize. destruct (PyStr.startswith href "/"); reflexivity.
Qed.

Lemma find_holds (p : node -> bool) (n a : node) :
  find p n = Some a -> p a = true /\ In a (find_all p n).
Proof.
  unfold find. destruct (find_all p n) as [|x l] eqn:Hf; [discriminate|].
  intros [= <-].
  assert (Hin : In x (find_all p n)) by (rewrite Hf; now left).
  split; [|first [assumption | now left]].
  unfold find_all in Hin. now apply filter_In in Hin.
Qed.

Lemma anchor_has_href (div a : node) :
  find is_anchor_with_href div = Some a -> exists href, get "href" a = Some href.
Proof.
  intros Ha. apply find_holds in Ha. destruct Ha as [Ha _].
  unfold is_anchor_with_href in Ha. apply andb_true_iff in Ha.
  destruct Ha as [_ Ha]. destruct (get "href" a) as [href|]; [|discriminate].
  now exists href.
Qed.

Lemma extract_card_some (page_num : Z) (div : node) (r : link_item) :
  extract_card page_num div = Ok (Some r) -> from_card page_num div r.
Proof.
  unfold extract_card, from_card, getitem.
  destruct (find is_anchor_with_href div) as [a|] eqn:Ha; [|discriminate].
  destruct (get "href" a) as [href|] eqn:Hh; [|discriminate]. cbn [bind].
  destruct (card_title div a) as [title|e] eqn:Hc; [|discriminate]. cbn [bind].
  destruct (PyStr.truthy title) eqn:Ht; [|discriminate].
  intros [= <-]. exists a, href, title.
  split; [reflexivity|]. split; [assumption|]. split; [assumption|].
  split; [now apply truthy_nonempty|reflexivity].
Qed.

(** A card without a title heading whose anchor has a [title] attribute
    that is not empty: the expression picks the attribute, a [str], and
    [get_text] raises. *)
Lemma card_title_attribute_raises (div a : node) (t : string) :
  find is_title_heading div = None ->
  get "title" a = Some t ->
  t <> EmptyString ->
  card_title div a = Raise AttributeError.
Proof.
  intros Hh Ht Hne. unfold card_title. rewrite Hh, Ht.
  apply truthy_nonempty in Hne. now rewrite Hne.
Qed.

Lemma extract_cards_appends (page_num : Z) (divs : list node) :
  forall found, exists new,
  fst (extract_cards page_num divs found) = found ++ new
  /\ Forall (fun r => exists div, In div divs /\ from_card page_num div r) new.
Proof.
  induction divs as [|div rest IH]; intros found.
  - exists []. cbn. now rewrite app_nil_r.
  - cbn [extract_cards].
    destruct (extract_card page_num div) as [[item|]|e] eqn:Hcard.
    + destruct (IH (found ++ [item])) as [new [Heq Hall]].
      exists (item :: new). rewrite Heq, <- app_assoc. split; [reflexivity|].
      constructor.
      * exists div. split; [now left|]. now apply extract_card_some.
      * eapply Forall_impl; [|exact Hall].
        intros r [d [Hd Hr]]. exists d. split; [now right|assumption].
    + destruct (IH found) as [new [Heq Hall]]. exists new. split; [assumption|].
      eapply Forall_impl; [|exact Hall].
      intros r [d [Hd Hr]]. exists d. split; [now right|assumption].
    + exists []. cbn. now rewrite app_nil_r.
Qed.

End ListingFacts.

(** C2, as the code has it.  [extract_links] only appends to [self.links];
    every record it appends comes from a card of the page, has a title of
    at most 100 characters, and has as url the href of the card's anchor,
    with the origin of the site put in front when the href starts with a
    slash and unchanged otherwise: the url is absolute exactly when the href
    starts with a slash or is absolute itself. *)
Theorem extract_links_records `{HtmlParser} (html : string) (page_num : Z)
    (found : list link_item) :
  exists new,
    fst (extract_links html page_num found) = found ++ new
    /\ Forall
         (fun r =>
            String.length (Title r) <= 100
            /\ exists div a href,
                 In div (find_all is_card (parse_html html))
                 /\ find is_anchor_with_href div = Some a
                 /\ get "href" a = Some href
                 /\ Link r = (if PyStr.startswith href "/" then origin ++ href
                              else href)%string
                 /\ Url.is_absolute (Link r)
                    = PyStr.startswith href "/" || Url.is_absolute href)
         new.
Proof.
  unfold extract_links. destruct (PyStr.truthy html); cbn [negb].
  - destruct (extract_cards_appends page_num (find_all is_card (parse_html html)) found)
      as [new [Heq Hall]].
    exists new. split; [assumption|].
    eapply Forall_impl; [|exact Hall].
    intros r [div [Hdiv [a [href [title [Ha [Hh [_ [_ ->]]]]]]]]]. cbn [Title Link].
    split; [apply slice_to_length|].
    exists div, a, href. repeat split; auto. apply absolutize_absolute.
  - exists []. cbn. rewrite app_nil_r. split; [reflexivity|constructor].
Qed.

(** C2 as stated fails: a card whose anchor has the href [detail/frame]
    yields a record whose url is that href, which is not absolute. *)
Lemma extract_links_relative_href :
  ~ (forall (P : HtmlParser) (html : string) (page_num : Z) (r : link_item),
        In r (fst (extract_links html page_num [])) ->
        String.length (Title r) <= 100 /\ Url.is_absolute (Link r) = true).
Proof.
  intros Hclaim.
  destruct (Hclaim Samples.relative_parser Samples.relative_page 1%Z
              {| Page := 1; Title := "Frame"; Link := "detail/frame" |})
    as [_ Habs].
  - vm_compute. now left.
  - vm_compute in Habs. discriminate.
Qed.



(** ** Detail pages *)

Section DetailFacts.
Context `{UrlLib}.

Lemma prefix_has_char (c : ascii) (p : string) :
  forall s, String.prefix p s = true ->
          PyStr.has_char c p = true -> PyStr.has_char c s = true.
Proof.
  induction p as [|a p IH]; intros s Hp Hc; [discriminate|].
  destruct s as [|b s]; [discriminate|]. cbn in Hp.
  destruct (ascii_dec a b) as [->|]; [|discriminate].
  cbn in Hc |- *. apply orb_true_iff in Hc. apply orb_true_iff.
  destruct Hc as [Hc|Hc]; [now left|]. right. now apply IH.
Qed.

Lemma contains_has_char (c : ascii) (p s : string) :
  PyStr.contains p s = true ->
  PyStr.has_char c p = true -> PyStr.has_char c s = true.
Proof.
  intros Hin Hc. induction s as [|b s IH].
  - cbn in Hin. rewrite orb_false_r in Hin. now apply (prefix_has_char c p).
  - cbn [PyStr.contains] in Hin. apply orb_true_iff in Hin.
    destruct Hin as [Hp|Hin]; [now apply (prefix_has_char c p)|].
    cbn. apply orb_true_iff. right. now apply IH.
Qed.

(** [s.split(c)] has a second element when [c] occurs in [s]. *)
Lemma split_second (c : ascii) (s : string) :
  PyStr.has_char c s = true ->
  exists a b r, PyStr.split c s = a :: b :: r.
Proof.
  induction s as [|d s IH]; intros Hc; [discriminate|].
  cbn in Hc |- *. rewrite Ascii.eqb_sym in Hc.
  destruct (Ascii.eqb d c).
  - destruct (PyStr.split c s) as [|b r] eqn:Hs.
    + destruct s; cbn in Hs; [discriminate|].
      destruct (Ascii.eqb a c); [discriminate|].
      destruct (PyStr.split c s); discriminate.
    + now exists EmptyString, b, r.
  - cbn in Hc. destruct (IH Hc) as [a [b [r ->]]].
    now exists (String d a), b, r.
Qed.

(** On an href that holds the marker, the code reads the [u] parameter
    the way [usable_u] words it, and raises nothing. *)
Lemma u_param_usable (href : string) :
  PyStr.contains "/out/?u=" href = true ->
  exists u, u_param href = Ok u
          /\ usable_u href
             = match u with
               | Some v => if PyStr.truthy v then Some v else None
               | None => None
               end.
Proof.
  intros Hm.
  assert (Hq : PyStr.has_char "?" href = true)
  by (apply (contains_has_char "?" "/out/?u="); [assumption|reflexivity]).
  unfold u_param, usable_u. rewrite Hq.
  destruct (split_second "?" href Hq) as [a [query [r ->]]].
  destruct (dict_get "u" (parse_qs query)) as [values|].
  - exists (Some (first_value values)). split; reflexivity.
  - exists None. split; reflexivity.
Qed.

Lemma ext_links_loop_spec (anchors : list node) :
  Forall (fun a => is_out_anchor a = true) anchors ->
  forall acc,
  ext_links_loop anchors acc
  = Ok (acc ++ flat_map (fun a => match reference_of a with
                                  | Some r => [r]
                                  | None => []
                                  end) anchors).
Proof.
  induction 1 as [|a rest Ha _ IH]; intros acc.
  - cbn. now rewrite app_nil_r.
  - unfold is_out_anchor in Ha. apply andb_true_iff in Ha. destruct Ha as [_ Ha].
    cbn [ext_links_loop flat_map]. unfold getitem, reference_of.
    destruct (get "href" a) as [href|]; [|discriminate].
    apply andb_true_iff in Ha. destruct Ha as [_ Hm].
    destruct (u_param_usable href Hm) as [u [Hu1 Hu2]].
    cbn [bind]. rewrite Hu1, Hu2. cbn [bind].
    destruct u as [v|]; [destruct (PyStr.truthy v)|]; rewrite IH.
    + now rewrite <- app_assoc.
    + reflexivity.
    + reflexivity.
Qed.

(** [extract_ext_links] never raises. *)
Lemma extract_ext_links_ok (soup : node) :
  extract_ext_links soup = Ok (references_of_page soup).
Proof.
  unfold extract_ext_links, references_of_page.
  rewrite ext_links_loop_spec; [reflexivity|].
  apply Forall_forall. intros a Ha. unfold find_all in Ha.
  now apply filter_In in Ha.
Qed.

End DetailFacts.

(** X24. What [scrape_detail] extracts from a page.  The extraction
    raises nothing: the [IndexError] of [href.split('?')[1]] cannot occur,
    since the marker holds a question mark.  The references are, in
    document order, those of the anchors whose href holds the marker
    [/out/?u=] and carries a [u] parameter that is not empty, read from
    the text between the first and the second question mark.  Such an
    anchor gives one reference, whose [external_url] is the value
    [parse_qs] returned for [u], unquoted once more, whose [source_href]
    is the href and whose [link_text] is the stripped text of the anchor
    cut to 50 characters; an anchor with the marker and without such a
    [u] gives none. *)
Theorem extract_ext_links_references `{UrlLib} (soup : node) :
  extract_ext_links soup
  = Ok (flat_map (fun a => match reference_of a with Some r => [r] | None => [] end)
          (filter is_out_anchor (descendants soup)))
  /\ (forall a, In a (find_all is_out_anchor soup) ->
        exists href,
          get "href" a = Some href
          /\ PyStr.contains "/out/?u=" href = true
          /\ match usable_u href with
             | Some u =>
                 u <> EmptyString
                 /\ reference_of a
                    = Some {| external_url := unquote u;
                              source_href := href;
                              link_text := PyStr.slice_to 50 (get_text_strip a) |}
             | None => reference_of a = None
             end)
  /\ (forall r, In r (references_of_page soup) ->
        String.length (link_text r) <= 50
        /\ exists a, In a (find_all is_out_anchor soup) /\ reference_of a = Some r).
Proof.
  split; [apply extract_ext_links_ok|]. split.
  - intros a Ha. unfold find_all in Ha. apply filter_In in Ha.
    destruct Ha as [_ Ha]. unfold is_out_anchor in Ha.
    apply andb_true_iff in Ha. destruct Ha as [_ Ha].
    unfold reference_of.
    destruct (get "href" a) as [href|]; [|discriminate].
    apply andb_true_iff in Ha. destruct Ha as [_ Hm].
    exists href. split; [reflexivity|]. split; [assumption|].
    destruct (usable_u href) as [u|] eqn:Hu; [|reflexivity].
    split; [|reflexivity].
    unfold usable_u in Hu.
    destruct (PyStr.split "?" href) as [|x [|query rest]]; try discriminate.
    destruct (dict_get "u" (parse_qs query)) as [values|]; [|discriminate].
    destruct (PyStr.truthy (first_value values)) eqn:Ht; [|discriminate].
    injection Hu as <-. now apply truthy_nonempty.
  - intros r Hr. unfold references_of_page in Hr. apply in_flat_map in Hr.
    destruct Hr as [a [Ha Hr]].
    destruct (reference_of a) as [r'|] eqn:Href; [|destruct Hr].
    destruct Hr as [<-|[]]. split; [|now exists a].
    unfold reference_of in Href.
    destruct (get "href" a) as [href|]; [|discriminate].
    destruct (usable_u href) as [u|]; [|discriminate].
    injection Href as <-. exact (slice_to_length 50 (get_text_strip a)).
Qed.

(** On a page with two redirect anchors, one of them without a value for
    [u], the plain library gives one reference. *)
Example extract_ext_links_two_anchors :
  extract_ext_links (H := Samples.plain_urllib) Samples.out_soup
  = Ok [ {| external_url := "https://odysee.com/@maker:1/frame:ab";
            source_href := "/out/?u=https%3A%2F%2Fodysee.com%2F%40maker%3A1%2Fframe%3Aab";
            link_text := "Odysee" |} ].
Proof. vm_compute. reflexivity. Qed.

(** C3.  The claim fails on the code: the [external_url] of a reference is
    not the URL-unescaped value of its [u] parameter.  The redirect to
    [https://files.example/a%20b] (a file whose name has a space) has the
    href [/out/?u=https%3A%2F%2Ffiles.example%2Fa%2520b]; the unescaped
    value of [u] is the target, and the code, which unquotes the value
    that [parse_qs] has already unescaped, stores
    [https://files.example/a b].  The other parts of the claim hold there:
    the anchor gives one reference, [source_href] is the href and
    [link_text] the text. *)
Theorem external_url_unquoted_twice :
  unescaped_u (H := Samples.plain_urllib)
    "/out/?u=https%3A%2F%2Ffiles.example%2Fa%2520b"
  = Some "https://files.example/a%20b"
  /\ extract_ext_links (H := Samples.plain_urllib)
       (Tag "[document]" []
          [Tag "a" [("href", "/out/?u=https%3A%2F%2Ffiles.example%2Fa%2520b")]
             [Text "Files"]])
     = Ok [ {| external_url := "https://files.example/a b";
               source_href := "/out/?u=https%3A%2F%2Ffiles.example%2Fa%2520b";
               link_text := "Files" |} ]
  /\ ~ (forall (U : UrlLib) (soup : node) (refs : list ext_link),
          extract_ext_links soup = Ok refs ->
          Forall (fun r => unescaped_u (source_href r) = Some (external_url r)) refs).
Proof.
  assert (Hu : unescaped_u (H := Samples.plain_urllib)
                 "/out/?u=https%3A%2F%2Ffiles.example%2Fa%2520b"
               = Some "https://files.example/a%20b") by (vm_compute; reflexivity).
  assert (Hrefs : extract_ext_links (H := Samples.plain_urllib)
                    (Tag "[document]" []
                       [Tag "a"
                          [("href", "/out/?u=https%3A%2F%2Ffiles.example%2Fa%2520b")]
                          [Text "Files"]])
                  = Ok [ {| external_url := "https://files.example/a b";
                            source_href :=
                              "/out/?u=https%3A%2F%2Ffiles.example%2Fa%2520b";
                            link_text := "Files" |} ])
    by (vm_compute; reflexivity).
  split; [exact Hu|]. split; [exact Hrefs|].
  intros Hclaim.
  specialize (Hclaim Samples.plain_urllib _ _ Hrefs).
  apply Forall_inv in Hclaim. cbn [source_href external_url] in Hclaim.
  rewrite Hu in Hclaim. discriminate.
Qed.

(** The query ends at a second question mark: a value of [u] that holds
    one is cut there. *)
Example external_url_cut_at_question_mark :
  extract_ext_links (H := Samples.plain_urllib)
    (Tag "[document]" []
       [Tag "a" [("href", "/out/?u=https://files.example/get?id=7")] [Text "x"]])
  = Ok [ {| external_url := "https://files.example/get";
            source_href := "/out/?u=https://files.example/get?id=7";
            link_text := "x" |} ]
  /\ unescaped_u (H := Samples.plain_urllib) "/out/?u=https://files.example/get?id=7"
     = Some "https://files.example/get?id=7".
Proof. split; vm_compute; reflexivity. Qed.

(** ** Canonical identifiers *)

Import Resolver.

Section CanonicalFacts.

Lemma startswith_app (p s : string) :
  PyStr.startswith (p ++ s)%string p = true.
Proof.
  unfold PyStr.startswith. induction p as [|a p IH]; cbn.
  - now destruct s.
  - destruct (ascii_dec a a); [assumption|congruence].
Qed.

Lemma slice_from_app (p s : string) :
  PyStr.slice_from (String.length p) (p ++ s)%string = s.
Proof. induction p as [|a p IH]; cbn; [reflexivity|assumption]. Qed.

Lemma split_once_char (c : ascii) (s : string) :
  PyStr.has_char c s = true ->
  exists a b, PyStr.split_once c s = Some (a, b)
            /\ s = (a ++ String c b)%string
            /\ PyStr.has_char c a = false.
Proof.
  induction s as [|d s IH]; intros Hc; [discriminate|].
  cbn in Hc |- *. rewrite Ascii.eqb_sym in Hc.
  destruct (Ascii.eqb d c) eqn:Hd.
  - apply Ascii.eqb_eq in Hd. subst d.
    exists EmptyString, s. repeat split; reflexivity.
  - cbn in Hc. destruct (IH Hc) as [a [b [-> [-> Ha]]]].
    exists (String d a), b. repeat split. cbn.
    rewrite Ascii.eqb_sym, Hd. exact Ha.
Qed.

(** A segment with a colon and no hash mark has its first colon turned
    into a hash mark. *)
Lemma rewrite_segment_colon (segment : string) :
  PyStr.has_char ":" segment = true ->
  PyStr.has_char "#" segment = false ->
  exists name short_id,
  segment = (name ++ ":" ++ short_id)%string
  /\ PyStr.has_char ":" name = false
  /\ rewrite_segment segment = (name ++ "#" ++ short_id)%string.
Proof.
  intros Hc Hh. unfold rewrite_segment. rewrite Hc, Hh. cbn [negb andb].
  destruct (split_once_char ":" segment Hc) as [name [short_id [-> [Heq Hn]]]].
  exists name, short_id. repeat split; assumption.
Qed.

Lemma rewrite_segment_other (segment : string) :
  PyStr.has_char ":" segment = false \/ PyStr.has_char "#" segment = true ->
  rewrite_segment segment = segment.
Proof.
  unfold rewrite_segment. intros [-> | ->]; [reflexivity|].
  now rewrite andb_false_r.
Qed.

End CanonicalFacts.

(** C5, as the code has it.  A uri that starts with [lbry://] gives the
    text after that prefix with the slashes at both ends removed
    ([lbry://foo/bar] gives [foo/bar]).  Any other uri is parsed, and
    when [urlparse] raises, so does [odysee_to_canonical].  When the
    network location, in lower case, holds the text [odysee.com] and the
    path, trimmed of slashes and unquoted, is not empty, the result is
    that path split at the slashes, with every segment that has a colon
    and no hash mark rewritten from [name:shortId] to [name#shortId],
    joined by slashes and trimmed again (the path [/Item:abc123] gives
    [Item#abc123]); when the network location does not hold that text,
    or that path is empty, the result is [None]. *)
Theorem odysee_to_canonical_cases `{UrlLib} :
  (forall rest,
      odysee_to_canonical ("lbry://" ++ rest) = Ok (Some (PyStr.strip_slash rest)))
  /\ odysee_to_canonical "lbry://foo/bar" = Ok (Some "foo/bar")
  /\ (forall uri parsed,
        PyStr.startswith uri "lbry://" = false ->
        urlparse uri = Ok parsed ->
        PyStr.contains "odysee.com" (PyStr.lower (netloc parsed)) = true ->
        unquote (PyStr.strip_slash (path parsed)) <> EmptyString ->
        odysee_to_canonical uri
        = Ok (Some (PyStr.strip_slash
                      (PyStr.join "/"
                         (map rewrite_segment
                            (PyStr.split "/"
                               (unquote (PyStr.strip_slash (path parsed)))))))))
  /\ (forall segment,
        PyStr.has_char ":" segment = true ->
        PyStr.has_char "#" segment = false ->
        exists name short_id,
          segment = (name ++ ":" ++ short_id)%string
          /\ PyStr.has_char ":" name = false
          /\ rewrite_segment segment = (name ++ "#" ++ short_id)%string)
  /\ (forall segment,
        PyStr.has_char ":" segment = false \/ PyStr.has_char "#" segment = true ->
        rewrite_segment segment = segment)
  /\ (forall uri host,
        PyStr.startswith uri "lbry://" = false ->
        urlparse uri = Ok {| netloc := host; path := "/Item:abc123" |} ->
        PyStr.contains "odysee.com" (PyStr.lower host) = true ->
        unquote "Item:abc123" = "Item:abc123" ->
        odysee_to_canonical uri = Ok (Some "Item#abc123"))
  /\ (forall uri parsed,
        PyStr.startswith uri "lbry://" = false ->
        urlparse uri = Ok parsed ->
        PyStr.contains "odysee.com" (PyStr.lower (netloc parsed)) = false ->
        odysee_to_canonical uri = Ok None)
  /\ (forall uri parsed,
        PyStr.startswith uri "lbry://" = false ->
        urlparse uri = Ok parsed ->
        unquote (PyStr.strip_slash (path parsed)) = EmptyString ->
        odysee_to_canonical uri = Ok None)
  /\ (forall uri e,
        PyStr.startswith uri "lbry://" = false ->
        urlparse uri = Raise e ->
        odysee_to_canonical uri = Raise e).
Proof.
  assert (Hportal : forall uri parsed,
        PyStr.startswith uri "lbry://" = false ->
        urlparse uri = Ok parsed ->
        PyStr.contains "odysee.com" (PyStr.lower (netloc parsed)) = true ->
        unquote (PyStr.strip_slash (path parsed)) <> EmptyString ->
        odysee_to_canonical uri
        = Ok (Some (PyStr.strip_slash
                      (PyStr.join "/"
                         (map rewrite_segment
                            (PyStr.split "/"
                               (unquote (PyStr.strip_slash (path parsed))))))))).
  { intros uri parsed Hn Hp Hhost Hpath. unfold odysee_to_canonical.
    rewrite Hn, Hp. cbn [bind]. rewrite Hhost. cbn [negb].
    apply truthy_nonempty in Hpath. rewrite Hpath. reflexivity. }
  assert (Hnative : forall rest,
      odysee_to_canonical ("lbry://" ++ rest) = Ok (Some (PyStr.strip_slash rest))).
  { intros rest. unfold odysee_to_canonical.
    now rewrite startswith_app, slice_from_app. }
  repeat apply conj.
  - exact Hnative.
  - exact (Hnative "foo/bar").
  - exact Hportal.
  - exact rewrite_segment_colon.
  - exact rewrite_segment_other.
  - intros uri host Hn Hp Hhost Hu.
    rewrite (Hportal uri _ Hn Hp Hhost).
    + cbn [path]. change (PyStr.strip_slash "/Item:abc123") with "Item:abc123".
      rewrite Hu. reflexivity.
    + cbn [path]. change (PyStr.strip_slash "/Item:abc123") with "Item:abc123".
      rewrite Hu. discriminate.
  - intros uri parsed Hn Hp Hhost. unfold odysee_to_canonical.
    rewrite Hn, Hp. cbn [bind]. rewrite Hhost. reflexivity.
  - intros uri parsed Hn Hp Hpath. unfold odysee_to_canonical.
    rewrite Hn, Hp. cbn [bind]. rewrite Hpath.
    destruct (PyStr.contains "odysee.com" (PyStr.lower (netloc parsed)));
      reflexivity.
  - intros uri e Hn Hp. unfold odysee_to_canonical. rewrite Hn, Hp. reflexivity.
Qed.

(** C5 as stated fails: the host [notodysee.com.evil.org] is not the
    portal and the url gets an identifier all the same, because the name
    of the portal occurs in it. *)
Lemma odysee_to_canonical_foreign_host :
  ~ (forall (U : UrlLib) (uri : string) (parsed : ParseResult),
        PyStr.startswith uri "lbry://" = false ->
        urlparse uri = Ok parsed ->
        host_matches (netloc parsed) = false ->
        odysee_to_canonical uri = Ok None).
Proof.
  intros Hclaim.
  assert (Hparsed : urlparse (UrlLib := Samples.plain_urllib)
                      "https://notodysee.com.evil.org/x:1"
                    = Ok {| netloc := "notodysee.com.evil.org"; path := "/x:1" |})
    by (vm_compute; reflexivity).
  assert (Hhost : host_matches "notodysee.com.evil.org" = false)
    by (vm_compute; reflexivity).
  assert (Hid : odysee_to_canonical (H := Samples.plain_urllib)
                  "https://notodysee.com.evil.org/x:1" = Ok (Some "x#1"))
    by (vm_compute; reflexivity).
  specialize (Hclaim Samples.plain_urllib "https://notodysee.com.evil.org/x:1"
                _ eq_refl Hparsed Hhost).
  rewrite Hid in Hclaim. discriminate.
Qed.

(** The same with the name of the portal as user information: the host is
    [evil.org]. *)
Example odysee_to_canonical_user_information :
  hostname "odysee.com@evil.org" = "evil.org"
  /\ odysee_to_canonical (H := Samples.plain_urllib) "https://odysee.com@evil.org/x:1"
     = Ok (Some "x#1").
Proof. split; vm_compute; reflexivity. Qed.

(** With the plain library, the portal url of the item [Item:abc123] gives
    [Item#abc123]. *)
Lemma odysee_to_canonical_cases_witness :
  odysee_to_canonical (H := Samples.plain_urllib) "https://odysee.com/Item:abc123"
  = Ok (Some "Item#abc123").
Proof.
  apply (proj1 (proj2 (proj2 (proj2 (proj2 (proj2
           (odysee_to_canonical_cases (H := Samples.plain_urllib))))))))
    with (host := "odysee.com"); reflexivity.
Defined.

(** ** The download chain *)

Section ChainFacts.
Variable dm : daemon.
Variable canonical_uri : string.

(** Tier C posts [get] for the native uri to the RPC endpoint. *)
Lemma fallback_posts :
  In (PostRpc "get" ("lbry://" ++ canonical_uri))
     (fst (fallback_lbry_get dm canonical_uri)).
Proof.
  unfold fallback_lbry_get, call_lbry_rpc.
  destruct (rpc_post dm "get" ("lbry://" ++ canonical_uri)) as [| |data];
    cbn; auto.
  destruct (contains_error data) as [[|]|e]; cbn; auto.
  { destruct (py_item "error" data); cbn; auto. }
  destruct (py_get "result" data) as [result|e]; cbn; auto.
  destruct result; cbn; auto;
    repeat match goal with
           | |- context [output_path dm ?v] => destruct (output_path dm v); cbn; auto
           | |- context [if ?b then _ else _] => destruct b; cbn; auto
           end.
Qed.

Lemma falls_through_intro (before : list event) :
  existsb is_rpc_post before = false ->
  download_with_lbrytools dm canonical_uri
  = (before ++ fst (fallback_lbry_get dm canonical_uri),
     snd (fallback_lbry_get dm canonical_uri)) ->
  falls_through dm canonical_uri.
Proof.
  intros Hb Heq. exists before. rewrite Heq. auto.
Qed.

(** What Tier C returns, by the answer of the endpoint. *)
Lemma fallback_result :
  snd (fallback_lbry_get dm canonical_uri)
  = match rpc_post dm "get" ("lbry://" ++ canonical_uri) with
    | RequestFailed | InvalidJson => Ok false
    | Body data =>
        has_error <- contains_error data ;;
        if has_error then (_ <- py_item "error" data ;; Ok false)
        else
          result <- py_get "result" data ;;
          if truthy result then (_ <- output_path dm result ;; Ok true)
          else Ok false
    end.
Proof.
  unfold fallback_lbry_get, call_lbry_rpc.
  destruct (rpc_post dm "get" ("lbry://" ++ canonical_uri)) as [| |data];
    try reflexivity.
  destruct (contains_error data) as [[|]|e]; try reflexivity; cbn [bind].
  { destruct (py_item "error" data); reflexivity. }
  destruct (py_get "result" data) as [result|e]; try reflexivity. cbn [bind].
  destruct result as [|b|n|nz|s|l|d];
    [ reflexivity | destruct b | destruct (Z.eqb n 0) eqn:Hn | destruct nz
    | destruct s | destruct l | destruct d ];
    cbn [truthy negb PyStr.truthy]; rewrite ?Hn; cbn [negb snd];
    try reflexivity;
    match goal with
    | |- context [output_path dm ?v] => destruct (output_path dm v); reflexivity
    end.
Qed.

End ChainFacts.

(** C6. Tiers A and B of the download chain, when the client is installed.
    An exception of the client whose message holds [Cannot establish
    connection] makes [download_with_lbrytools] return [False] without a
    post to the RPC endpoint.  Any other exception, the result [False], and
    a result that is neither a [bool] nor a [dict] fall through to tier C,
    which posts to the endpoint.  A [dict] result gives [True] without a
    post, whatever its keys. *)
Theorem download_with_lbrytools_tiers (dm : daemon)
    (download_single : string -> client_outcome) (canonical_uri : string) :
  lbryt dm = Some download_single ->
  (forall message,
      download_single canonical_uri = Raised message ->
      PyStr.contains "Cannot establish connection" message = true ->
      snd (download_with_lbrytools dm canonical_uri) = Ok false
      /\ existsb is_rpc_post (fst (download_with_lbrytools dm canonical_uri)) = false)
  /\ (forall message,
        download_single canonical_uri = Raised message ->
        PyStr.contains "Cannot establish connection" message = false ->
        falls_through dm canonical_uri)
  /\ (download_single canonical_uri = Returned (PBool false) ->
      falls_through dm canonical_uri)
  /\ (forall v,
        download_single canonical_uri = Returned v ->
        (forall b, v <> PBool b) -> (forall d, v <> PDict d) ->
        falls_through dm canonical_uri)
  /\ (download_single canonical_uri = ReturnedObject ->
      falls_through dm canonical_uri)
  /\ (forall d,
        download_single canonical_uri = Returned (PDict d) ->
        snd (download_with_lbrytools dm canonical_uri) = Ok true
        /\ existsb is_rpc_post (fst (download_with_lbrytools dm canonical_uri)) = false)
  /\ In (PostRpc "get" ("lbry://" ++ canonical_uri))
        (fst (fallback_lbry_get dm canonical_uri)).
Proof.
  intros Hclient. repeat apply conj.
  - intros message Hout Hmsg. unfold download_with_lbrytools, handle_lbry_error.
    rewrite Hclient, Hout, Hmsg. split; reflexivity.
  - intros message Hout Hmsg.
    apply (falls_through_intro dm canonical_uri
             [MakeDownloadDir; CallDownloadSingle canonical_uri;
              LogWarning "lbrytools download failed"]); [reflexivity|].
    unfold download_with_lbrytools, handle_lbry_error.
    rewrite Hclient, Hout, Hmsg.
    destruct (fallback_lbry_get dm canonical_uri). reflexivity.
  - intros Hout.
    apply (falls_through_intro dm canonical_uri
             [MakeDownloadDir; CallDownloadSingle canonical_uri;
              LogInfo "lbrytools download_single returned"]); [reflexivity|].
    unfold download_with_lbrytools. rewrite Hclient, Hout.
    destruct (fallback_lbry_get dm canonical_uri). reflexivity.
  - intros v Hout Hbool Hdict.
    apply (falls_through_intro dm canonical_uri
             [MakeDownloadDir; CallDownloadSingle canonical_uri;
              LogWarning "Unexpected result type from lbrytools"]); [reflexivity|].
    unfold download_with_lbrytools. rewrite Hclient, Hout.
    destruct v as [|b|n|nz|s|l|d];
      try (destruct (fallback_lbry_get dm canonical_uri); reflexivity).
    + now destruct (Hbool b).
    + now destruct (Hdict d).
  - intros Hout.
    apply (falls_through_intro dm canonical_uri
             [MakeDownloadDir; CallDownloadSingle canonical_uri;
              LogWarning "Unexpected result type from lbrytools"]); [reflexivity|].
    unfold download_with_lbrytools. rewrite Hclient, Hout.
    destruct (fallback_lbry_get dm canonical_uri). reflexivity.
  - intros d Hout. unfold download_with_lbrytools. rewrite Hclient, Hout.
    unfold output_path, py_get. cbn [bind].
    destruct (truthy _); [destruct (truthy _); split; reflexivity|].
    cbn [bind]. destruct (truthy _); split; reflexivity.
  - apply fallback_posts.
Qed.

(** When the client cannot reach the daemon, the download fails and the
    endpoint is never asked. *)
Lemma download_with_lbrytools_tiers_witness :
  snd (download_with_lbrytools Samples.unreachable "frame#ab") = Ok false
  /\ existsb is_rpc_post (fst (download_with_lbrytools Samples.unreachable "frame#ab"))
     = false.
Proof.
  apply (proj1 (download_with_lbrytools_tiers Samples.unreachable
                  (fun _ => Raised "Cannot establish connection to lbrynet")
                  "frame#ab" eq_refl)
           "Cannot establish connection to lbrynet"); reflexivity.
Defined.

(** C7, as the code has it.  Tier C returns [True] exactly when the
    endpoint answers with a JSON object that has no [error] key and whose
    [result] is an object that is not empty.  A failed request, a body that
    is not JSON, an object with an [error] key, an object without
    [result] (or with a null one) and an object whose [result] is the
    empty object give [False]. *)
Theorem fallback_lbry_get_success (dm : daemon) (canonical_uri : string) :
  (snd (fallback_lbry_get dm canonical_uri) = Ok true <->
   exists d r,
     rpc_post dm "get" ("lbry://" ++ canonical_uri) = Body (PDict d)
     /\ dict_get "error" d = None
     /\ dict_get "result" d = Some (PDict r)
     /\ r <> [])
  /\ (rpc_post dm "get" ("lbry://" ++ canonical_uri) = RequestFailed ->
      snd (fallback_lbry_get dm canonical_uri) = Ok false)
  /\ (rpc_post dm "get" ("lbry://" ++ canonical_uri) = InvalidJson ->
      snd (fallback_lbry_get dm canonical_uri) = Ok false)
  /\ (forall d e,
        rpc_post dm "get" ("lbry://" ++ canonical_uri) = Body (PDict d) ->
        dict_get "error" d = Some e ->
        snd (fallback_lbry_get dm canonical_uri) = Ok false)
  /\ (forall d,
        rpc_post dm "get" ("lbry://" ++ canonical_uri) = Body (PDict d) ->
        dict_get "result" d = None \/ dict_get "result" d = Some PNone ->
        snd (fallback_lbry_get dm canonical_uri) = Ok false)
  /\ (forall d,
        rpc_post dm "get" ("lbry://" ++ canonical_uri) = Body (PDict d) ->
        dict_get "result" d = Some (PDict []) ->
        snd (fallback_lbry_get dm canonical_uri) = Ok false).
Proof.
  rewrite (fallback_result dm canonical_uri).
  split; [split|repeat apply conj].
  - destruct (rpc_post dm "get" ("lbry://" ++ canonical_uri)) as [| |data];
      try discriminate.
    destruct data as [|b|n|nz|s|l|d]; cbn; try discriminate;
      try (destruct (existsb _ l); discriminate);
      try (destruct (PyStr.contains "error" s); discriminate).
    destruct (dict_get "error" d) as [e|] eqn:Herr; [discriminate|].
    destruct (dict_get "result" d) as [result|] eqn:Hres; [|discriminate].
    destruct result as [|b|n|nz|s|l|r]; cbn;
      try discriminate;
      try (match goal with
           | |- context [if ?c then _ else _] => destruct c; discriminate
           end).
    destruct r as [|kv r]; cbn; [intros [=]|]. intros _.
    exists d, (kv :: r).
    split; [reflexivity|]. split; [assumption|]. split; [assumption|].
    discriminate.
  - intros [d [r [-> [Herr [Hres Hr]]]]]. cbn. rewrite Herr, Hres. cbn.
    destruct r as [|kv r]; [congruence|]. cbn.
    destruct (truthy _); reflexivity.
  - now intros ->.
  - now intros ->.
  - intros d e -> Herr. cbn. now rewrite Herr.
  - intros d -> Hres. cbn. destruct (dict_get "error" d); [reflexivity|].
    destruct Hres as [-> | ->]; reflexivity.
  - intros d -> Hres. cbn. destruct (dict_get "error" d); [reflexivity|].
    rewrite Hres. reflexivity.
Qed.

(** C7 as stated fails: the answer [{result: {}}] holds a result object
    and no [error] key, and tier C returns [False]. *)
Lemma fallback_lbry_get_empty_result :
  ~ (forall (dm : daemon) (canonical_uri : string),
        snd (fallback_lbry_get dm canonical_uri) = Ok true <->
        exists d r,
          rpc_post dm "get" ("lbry://" ++ canonical_uri) = Body (PDict d)
          /\ dict_get "error" d = None
          /\ dict_get "result" d = Some (PDict r)).
Proof.
  intros Hclaim.
  assert (Hsucc : snd (fallback_lbry_get Samples.unreachable "frame#ab") = Ok true).
  { apply Hclaim. exists [("result", PDict [])], []. repeat split. }
  vm_compute in Hsucc. discriminate.
Qed.

(** An answer with the path of the saved file is a success. *)
Lemma fallback_lbry_get_success_witness :
  snd (fallback_lbry_get Samples.serving "frame#ab") = Ok true.
Proof.
  apply (proj1 (fallback_lbry_get_success Samples.serving "frame#ab")).
  exists [("result", PDict [("download_path", PStr "/srv/frame.zip")])],
         [("download_path", PStr "/srv/frame.zip")].
  repeat split. discriminate.
Defined.

(** ** Stage 2 *)

Section StageFacts.
Context `{HtmlParser} `{UrlLib} `{Sqlite}.

(** What [scrape_detail] returns: it never raises. *)
Lemma scrape_detail_empty (now : Z) (link_id : Z) (url : string) (s : scraper) :
  scrape_detail now EmptyString link_id url s
  = Ok {| links_found := links_found s;
          failed_deep := failed_deep s ++ [url];
          database := database s |}.
Proof. reflexivity. Qed.

Lemma scrape_detail_fetched (now : Z) (html : string) (link_id : Z)
    (url : string) (s : scraper) :
  PyStr.truthy html = true ->
  scrape_detail now html link_id url s
  = Ok {| links_found := links_found s;
          failed_deep := failed_deep s;
          database :=
            {| links := links (database s);
               details :=
                 if PyStr.truthy (extract_description (parse_html html))
                 then insert_or_replace_detail now link_id
                        (extract_description (parse_html html))
                        (details (database s))
                 else details (database s);
               exturl := insert_ext_links now link_id
                           (references_of_page (parse_html html))
                           (exturl (database s)) |} |}.
Proof.
  intros Ht. unfold scrape_detail. rewrite Ht. cbn [negb].
  rewrite extract_ext_links_ok. reflexivity.
Qed.

(** The rows [insert_ext_links] adds to the references of a listing. *)
Lemma insert_ext_links_of (now : Z) (link_id : Z) (refs : list ext_link) :
  forall t,
    exists added,
      filter (is_exturl_of link_id) (insert_ext_links now link_id refs t)
      = filter (is_exturl_of link_id) t ++ added
      /\ List.length added = List.length refs.
Proof.
  unfold insert_ext_links.
  induction refs as [|r refs IH]; intros t.
  - exists []. cbn. now rewrite app_nil_r.
  - cbn [fold_left].
    destruct (IH (insert_exturl now link_id (external_url r) (source_href r)
                    (link_text r) t)) as [added [Heq Hlen]].
    rewrite Heq. unfold insert_exturl at 1. rewrite filter_app. cbn [filter].
    unfold is_exturl_of at 2. cbn [e_link_id]. rewrite Z.eqb_refl.
    rewrite <- app_assoc. eexists. split; [reflexivity|]. cbn. now rewrite Hlen.
Qed.

Lemma insert_ext_links_other (now : Z) (link_id id : Z) (refs : list ext_link) :
  id <> link_id ->
  forall t,
    filter (is_exturl_of id) (insert_ext_links now link_id refs t)
    = filter (is_exturl_of id) t.
Proof.
  intros Hne. unfold insert_ext_links.
  induction refs as [|r refs IH]; intros t; [reflexivity|].
  cbn [fold_left]. rewrite IH. unfold insert_exturl. rewrite filter_app.
  cbn [filter]. unfold is_exturl_of at 2. cbn [e_link_id].
  assert (Hf : Z.eqb link_id id = false) by (apply Z.eqb_neq; congruence).
  rewrite Hf. apply app_nil_r.
Qed.

Lemma insert_or_replace_detail_other (now : Z) (link_id id : Z)
    (description : string) (t : list detail_row) :
  id <> link_id ->
  filter (is_detail_of id) (insert_or_replace_detail now link_id description t)
  = filter (is_detail_of id) t.
Proof.
  intros Hne. unfold insert_or_replace_detail. rewrite filter_app. cbn [filter].
  unfold is_detail_of at 3. cbn [d_link_id].
  assert (Hf : Z.eqb link_id id = false) by (apply Z.eqb_neq; congruence).
  rewrite Hf, app_nil_r.
  induction t as [|d t IH]; [reflexivity|]. cbn [filter].
  destruct (is_detail_of link_id d) eqn:Hd; cbn [negb filter].
  - assert (Hid : is_detail_of id d = false).
    { unfold is_detail_of in *. destruct (d_link_id d) as [k|]; [|reflexivity].
      apply Z.eqb_eq in Hd. subst k. assumption. }
    now rewrite Hid.
  - destruct (is_detail_of id d); [now rewrite IH|assumption].
Qed.

(** The tasks, in any order, never raise; they leave the listings alone;
    when no task of the listing [id] writes a detail row, the detail rows of
    [id] stay as they are and its reference rows grow by what its tasks
    extract; and every url whose fetch gave nothing is in the failure
    list. *)
Lemma run_tasks_effect (w : world) (id : Z) (order : list (Z * string)) :
  (forall u, In (id, u) order -> writes_detail (fetch w u) = false) ->
  forall s,
    exists s' added,
      run_tasks w order s = Ok s'
      /\ links (database s') = links (database s)
      /\ details_of id (database s') = details_of id (database s)
      /\ exturl_of id (database s') = exturl_of id (database s) ++ added
      /\ List.length added = list_sum (map (task_refs w id) order)
      /\ (forall u, In u (failed_deep s) -> In u (failed_deep s'))
      /\ (forall j u, In (j, u) order -> fetch w u = EmptyString ->
                      In u (failed_deep s')).
Proof.
  induction order as [|[j u] rest IH]; intros Hnd s.
  - exists s, []. cbn. rewrite app_nil_r. repeat split; auto.
    intros j u [].
  - cbn [run_tasks].
    assert (Hrest : forall u', In (id, u') rest -> writes_detail (fetch w u') = false)
      by (intros u' Hu'; apply Hnd; now right).
    destruct (PyStr.truthy (fetch w u)) eqn:Hfetch.
    + rewrite (scrape_detail_fetched _ _ _ _ _ Hfetch). cbn [bind].
      match goal with
      | |- context [run_tasks w rest ?s1] =>
          destruct (IH Hrest s1)
            as [s' [added [Hrun [Hlinks [Hdet [Hext [Hlen [Hinc Hfail]]]]]]]]
      end.
      cbn [database links details exturl failed_deep] in *.
      destruct (Z.eq_dec j id) as [->|Hne].
      * destruct (insert_ext_links_of (clock w id) id
                    (references_of_page (parse_html (fetch w u)))
                    (exturl (database s))) as [mine [Hmine Hmlen]].
        exists s', (mine ++ added). split; [exact Hrun|].
        split; [exact Hlinks|]. split.
        { rewrite Hdet. unfold details_of. cbn [details].
          assert (Hw : writes_detail (fetch w u) = false) by (apply Hnd; now left).
          unfold writes_detail in Hw. rewrite Hfetch in Hw. cbn in Hw.
          now rewrite Hw. }
        split.
        { rewrite Hext. unfold exturl_of. cbn [exturl].
          now rewrite Hmine, app_assoc. }
        split.
        { rewrite length_app, Hlen, Hmlen. cbn [map list_sum].
          unfold task_refs at 2. cbn [fst snd]. rewrite Z.eqb_refl.
          unfold refs_added. now rewrite Hfetch. }
        split; [exact Hinc|].
        intros j' u' [Heq|Hin] He; [|now apply (Hfail j' u')].
        injection Heq as _ <-. rewrite He in Hfetch. discriminate.
      * exists s', added. split; [exact Hrun|]. split; [exact Hlinks|]. split.
        { rewrite Hdet. unfold details_of. cbn [details].
          destruct (PyStr.truthy (extract_description (parse_html (fetch w u))));
            [|reflexivity].
          apply insert_or_replace_detail_other. congruence. }
        split.
        { rewrite Hext. unfold exturl_of. cbn [exturl].
          rewrite insert_ext_links_other by congruence. reflexivity. }
        split.
        { rewrite Hlen. cbn [map list_sum]. unfold task_refs at 2. cbn [fst].
          assert (Hf : Z.eqb j id = false) by now apply Z.eqb_neq.
          now rewrite Hf. }
        split; [exact Hinc|].
        intros j' u' [Heq|Hin] He; [|now apply (Hfail j' u')].
        injection Heq as _ <-. rewrite He in Hfetch. discriminate.
    + assert (He : fetch w u = EmptyString)
        by (destruct (fetch w u); [reflexivity|discriminate]).
      rewrite He, scrape_detail_empty. cbn [bind].
      match goal with
      | |- context [run_tasks w rest ?s1] =>
          destruct (IH Hrest s1)
            as [s' [added [Hrun [Hlinks [Hdet [Hext [Hlen [Hinc Hfail]]]]]]]]
      end.
      cbn [database failed_deep] in *.
      exists s', added. split; [exact Hrun|]. split; [exact Hlinks|].
      split; [exact Hdet|]. split; [exact Hext|]. split.
      { rewrite Hlen. cbn [map list_sum]. unfold task_refs at 2. cbn [fst snd].
        unfold refs_added. rewrite He. cbn. now destruct (Z.eqb j id). }
      split.
      { intros u' Hu'. apply Hinc. apply in_or_app. now left. }
      intros j' u' [Heq|Hin] He'; [|now apply (Hfail j' u')].
      injection Heq as _ <-. apply Hinc. apply in_or_app. right. now left.
Qed.

End StageFacts.

Section RunFacts.
Context `{HtmlParser} `{UrlLib} `{Sqlite}.

Lemma nodup_map_filter {A : Type} (f : A -> Z) (p : A -> bool) (l : list A) :
  NoDup (map f l) -> NoDup (map f (filter p l)).
Proof.
  induction l as [|a l IH]; intros Hnd; [constructor|].
  cbn in Hnd. inversion Hnd as [|x xs Hnotin Hnd']. subst. cbn [filter].
  destruct (p a); [|now apply IH]. cbn. constructor; [|now apply IH].
  intros Hin. apply Hnotin. apply in_map_iff in Hin.
  destruct Hin as [b [Hb Hin]]. apply filter_In in Hin.
  apply in_map_iff. exists b. tauto.
Qed.

(** The ids of the work set are pairwise different, as the ids of the
    listings are. *)
Lemma unscraped_ids_nodup (s : scraper) :
  NoDup (map l_id (links (database s))) ->
  NoDup (map fst (get_unscraped s)).
Proof.
  intros Hnd. rewrite get_unscraped_filter, map_map. cbn [fst].
  now apply nodup_map_filter.
Qed.

Lemma nodup_fst_unique (order : list (Z * string)) (id : Z) (u u' : string) :
  NoDup (map fst order) -> In (id, u) order -> In (id, u') order -> u = u'.
Proof.
  induction order as [|[j v] rest IH]; intros Hnd Hu Hu'; [destruct Hu|].
  cbn in Hnd. inversion Hnd as [|x xs Hnotin Hnd']. subst.
  assert (Hkey : forall w, In (id, w) rest -> In id (map fst rest)).
  { intros w Hw. apply in_map_iff. now exists (id, w). }
  destruct Hu as [Hu|Hu]; destruct Hu' as [Hu'|Hu'].
  - congruence.
  - injection Hu as -> ->. destruct Hnotin. now apply (Hkey u').
  - injection Hu' as -> ->. destruct Hnotin. now apply (Hkey u).
  - now apply IH.
Qed.

Lemma list_sum_cons (a : nat) (l : list nat) :
  list_sum (a :: l) = a + list_sum l.
Proof. reflexivity. Qed.

Lemma task_refs_absent (w : world) (id : Z) (order : list (Z * string)) :
  ~ In id (map fst order) -> list_sum (map (task_refs w id) order) = 0.
Proof.
  induction order as [|[j v] rest IH]; intros Hnotin; [reflexivity|].
  cbn [map]. rewrite list_sum_cons. unfold task_refs at 1. cbn [fst snd].
  assert (Hf : Z.eqb j id = false).
  { apply Z.eqb_neq. intros ->. apply Hnotin. now left. }
  rewrite Hf, IH; [reflexivity|]. intros Hin. apply Hnotin. now right.
Qed.

(** Among tasks with pairwise different ids, the reference rows written
    for a listing are those of its one task. *)
Lemma task_refs_sum (w : world) (id : Z) (url : string) (order : list (Z * string)) :
  NoDup (map fst order) -> In (id, url) order ->
  list_sum (map (task_refs w id) order) = refs_added (fetch w url).
Proof.
  induction order as [|[j v] rest IH]; intros Hnd Hin; [destruct Hin|].
  cbn in Hnd. inversion Hnd as [|x xs Hnotin Hnd']. subst.
  cbn [map]. rewrite list_sum_cons. unfold task_refs at 1. cbn [fst snd].
  destruct Hin as [Heq|Hin].
  - injection Heq as -> ->. rewrite Z.eqb_refl, task_refs_absent; [lia|assumption].
  - assert (Hf : Z.eqb j id = false).
    { apply Z.eqb_neq. intros ->. apply Hnotin. apply in_map_iff.
      now exists (id, url). }
    rewrite Hf. cbn. now apply IH.
Qed.

Lemma details_of_nil (id : Z) (s : db) :
  details_of id s = [] <->
  forall d, In d (details s) -> d_link_id d <> Some id.
Proof.
  rewrite <- no_detail_iff. unfold details_of. split.
  - intros Hnil. apply not_true_is_false. intros Hex.
    apply existsb_exists in Hex. destruct Hex as [d [Hd Hm]].
    assert (Hin : In d (filter (is_detail_of id) (details s)))
      by (apply filter_In; auto).
    rewrite Hnil in Hin. destruct Hin.
  - intros Hno. destruct (filter (is_detail_of id) (details s)) as [|d r] eqn:Hf;
      [reflexivity|].
    assert (Hin : In d (filter (is_detail_of id) (details s)))
      by (rewrite Hf; now left).
    apply filter_In in Hin. destruct Hin as [Hin Hm].
    assert (Hex : existsb (is_detail_of id) (details s) = true)
      by (apply existsb_exists; now exists d).
    congruence.
Qed.

(** One run of stage 2 over a work set that holds the listing [id], whose
    page gives no detail row: the run ends; the listing keeps no detail
    row, gets the references of its page and stays in the work set; its url
    is in the failure list when the fetch gave nothing. *)
Lemma stage2_deep_effect (w : world) (s : scraper) (id : Z) (url : string) :
  NoDup (map l_id (links (database s))) ->
  In (id, url) (get_unscraped s) ->
  writes_detail (fetch w url) = false ->
  (exists s', stage2_deep w s s')
  /\ forall s', stage2_deep w s s' ->
       links (database s') = links (database s)
       /\ details_of id (database s') = []
       /\ (exists added,
             exturl_of id (database s') = exturl_of id (database s) ++ added
             /\ List.length added = refs_added (fetch w url))
       /\ (fetch w url = EmptyString -> In url (failed_deep s'))
       /\ In (id, url) (get_unscraped s').
Proof.
  intros Hnd Hin Hw.
  assert (Hids : NoDup (map fst (get_unscraped s))) by now apply unscraped_ids_nodup.
  assert (Hnone : details_of id (database s) = []).
  { apply details_of_nil. apply in_get_unscraped in Hin.
    destruct Hin as [l [_ [_ [_ Hno]]]]. exact Hno. }
  assert (Hall : forall order, Permutation order (get_unscraped s) ->
            forall u, In (id, u) order -> writes_detail (fetch w u) = false).
  { intros order Hperm u Hu.
    assert (Hu' : In (id, u) (get_unscraped s))
      by (eapply Permutation_in; eassumption).
    now rewrite (nodup_fst_unique _ id u url Hids Hu' Hin). }
  split.
  - destruct (run_tasks_effect w id (get_unscraped s)
                (Hall _ (Permutation_refl _)) s) as [s' [added [Hrun _]]].
    exists s', (get_unscraped s). split; [apply Permutation_refl|exact Hrun].
  - intros s' [order [Hperm Hrun]].
    destruct (run_tasks_effect w id order (Hall order Hperm) s)
      as [s'' [added [Hrun' [Hlinks [Hdet [Hext [Hlen [_ Hfail]]]]]]]].
    rewrite Hrun in Hrun'. injection Hrun' as <-.
    assert (Hin' : In (id, url) order).
    { apply Permutation_sym in Hperm. eapply Permutation_in; eassumption. }
    assert (Hnd' : NoDup (map fst order)).
    { apply Permutation_sym in Hperm.
      eapply Permutation_NoDup; [|exact Hids]. now apply Permutation_map. }
    split; [exact Hlinks|]. split; [now rewrite Hdet|]. split.
    { exists added. split; [exact Hext|].
      now rewrite Hlen, (task_refs_sum w id url order Hnd' Hin'). }
    split; [intros He; now apply (Hfail id url)|].
    apply in_get_unscraped. apply in_get_unscraped in Hin.
    destruct Hin as [l [Hl [Hid [Hurl _]]]]. exists l.
    rewrite Hlinks. repeat split; auto.
    apply details_of_nil. now rewrite Hdet.
Qed.

End RunFacts.

(** C8. A work item whose fetch returns nothing: [scrape_detail] appends
    its url to the failure list and leaves the database as it is.  So, for
    a listing of the work set, a run of stage 2 (which always ends) leaves
    the url in the failure list, writes no detail row and no reference row
    for the listing, and the listing is in the work set of the next run. *)
Theorem failed_fetch_stays_undetailed `{HtmlParser} `{UrlLib} `{Sqlite}
    (w : world) (s : scraper) (id : Z) (url : string) :
  NoDup (map l_id (links (database s))) ->
  In (id, url) (get_unscraped s) ->
  fetch w url = EmptyString ->
  scrape_detail (clock w id) (fetch w url) id url s
  = Ok {| links_found := links_found s;
          failed_deep := failed_deep s ++ [url];
          database := database s |}
  /\ (exists s', stage2_deep w s s')
  /\ forall s', stage2_deep w s s' ->
       In url (failed_deep s')
       /\ details_of id (database s') = []
       /\ exturl_of id (database s') = exturl_of id (database s)
       /\ In (id, url) (get_unscraped (restart s')).
Proof.
  intros Hnd Hin He.
  assert (Hw : writes_detail (fetch w url) = false) by now rewrite He.
  destruct (stage2_deep_effect w s id url Hnd Hin Hw) as [Hex Hall].
  split; [now rewrite He|]. split; [exact Hex|].
  intros s' Hrun.
  destruct (Hall s' Hrun) as [_ [Hdet [[added [Hext Hlen]] [Hfail Hstill]]]].
  split; [now apply Hfail|]. split; [exact Hdet|]. split; [|exact Hstill].
  rewrite Hext. unfold refs_added in Hlen. rewrite He in Hlen. cbn in Hlen.
  destruct added; [apply app_nil_r|discriminate].
Qed.

(** The first of two listings cannot be fetched: its url is recorded as
    failed, nothing is written for it, and it is in the next work set. *)
Lemma failed_fetch_stays_undetailed_witness :
  exists s',
    stage2_deep (H := Samples.detail_parser) (H0 := Samples.plain_urllib)
      (H1 := Samples.sqlite_next) Samples.flaky Samples.two_listings s'
    /\ In "https://guncadindex.com/detail/frame" (failed_deep s')
    /\ details_of 1 (database s') = []
    /\ exturl_of 1 (database s') = []
    /\ In (1%Z, "https://guncadindex.com/detail/frame") (get_unscraped (restart s')).
Proof.
  assert (Hnd : NoDup (map l_id (links (database Samples.two_listings)))).
  { cbn. repeat constructor; cbn; intuition discriminate. }
  assert (Hin : In (1%Z, "https://guncadindex.com/detail/frame")
                   (get_unscraped Samples.two_listings)).
  { cbn. left. reflexivity. }
  destruct (failed_fetch_stays_undetailed (H := Samples.detail_parser)
              (H0 := Samples.plain_urllib) (H1 := Samples.sqlite_next)
              Samples.flaky Samples.two_listings 1%Z
              "https://guncadindex.com/detail/frame" Hnd Hin eq_refl)
    as [_ [[s' Hrun] Hall]].
  exists s'. split; [exact Hrun|]. exact (Hall s' Hrun).
Defined.



(** * Further properties of the code *)

Import Schema.

(** ** The constraints of the schema are kept *)

Section SchemaFacts.
Context `{HtmlParser} `{UrlLib} `{Sqlite}.

Lemma save_links_loop_ids (env : nat -> stmt_env) (items : list link_item) :
  fresh_rowids _ ->
  forall (i : nat) (t : list link_row) (n : nat),
    NoDup (map l_id t) ->
    NoDup (map l_id (fst (save_links_loop env i items t n))).
Proof.
  intros Hfresh. induction items as [|item rest IH]; intros i t n Hnd; [exact Hnd|].
  cbn [save_links_loop]. unfold insert_or_ignore_link.
  destruct (se_error (env i)); [now apply IH|].
  destruct (link_exists (Link item) t); [now apply IH|].
  apply IH. rewrite map_app. cbn [map l_id].
  apply NoDup_app; [exact Hnd|repeat constructor; intros []|].
  intros x Hx [<-|[]]. exact (Hfresh _ Hx).
Qed.

Lemma save_links_loop_urls (env : nat -> stmt_env) (items : list link_item)
    (i : nat) (t : list link_row) (n : nat) :
  NoDup (map l_link t) ->
  NoDup (map l_link (fst (save_links_loop env i items t n))).
Proof.
  intros Hnd.
  destruct (save_links_loop_appends env items i t n) as [added [Heq [Hadd [Hnew _]]]].
  rewrite Heq. cbn [fst]. rewrite map_app.
  apply NoDup_app; [exact Hnd|exact Hadd|].
  intros u Hu Hu'. apply in_map_iff in Hu'. destruct Hu' as [r [<- Hr]].
  specialize (Hnew r Hr). apply link_exists_In in Hu. congruence.
Qed.


Lemma non_null_app {A : Type} (l l' : list (option A)) :
  non_null (l ++ l') = non_null l ++ non_null l'.
Proof. unfold non_null. apply flat_map_app. Qed.

Lemma in_non_null {A : Type} (a : A) (l : list (option A)) :
  In a (non_null l) <-> In (Some a) l.
Proof.
  unfold non_null. rewrite in_flat_map. split.
  - intros [[b|] [Hin Hb]]; [|destruct Hb]. destruct Hb as [<-|[]]. exact Hin.
  - intros Hin. exists (Some a). split; [exact Hin|now left].
Qed.

Lemma nodup_non_null_filter (p : detail_row -> bool) (t : list detail_row) :
  NoDup (non_null (map d_link_id t)) ->
  NoDup (non_null (map d_link_id (filter p t))).
Proof.
  induction t as [|d t IH]; intros Hnd; [constructor|].
  cbn [map] in Hnd. change (d_link_id d :: map d_link_id t)
    with ([d_link_id d] ++ map d_link_id t) in Hnd.
  rewrite non_null_app in Hnd. cbn [filter].
  assert (Ht : NoDup (non_null (map d_link_id t))).
  { destruct (d_link_id d); cbn in Hnd; [now inversion Hnd|exact Hnd]. }
  destruct (p d); [|now apply IH]. cbn [map].
  change (d_link_id d :: map d_link_id (filter p t))
    with ([d_link_id d] ++ map d_link_id (filter p t)).
  rewrite non_null_app. destruct (d_link_id d) as [k|]; cbn; [|now apply IH].
  constructor; [|now apply IH]. cbn in Hnd. inversion Hnd as [|x xs Hnotin _]. subst.
  intros Hin. apply Hnotin. apply in_non_null. apply in_non_null in Hin.
  apply in_map_iff in Hin. destruct Hin as [d' [Hd' Hin]].
  apply filter_In in Hin. apply in_map_iff. exists d'. tauto.
Qed.

(** [INSERT OR REPLACE] keeps [link_id] unique in [details]. *)
Lemma insert_or_replace_unique (now : Z) (link_id : Z) (description : string)
    (t : list detail_row) :
  NoDup (non_null (map d_link_id t)) ->
  NoDup (non_null (map d_link_id
                     (insert_or_replace_detail now link_id description t))).
Proof.
  intros Hnd. unfold insert_or_replace_detail. rewrite map_app, non_null_app.
  apply NoDup_app.
  - now apply nodup_non_null_filter.
  - cbn. repeat constructor. intros [].
  - intros k Hk [<-|[]]. apply in_non_null in Hk. apply in_map_iff in Hk.
    destruct Hk as [d [Hd Hin]]. apply filter_In in Hin. destruct Hin as [_ Hneg].
    unfold is_detail_of in Hneg. rewrite Hd, Z.eqb_refl in Hneg. discriminate.
Qed.

(** After the upsert the listing has exactly the new row. *)
Lemma insert_or_replace_of (now : Z) (link_id : Z) (description : string)
    (t : list detail_row) :
  exists row,
    filter (is_detail_of link_id) (insert_or_replace_detail now link_id description t)
    = [row]
    /\ d_link_id row = Some link_id
    /\ d_description row = description
    /\ d_scraped_at row = now.
Proof.
  unfold insert_or_replace_detail. rewrite filter_app. cbn [filter].
  unfold is_detail_of at 3. cbn [d_link_id]. rewrite Z.eqb_refl.
  assert (Hkept : filter (is_detail_of link_id)
                    (filter (fun d => negb (is_detail_of link_id d)) t) = []).
  { induction t as [|d t IH]; [reflexivity|]. cbn [filter].
    destruct (is_detail_of link_id d) eqn:Hd; cbn [negb]; [exact IH|].
    cbn [filter]. now rewrite Hd. }
  rewrite Hkept. eexists. split; [reflexivity|]. repeat split.
Qed.

Lemma refers_forallb_details (ids : list Z) (now : Z) (link_id : Z)
    (description : string) (t : list detail_row) :
  In link_id ids ->
  forallb (fun d => refers_to ids (d_link_id d)) t = true ->
  forallb (fun d => refers_to ids (d_link_id d))
    (insert_or_replace_detail now link_id description t) = true.
Proof.
  intros Hin Hall. unfold insert_or_replace_detail. rewrite forallb_app.
  apply andb_true_iff. split.
  - apply forallb_forall. intros d Hd. apply filter_In in Hd.
    rewrite forallb_forall in Hall. apply Hall. tauto.
  - cbn. rewrite andb_true_r. apply existsb_exists. exists link_id.
    split; [exact Hin|apply Z.eqb_refl].
Qed.

Lemma refers_forallb_exturl (ids : list Z) (now : Z) (link_id : Z)
    (refs : list ext_link) :
  In link_id ids ->
  forall t,
    forallb (fun e => refers_to ids (e_link_id e)) t = true ->
    forallb (fun e => refers_to ids (e_link_id e))
      (insert_ext_links now link_id refs t) = true.
Proof.
  intros Hin. unfold insert_ext_links.
  induction refs as [|r refs IH]; intros t Hall; [exact Hall|].
  cbn [fold_left]. apply IH. unfold insert_exturl. rewrite forallb_app.
  apply andb_true_iff. split; [exact Hall|].
  cbn. rewrite andb_true_r. apply existsb_exists. exists link_id.
  split; [exact Hin|apply Z.eqb_refl].
Qed.

(** One task keeps the constraints when its [link_id] is a listing. *)
Lemma scrape_detail_keeps (now : Z) (html : string) (link_id : Z) (url : string)
    (s : scraper) :
  In link_id (listing_ids (database s)) ->
  exists s',
    scrape_detail now html link_id url s = Ok s'
    /\ links (database s') = links (database s)
    /\ (foreign_keys_hold (database s) = true ->
        foreign_keys_hold (database s') = true)
    /\ (unique_details (database s) -> unique_details (database s')).
Proof.
  intros Hin. destruct (PyStr.truthy html) eqn:Ht.
  - rewrite (scrape_detail_fetched now html link_id url s Ht).
    eexists. split; [reflexivity|]. cbn [database links].
    split; [reflexivity|]. split.
    + unfold foreign_keys_hold, listing_ids. cbn [links details exturl].
      intros Hfk. apply andb_true_iff in Hfk. destruct Hfk as [Hd He].
      apply andb_true_iff. split.
      * destruct (PyStr.truthy (extract_description (parse_html html)));
          [|exact Hd].
        now apply refers_forallb_details.
      * now apply refers_forallb_exturl.
    + unfold unique_details. cbn [details]. intros Hu.
      destruct (PyStr.truthy (extract_description (parse_html html)));
        [|exact Hu].
      now apply insert_or_replace_unique.
  - assert (He : html = EmptyString) by (destruct html; [reflexivity|discriminate]).
    subst html. rewrite scrape_detail_empty. eexists. split; [reflexivity|].
    cbn [database]. auto.
Qed.

(** The tasks of a run, in any order, end without an exception; they
    leave the listings and [self.links] alone, keep the constraints when
    every task is for a listing, and append to the failure list the urls
    whose fetch gave nothing, in the order of the tasks. *)
Lemma run_tasks_keeps (w : world) (order : list (Z * string)) :
  forall s,
    (forall j u, In (j, u) order -> In j (listing_ids (database s))) ->
    exists s',
      run_tasks w order s = Ok s'
      /\ links (database s') = links (database s)
      /\ links_found s' = links_found s
      /\ failed_deep s'
         = failed_deep s
           ++ map snd (filter (fun t => negb (PyStr.truthy (fetch w (snd t)))) order)
      /\ (foreign_keys_hold (database s) = true ->
          foreign_keys_hold (database s') = true)
      /\ (unique_details (database s) -> unique_details (database s')).
Proof.
  induction order as [|[j u] rest IH]; intros s Hids.
  - exists s. cbn. rewrite app_nil_r. repeat split; auto.
  - cbn [run_tasks].
    destruct (scrape_detail_keeps (clock w j) (fetch w u) j u s)
      as [s1 [Hrun [Hlinks [Hfk Hu]]]]; [apply (Hids j u); now left|].
    rewrite Hrun. cbn [bind].
    assert (Hfound : links_found s1 = links_found s
              /\ failed_deep s1
                 = failed_deep s
                   ++ (if PyStr.truthy (fetch w u) then [] else [u])).
    { destruct (PyStr.truthy (fetch w u)) eqn:Ht.
      - rewrite (scrape_detail_fetched _ _ _ _ _ Ht) in Hrun.
        injection Hrun as <-. cbn. now rewrite app_nil_r.
      - assert (He : fetch w u = EmptyString)
          by (destruct (fetch w u); [reflexivity|discriminate]).
        rewrite He, scrape_detail_empty in Hrun. injection Hrun as <-. now cbn. }
    destruct Hfound as [Hf Hfail].
    destruct (IH s1) as [s' [Hrun' [Hlinks' [Hf' [Hfail' [Hfk' Hu']]]]]].
    { intros j' u' Hin. unfold listing_ids. rewrite Hlinks.
      apply (Hids j' u'). now right. }
    exists s'. split; [exact Hrun'|]. split; [congruence|]. split; [congruence|].
    split; [|split; auto].
    rewrite Hfail', Hfail. cbn [filter snd].
    destruct (PyStr.truthy (fetch w u)); cbn [negb map];
      now rewrite <- app_assoc.
Qed.

Lemma unscraped_are_listings (s : scraper) (j : Z) (u : string) :
  In (j, u) (get_unscraped s) -> In j (listing_ids (database s)).
Proof.
  intros Hin. apply in_get_unscraped in Hin. destruct Hin as [l [Hl [<- _]]].
  unfold listing_ids. now apply in_map.
Qed.

Lemma sqlite_next_fresh : fresh_rowids Samples.sqlite_next.
Proof.
  intros ids Hin. cbn in Hin.
  assert (Hle : forall x, In x ids -> (x <= fold_right Z.max 0 ids)%Z).
  { clear Hin. induction ids as [|y ids IH]; intros x Hx; [destruct Hx|].
    destruct Hx as [Hx|Hx]; cbn.
    - subst. lia.
    - specialize (IH x Hx). lia. }
  specialize (Hle _ Hin). lia.
Qed.

Lemma existsb_filter {A : Type} (p : A -> bool) (l : list A) :
  existsb p l = match filter p l with [] => false | _ :: _ => true end.
Proof.
  induction l as [|a l IH]; [reflexivity|]. cbn. destruct (p a); [reflexivity|exact IH].
Qed.

(** A listing that has a detail row, or a task that writes one, has a
    detail row at the end of the tasks. *)
Lemma run_tasks_detailed (w : world) (id : Z) (order : list (Z * string)) :
  forall s s',
    existsb (is_detail_of id) (details (database s)) = true
    \/ (exists u, In (id, u) order /\ writes_detail (fetch w u) = true) ->
    run_tasks w order s = Ok s' ->
    existsb (is_detail_of id) (details (database s')) = true.
Proof.
  induction order as [|[j u] rest IH]; intros s s' Hcase Hrun.
  - cbn in Hrun. injection Hrun as <-.
    destruct Hcase as [Hhas|[u [Hin _]]]; [exact Hhas|destruct Hin].
  - cbn [run_tasks] in Hrun.
    destruct (PyStr.truthy (fetch w u)) eqn:Ht.
    + rewrite (scrape_detail_fetched _ _ _ _ _ Ht) in Hrun. cbn [bind] in Hrun.
      apply (IH _ s' ) in Hrun; [exact Hrun|]. cbn [database details].
      destruct Hcase as [Hhas|[u' [[Heq|Hin] Hw]]].
      * left.
        destruct (PyStr.truthy (extract_description (parse_html (fetch w u))));
          [|exact Hhas].
        destruct (Z.eq_dec id j) as [->|Hne].
        -- rewrite existsb_filter.
           destruct (insert_or_replace_of (clock w j) j
                       (extract_description (parse_html (fetch w u)))
                       (details (database s))) as [row [-> _]].
           reflexivity.
        -- rewrite existsb_filter, insert_or_replace_detail_other by exact Hne.
           now rewrite <- existsb_filter.
      * injection Heq as -> ->. left.
        unfold writes_detail in Hw. rewrite Ht in Hw. cbn in Hw. rewrite Hw.
        rewrite existsb_filter.
        destruct (insert_or_replace_of (clock w id) id
                    (extract_description (parse_html (fetch w u')))
                    (details (database s))) as [row [-> _]].
        reflexivity.
      * right. now exists u'.
    + assert (He : fetch w u = EmptyString)
        by (destruct (fetch w u); [reflexivity|discriminate]).
      rewrite He, scrape_detail_empty in Hrun. cbn [bind] in Hrun.
      apply (IH _ s') in Hrun; [exact Hrun|]. cbn [database].
      destruct Hcase as [Hhas|[u' [[Heq|Hin] Hw]]].
      * now left.
      * injection Heq as -> ->. rewrite He in Hw. discriminate.
      * right. now exists u'.
Qed.

End SchemaFacts.

(** X1. [save_links] keeps the keys of the listings: when the ids and the
    urls of the [links] table are pairwise different and SQLite gives new
    rows unused ids, they are pairwise different afterwards; the other two
    tables are not touched. *)
Theorem save_links_keeps_unique `{Sqlite} (env : nat -> stmt_env) (s : scraper) :
  fresh_rowids _ ->
  unique_listings (database s) ->
  unique_listings (database (fst (save_links env s)))
  /\ details (database (fst (save_links env s))) = details (database s)
  /\ exturl (database (fst (save_links env s))) = exturl (database s).
Proof.
  intros Hfresh [Hids Hurls]. unfold save_links.
  pose proof (save_links_loop_ids env (links_found s) Hfresh 0
                (links (database s)) 0 Hids) as Hids'.
  pose proof (save_links_loop_urls env (links_found s) 0
                (links (database s)) 0 Hurls) as Hurls'.
  destruct (save_links_loop env 0 (links_found s) (links (database s)) 0)
    as [t n]. cbn in *. repeat split; assumption.
Qed.

(** Three found records, two with the same url, on an empty store. *)
Lemma save_links_keeps_unique_witness :
  unique_listings
    (database (fst (save_links (H := Samples.sqlite_next) Samples.calm
                      Samples.found_three))).
Proof.
  apply (save_links_keeps_unique (H := Samples.sqlite_next) Samples.calm
           Samples.found_three).
  - exact sqlite_next_fresh.
  - split; constructor.
Defined.

Lemma stage2_deep_exists `{HtmlParser} `{UrlLib} `{Sqlite} (w : world) (s : scraper) :
  exists s', stage2_deep w s s'.
Proof.
  destruct (run_tasks_keeps w (get_unscraped s) s) as [s' [Hrun _]].
  { intros j u. apply unscraped_are_listings. }
  exists s', (get_unscraped s). split; [apply Permutation_refl|exact Hrun].
Qed.



(** X3. A run of stage 2 keeps the constraints of the schema although its
    connections do not switch the foreign keys on: when every [link_id] of
    [details] and [exturl] is the id of a listing, it is so afterwards, and
    when no two detail rows have the same [link_id], none have
    afterwards. *)
Theorem stage2_deep_keeps_schema `{HtmlParser} `{UrlLib} `{Sqlite}
    (w : world) (s s' : scraper) :
  stage2_deep w s s' ->
  (foreign_keys_hold (database s) = true ->
   foreign_keys_hold (database s') = true)
  /\ (unique_details (database s) -> unique_details (database s'))
  /\ (unique_listings (database s) -> unique_listings (database s')).
Proof.
  intros [order [Hperm Hrun]].
  destruct (run_tasks_keeps w order s) as [s'' [Hrun' [Hl [_ [_ [Hfk Hu]]]]]].
  { intros j u Hin. apply (unscraped_are_listings s j u).
    eapply Permutation_in; eassumption. }
  rewrite Hrun in Hrun'. injection Hrun' as <-.
  split; [exact Hfk|]. split; [exact Hu|].
  unfold unique_listings, listing_ids. now rewrite Hl.
Qed.

(** A run over two listings with empty tables of details and references
    ends with the constraints in place. *)
Lemma stage2_deep_keeps_schema_witness :
  exists s',
    stage2_deep (H := MoreSamples.pages_parser) (H0 := Samples.plain_urllib)
      (H1 := Samples.sqlite_next) MoreSamples.steady Samples.two_listings s'
    /\ foreign_keys_hold (database s') = true
    /\ unique_details (database s').
Proof.
  destruct (stage2_deep_exists (H := MoreSamples.pages_parser)
              (H0 := Samples.plain_urllib) (H1 := Samples.sqlite_next)
              MoreSamples.steady Samples.two_listings) as [s' Hrun].
  exists s'. split; [exact Hrun|].
  destruct (stage2_deep_keeps_schema (H := MoreSamples.pages_parser)
              (H0 := Samples.plain_urllib) (H1 := Samples.sqlite_next)
              MoreSamples.steady Samples.two_listings s' Hrun) as [Hfk [Hu _]].
  split; [apply Hfk; reflexivity|apply Hu; constructor].
Defined.

(** X4. The upsert of [scrape_detail]: after a task whose page was fetched
    and has a description, the listing has exactly one detail row, with
    that description, whatever rows it had before; the task raises
    nothing and the listing is not in the work set any more. *)
Theorem scrape_detail_upserts `{HtmlParser} `{UrlLib} `{Sqlite}
    (now : Z) (html : string) (link_id : Z) (url : string) (s : scraper) :
  html <> EmptyString ->
  extract_description (parse_html html) <> EmptyString ->
  exists s' row,
    scrape_detail now html link_id url s = Ok s'
    /\ details_of link_id (database s') = [row]
    /\ d_description row = extract_description (parse_html html)
    /\ d_scraped_at row = now
    /\ forall u, ~ In (link_id, u) (get_unscraped s').
Proof.
  intros Hhtml Hdesc.
  apply truthy_nonempty in Hhtml. apply truthy_nonempty in Hdesc.
  rewrite (scrape_detail_fetched now html link_id url s Hhtml), Hdesc.
  destruct (insert_or_replace_of now link_id (extract_description (parse_html html))
              (details (database s))) as [row [Hrow [Hid [Hd Ht]]]].
  eexists. exists row. split; [reflexivity|]. unfold details_of.
  cbn [database details]. split; [exact Hrow|]. split; [exact Hd|].
  split; [exact Ht|].
  intros u Hin. apply in_get_unscraped in Hin.
  destruct Hin as [l [_ [_ [_ Hno]]]]. cbn [database details] in Hno.
  apply (Hno row); [|exact Hid].
  assert (Hin : In row (filter (is_detail_of link_id)
                          (insert_or_replace_detail now link_id
                             (extract_description (parse_html html))
                             (details (database s)))))
    by (rewrite Hrow; now left).
  now apply filter_In in Hin.
Qed.

(** The page of the first listing has the description [A frame.]. *)
Lemma scrape_detail_upserts_witness :
  exists s' row,
    scrape_detail (H := MoreSamples.pages_parser) (H0 := Samples.plain_urllib)
      (H1 := Samples.sqlite_next) 2000 MoreSamples.described_page 1
      "https://guncadindex.com/detail/frame" Samples.two_listings = Ok s'
    /\ details_of 1 (database s') = [row]
    /\ d_description row = "A frame."
    /\ d_scraped_at row = 2000%Z
    /\ forall u, ~ In (1%Z, u) (get_unscraped s').
Proof.
  apply (scrape_detail_upserts (H := MoreSamples.pages_parser)
           (H0 := Samples.plain_urllib) (H1 := Samples.sqlite_next)
           2000 MoreSamples.described_page 1
           "https://guncadindex.com/detail/frame" Samples.two_listings);
    discriminate.
Defined.

(** X5. Stage 2 makes progress: a listing of the work set whose page is
    fetched and has a description is in no later work set, in whatever
    order the tasks ran. *)
Theorem described_listing_leaves_work_set `{HtmlParser} `{UrlLib} `{Sqlite}
    (w : world) (s s' : scraper) (id : Z) (url : string) :
  In (id, url) (get_unscraped s) ->
  writes_detail (fetch w url) = true ->
  stage2_deep w s s' ->
  details_of id (database s') <> []
  /\ forall u, ~ In (id, u) (get_unscraped (restart s')).
Proof.
  intros Hin Hw [order [Hperm Hrun]].
  assert (Hhas : existsb (is_detail_of id) (details (database s')) = true).
  { apply (run_tasks_detailed w id order s s'); [|exact Hrun].
    right. exists url. split; [|exact Hw].
    apply Permutation_sym in Hperm. eapply Permutation_in; eassumption. }
  split.
  - unfold details_of. rewrite existsb_filter in Hhas.
    destruct (filter (is_detail_of id) (details (database s'))); [discriminate|].
    discriminate.
  - intros u Hu. apply in_get_unscraped in Hu.
    destruct Hu as [l [_ [_ [_ Hno]]]]. cbn [restart database] in Hno.
    apply no_detail_iff in Hno. congruence.
Qed.

(** After a run where the first listing gives a page with a description,
    that listing has left the work set. *)
Lemma described_listing_leaves_work_set_witness :
  exists s',
    stage2_deep (H := MoreSamples.pages_parser) (H0 := Samples.plain_urllib)
      (H1 := Samples.sqlite_next) MoreSamples.steady Samples.two_listings s'
    /\ details_of 1 (database s') <> []
    /\ forall u, ~ In (1%Z, u) (get_unscraped (restart s')).
Proof.
  destruct (stage2_deep_exists (H := MoreSamples.pages_parser)
              (H0 := Samples.plain_urllib) (H1 := Samples.sqlite_next)
              MoreSamples.steady Samples.two_listings) as [s' Hrun].
  exists s'. split; [exact Hrun|].
  apply (described_listing_leaves_work_set (H := MoreSamples.pages_parser)
           (H0 := Samples.plain_urllib) (H1 := Samples.sqlite_next)
           MoreSamples.steady Samples.two_listings s' 1%Z
           "https://guncadindex.com/detail/frame").
  - cbn. left. reflexivity.
  - reflexivity.
  - exact Hrun.
Defined.

(** ** Canonical identifiers, once more *)

Import Resolver Chain.

Section TrimFacts.
Variable p : ascii -> bool.

Lemma lstrip_by_first (s : string) (c : ascii) :
  first_char (PyStr.lstrip_by p s) = Some c -> p c = false.
Proof.
  induction s as [|d s IH]; cbn; [discriminate|].
  destruct (p d) eqn:Hd; [exact IH|]. cbn. intros [= <-]. exact Hd.
Qed.

Lemma lstrip_by_fixed (s : string) :
  (forall c, first_char s = Some c -> p c = false) -> PyStr.lstrip_by p s = s.
Proof.
  destruct s as [|d s]; [reflexivity|]. cbn. intros Hc.
  now rewrite (Hc d eq_refl).
Qed.

Lemma rstrip_by_first (s : string) (c : ascii) :
  first_char (PyStr.rstrip_by p s) = Some c -> first_char s = Some c.
Proof.
  destruct s as [|d s]; cbn; [discriminate|].
  destruct (PyStr.rstrip_by p s); [destruct (p d)|]; cbn; congruence.
Qed.

Lemma rstrip_by_last (s : string) (c : ascii) :
  last_char (PyStr.rstrip_by p s) = Some c -> p c = false.
Proof.
  induction s as [|d s IH]; cbn; [discriminate|].
  destruct (PyStr.rstrip_by p s) as [|e r] eqn:Hr.
  - destruct (p d) eqn:Hd; cbn; [discriminate|]. intros [= <-]. exact Hd.
  - cbn [last_char]. exact IH.
Qed.

Lemma rstrip_by_idem (s : string) :
  PyStr.rstrip_by p (PyStr.rstrip_by p s) = PyStr.rstrip_by p s.
Proof.
  induction s as [|d s IH]; [reflexivity|]. cbn.
  destruct (PyStr.rstrip_by p s) as [|e r] eqn:Hr.
  - destruct (p d) eqn:Hd; [reflexivity|]. cbn. now rewrite Hd.
  - cbn [PyStr.rstrip_by] in IH |- *. now rewrite IH.
Qed.

(** [s.strip(chars)] is already stripped, and neither begins nor ends
    with one of the characters. *)
Lemma strip_by_idem (s : string) :
  PyStr.strip_by p (PyStr.strip_by p s) = PyStr.strip_by p s.
Proof.
  unfold PyStr.strip_by.
  rewrite (lstrip_by_fixed (PyStr.rstrip_by p (PyStr.lstrip_by p s))).
  - apply rstrip_by_idem.
  - intros c Hc. apply rstrip_by_first in Hc. now apply lstrip_by_first in Hc.
Qed.

Lemma strip_by_ends (s : string) (c : ascii) :
  first_char (PyStr.strip_by p s) = Some c \/ last_char (PyStr.strip_by p s) = Some c ->
  p c = false.
Proof.
  unfold PyStr.strip_by. intros [Hc|Hc].
  - apply rstrip_by_first in Hc. now apply lstrip_by_first in Hc.
  - now apply rstrip_by_last in Hc.
Qed.

End TrimFacts.

Lemma canonical_is_stripped `{UrlLib} (uri c : string) :
  odysee_to_canonical uri = Ok (Some c) -> exists x, c = PyStr.strip_slash x.
Proof.
  unfold odysee_to_canonical.
  destruct (PyStr.startswith uri "lbry://").
  - intros [= <-]. eexists. reflexivity.
  - destruct (urlparse uri) as [parsed|e]; [|discriminate]. cbn [bind].
    destruct (negb _); [discriminate|].
    destruct (negb _); [discriminate|].
    intros [= <-]. eexists. reflexivity.
Qed.

(** X6. A canonical identifier neither begins nor ends with a slash, and
    it is a fixed point of the canonicalization: the native uri built from
    it, as [fallback_lbry_get] builds it, has that identifier again. *)
Theorem canonical_round_trip `{UrlLib} (uri c : string) :
  odysee_to_canonical uri = Ok (Some c) ->
  first_char c <> Some "/"%char
  /\ last_char c <> Some "/"%char
  /\ odysee_to_canonical ("lbry://" ++ c) = Ok (Some c).
Proof.
  intros Hc. destruct (canonical_is_stripped uri c Hc) as [x ->].
  unfold PyStr.strip_slash. repeat split.
  - intros Hf.
    pose proof (strip_by_ends (Ascii.eqb "/") x "/" (or_introl Hf)) as Hno.
    discriminate.
  - intros Hl.
    pose proof (strip_by_ends (Ascii.eqb "/") x "/" (or_intror Hl)) as Hno.
    discriminate.
  - unfold odysee_to_canonical.
    rewrite startswith_app, slice_from_app. unfold PyStr.strip_slash.
    now rewrite strip_by_idem.
Qed.

(** The identifier of a portal url is the identifier of its native
    uri. *)
Lemma canonical_round_trip_witness :
  odysee_to_canonical (H := Samples.plain_urllib) "lbry://@maker#1/frame#ab"
  = Ok (Some "@maker#1/frame#ab").
Proof.
  apply (canonical_round_trip (H := Samples.plain_urllib)
           "https://odysee.com/@maker:1/frame:ab/" "@maker#1/frame#ab").
  reflexivity.
Defined.

Section SplitFacts.
Variable c : ascii.

Lemma split_not_nil (s : string) : PyStr.split c s <> [].
Proof.
  destruct s as [|d s]; cbn; [discriminate|].
  destruct (Ascii.eqb d c); [discriminate|].
  destruct (PyStr.split c s); discriminate.
Qed.

(** ["c".join(s.split("c")) == s] *)
Lemma join_split (s : string) :
  PyStr.join (String c EmptyString) (PyStr.split c s) = s.
Proof.
  induction s as [|d s IH]; [reflexivity|]. cbn [PyStr.split].
  destruct (Ascii.eqb d c) eqn:Hd.
  - apply Ascii.eqb_eq in Hd. subst d.
    destruct (PyStr.split c s) as [|h t] eqn:Hs; [now destruct (split_not_nil s)|].
    cbn [PyStr.join append] in *. now rewrite IH.
  - destruct (PyStr.split c s) as [|h t] eqn:Hs; [now destruct (split_not_nil s)|].
    destruct t as [|h' t]; cbn [PyStr.join append] in *; now rewrite IH.
Qed.

Lemma has_char_app (x : ascii) (a b : string) :
  PyStr.has_char x (a ++ b) = PyStr.has_char x a || PyStr.has_char x b.
Proof.
  induction a as [|d a IH]; [reflexivity|]. cbn. now rewrite IH, orb_assoc.
Qed.

(** A segment has no separator, and only characters of the string. *)
Lemma split_segment (s seg : string) :
  In seg (PyStr.split c s) ->
  PyStr.has_char c seg = false
  /\ forall x, PyStr.has_char x seg = true -> PyStr.has_char x s = true.
Proof.
  revert seg. induction s as [|d s IH]; intros seg Hin.
  - destruct Hin as [<-|[]]. split; [reflexivity|discriminate].
  - cbn [PyStr.split] in Hin. destruct (Ascii.eqb d c) eqn:Hd.
    + destruct Hin as [<-|Hin]; [split; [reflexivity|discriminate]|].
      destruct (IH seg Hin) as [Hno Hsub]. split; [exact Hno|].
      intros x Hx. cbn. rewrite (Hsub x Hx). apply orb_true_r.
    + destruct (PyStr.split c s) as [|h t] eqn:Hs; [now destruct (split_not_nil s)|].
      destruct Hin as [<-|Hin].
      * destruct (IH h (or_introl eq_refl)) as [Hno Hsub]. split.
        -- cbn. now rewrite Ascii.eqb_sym, Hd, Hno.
        -- intros x Hx. cbn in Hx |- *. apply orb_true_iff in Hx.
           apply orb_true_iff. destruct Hx as [Hx|Hx]; [now left|].
           right. now apply Hsub.
      * destruct (IH seg (or_intror Hin)) as [Hno Hsub]. split; [exact Hno|].
        intros x Hx. cbn. rewrite (Hsub x Hx). apply orb_true_r.
Qed.

Lemma split_whole (x : string) :
  PyStr.has_char c x = false -> PyStr.split c x = [x].
Proof.
  induction x as [|d x IH]; [reflexivity|]. cbn. intros Hx.
  apply orb_false_elim in Hx. destruct Hx as [Hd Hx].
  rewrite Ascii.eqb_sym, Hd, (IH Hx). reflexivity.
Qed.

Lemma split_app_sep (x y : string) :
  PyStr.has_char c x = false ->
  PyStr.split c (x ++ String c y) = x :: PyStr.split c y.
Proof.
  induction x as [|d x IH]; cbn.
  - intros _. now rewrite Ascii.eqb_refl.
  - intros Hx. apply orb_false_elim in Hx. destruct Hx as [Hd Hx].
    rewrite Ascii.eqb_sym, Hd, (IH Hx). reflexivity.
Qed.

(** [sep.join(l).split(sep) == l] for segments without the separator. *)
Lemma split_join (l : list string) :
  l <> [] ->
  (forall x, In x l -> PyStr.has_char c x = false) ->
  PyStr.split c (PyStr.join (String c EmptyString) l) = l.
Proof.
  induction l as [|x l IH]; intros Hne Hall; [congruence|].
  destruct l as [|y l].
  - cbn. apply split_whole. apply Hall. now left.
  - change (PyStr.join (String c EmptyString) (x :: y :: l))
      with (x ++ String c (PyStr.join (String c EmptyString) (y :: l)))%string.
    rewrite split_app_sep by (apply Hall; now left).
    rewrite IH; [reflexivity|discriminate|].
    intros z Hz. apply Hall. now right.
Qed.

(** The segments of a stripped string are segments of the string. *)
Lemma split_lstrip (s seg : string) :
  In seg (PyStr.split c (PyStr.lstrip_by (Ascii.eqb c) s)) ->
  In seg (PyStr.split c s).
Proof.
  induction s as [|d s IH]; [exact (fun H => H)|].
  cbn [PyStr.lstrip_by]. destruct (Ascii.eqb c d) eqn:Hd; [|exact (fun H => H)].
  intros Hin. cbn [PyStr.split]. rewrite Ascii.eqb_sym, Hd. right. now apply IH.
Qed.

Lemma split_sep (d : ascii) (s : string) :
  Ascii.eqb d c = true ->
  PyStr.split c (String d s) = EmptyString :: PyStr.split c s.
Proof. intros Hd. cbn. now rewrite Hd. Qed.

Lemma split_other (d : ascii) (s h : string) (t : list string) :
  Ascii.eqb d c = false ->
  PyStr.split c s = h :: t ->
  PyStr.split c (String d s) = String d h :: t.
Proof. intros Hd Hs. cbn. now rewrite Hd, Hs. Qed.

Lemma split_rstrip_shape (s : string) :
  (PyStr.rstrip_by (Ascii.eqb c) s = EmptyString
   /\ exists t, PyStr.split c s = EmptyString :: t)
  \/ (exists h t t',
        PyStr.split c (PyStr.rstrip_by (Ascii.eqb c) s) = h :: t'
        /\ PyStr.split c s = h :: t
        /\ incl t' t).
Proof.
  induction s as [|d s IH].
  - left. split; [reflexivity|]. now exists [].
  - cbn [PyStr.rstrip_by]. rewrite (Ascii.eqb_sym c d).
    destruct (Ascii.eqb d c) eqn:Hd.
    + rewrite (split_sep d s Hd).
      destruct IH as [[Hr [t Ht]]|[h [t [t' [Hr [Hs Hi]]]]]].
      * rewrite Hr. left. split; [reflexivity|]. now exists (PyStr.split c s).
      * destruct (PyStr.rstrip_by (Ascii.eqb c) s) as [|e r] eqn:Hrs.
        -- left. split; [reflexivity|]. now exists (PyStr.split c s).
        -- right. rewrite (split_sep d (String e r) Hd), Hr, Hs.
           exists EmptyString, (h :: t), (h :: t'). repeat split.
           intros x [<-|Hx]; [now left|right; now apply Hi].
    + destruct IH as [[Hr [t Ht]]|[h [t [t' [Hr [Hs Hi]]]]]].
      * rewrite Hr, (split_other d s EmptyString t Hd Ht). right.
        exists (String d EmptyString), t, []. repeat split.
        -- cbn. now rewrite Hd.
        -- intros x [].
      * rewrite (split_other d s h t Hd Hs).
        destruct (PyStr.rstrip_by (Ascii.eqb c) s) as [|e r] eqn:Hrs.
        -- cbn in Hr. injection Hr as <- <-. right.
           exists (String d EmptyString), t, []. repeat split.
           ++ cbn. now rewrite Hd.
           ++ intros x [].
        -- right. rewrite (split_other d (String e r) h t' Hd Hr).
           exists (String d h), t, t'. repeat split. exact Hi.
Qed.

Lemma split_strip (s seg : string) :
  In seg (PyStr.split c (PyStr.strip_by (Ascii.eqb c) s)) ->
  In seg (PyStr.split c s).
Proof.
  unfold PyStr.strip_by. intros Hin. apply split_lstrip.
  destruct (split_rstrip_shape (PyStr.lstrip_by (Ascii.eqb c) s))
    as [[Hr [t Ht]]|[h [t [t' [Hr [Hs Hi]]]]]].
  - rewrite Hr in Hin. destruct Hin as [<-|[]]. rewrite Ht. now left.
  - rewrite Hr in Hin. rewrite Hs.
    destruct Hin as [<-|Hin]; [now left|right; now apply Hi].
Qed.

End SplitFacts.

Lemma rewrite_segment_hash (segment : string) :
  PyStr.has_char ":" (rewrite_segment segment) = true ->
  PyStr.has_char "#" (rewrite_segment segment) = true.
Proof.
  destruct (PyStr.has_char ":" segment) eqn:Hc;
    [destruct (PyStr.has_char "#" segment) eqn:Hh|].
  - rewrite rewrite_segment_other by now right. now intros _.
  - destruct (rewrite_segment_colon segment Hc Hh) as [name [short [_ [_ ->]]]].
    intros _. rewrite has_char_app. cbn. apply orb_true_r.
  - rewrite rewrite_segment_other by now left. congruence.
Qed.

Lemma rewrite_segment_slash (segment : string) :
  PyStr.has_char "/" segment = false ->
  PyStr.has_char "/" (rewrite_segment segment) = false.
Proof.
  intros Hs.
  destruct (PyStr.has_char ":" segment) eqn:Hc;
    [destruct (PyStr.has_char "#" segment) eqn:Hh|].
  - now rewrite rewrite_segment_other by now right.
  - destruct (rewrite_segment_colon segment Hc Hh) as [name [short [Heq [_ ->]]]].
    rewrite Heq, has_char_app in Hs. apply orb_false_elim in Hs.
    destruct Hs as [Hn Hs]. cbn in Hs. rewrite has_char_app, Hn. cbn. exact Hs.
  - now rewrite rewrite_segment_other by now left.
Qed.

(** The result on a portal url, for a path that is not empty. *)
Lemma portal_canonical `{UrlLib} (uri c : string) :
  PyStr.startswith uri "lbry://" = false ->
  odysee_to_canonical uri = Ok (Some c) ->
  exists p,
    p <> EmptyString
    /\ c = PyStr.strip_slash
             (PyStr.join "/" (map rewrite_segment (PyStr.split "/" p))).
Proof.
  intros Hn. unfold odysee_to_canonical. rewrite Hn.
  destruct (urlparse uri) as [parsed|e]; [|discriminate]. cbn [bind].
  destruct (negb _); [discriminate|].
  destruct (PyStr.truthy _) eqn:Ht; [|discriminate]. cbn [negb].
  intros [= <-]. eexists. split; [|reflexivity]. now apply truthy_nonempty.
Qed.

(** X7. A portal url whose path has no colon keeps its path: the
    identifier is the path, unquoted, with the slashes at both ends
    removed. *)
Theorem portal_path_without_colon `{UrlLib} (uri : string) (parsed : ParseResult) :
  PyStr.startswith uri "lbry://" = false ->
  urlparse uri = Ok parsed ->
  PyStr.contains "odysee.com" (PyStr.lower (netloc parsed)) = true ->
  unquote (PyStr.strip_slash (path parsed)) <> EmptyString ->
  PyStr.has_char ":" (unquote (PyStr.strip_slash (path parsed))) = false ->
  odysee_to_canonical uri
  = Ok (Some (PyStr.strip_slash (unquote (PyStr.strip_slash (path parsed))))).
Proof.
  intros Hn Hp Hhost Hpath Hcolon. unfold odysee_to_canonical.
  rewrite Hn, Hp. cbn [bind]. rewrite Hhost. cbn [negb].
  apply truthy_nonempty in Hpath. rewrite Hpath. cbn [negb].
  set (p := unquote (PyStr.strip_slash (path parsed))) in *.
  assert (Hid : map rewrite_segment (PyStr.split "/" p) = PyStr.split "/" p).
  { rewrite <- (map_id (PyStr.split "/" p)) at 2. apply map_ext_in.
    intros seg Hseg. apply rewrite_segment_other. left.
    destruct (PyStr.has_char ":" seg) eqn:Hc; [|reflexivity].
    destruct (split_segment "/" p seg Hseg) as [_ Hsub].
    rewrite (Hsub ":"%char Hc) in Hcolon. discriminate. }
  rewrite Hid. change "/"%string with (String "/" EmptyString).
  now rewrite join_split.
Qed.

(** A channel page of the portal. *)
Lemma portal_path_without_colon_witness :
  odysee_to_canonical (H := Samples.plain_urllib) "https://odysee.com/@maker/frame/"
  = Ok (Some "@maker/frame").
Proof.
  apply (portal_path_without_colon (H := Samples.plain_urllib)
           "https://odysee.com/@maker/frame/"
           {| netloc := "odysee.com"; path := "/@maker/frame/" |});
    try reflexivity.
  discriminate.
Defined.

(** X8. In the identifier of a portal url no segment is left in the form
    [name:shortId]: a segment with a colon has a hash mark.  (A native
    uri is not rewritten.) *)
Theorem portal_segments_rewritten `{UrlLib} (uri c segment : string) :
  PyStr.startswith uri "lbry://" = false ->
  odysee_to_canonical uri = Ok (Some c) ->
  In segment (PyStr.split "/" c) ->
  PyStr.has_char ":" segment = true ->
  PyStr.has_char "#" segment = true.
Proof.
  intros Hn Hc Hin Hcolon.
  destruct (portal_canonical uri c Hn Hc) as [p [_ ->]].
  unfold PyStr.strip_slash in Hin. apply split_strip in Hin.
  change "/"%string with (String "/" EmptyString) in Hin.
  rewrite split_join in Hin.
  - apply in_map_iff in Hin. destruct Hin as [seg [<- _]].
    now apply rewrite_segment_hash.
  - intros Hnil. apply map_eq_nil in Hnil. now apply (split_not_nil "/" p).
  - intros x Hx. apply in_map_iff in Hx. destruct Hx as [seg [<- Hseg]].
    apply rewrite_segment_slash. now apply (split_segment "/" p seg).
Qed.

(** A segment with two colons keeps the second one, behind the hash
    mark. *)
Lemma portal_segments_rewritten_witness :
  PyStr.has_char "#" "frame#ab:2" = true.
Proof.
  apply (portal_segments_rewritten (H := Samples.plain_urllib)
           "https://odysee.com/@maker:1/frame:ab:2" "@maker#1/frame#ab:2"
           "frame#ab:2").
  - reflexivity.
  - reflexivity.
  - cbn. right. left. reflexivity.
  - reflexivity.
Defined.

(** ** The download chain, once more *)

Section ChainCounts.
Variable dm : daemon.
Variable canonical_uri : string.

Lemma posts_app (a b : list event) : posts (a ++ b) = posts a + posts b.
Proof. unfold posts. now rewrite filter_app, length_app. Qed.

Lemma client_calls_app (a b : list event) :
  client_calls (a ++ b) = client_calls a + client_calls b.
Proof. unfold client_calls. now rewrite filter_app, length_app. Qed.

(** Tier C posts once and never calls the client. *)
Lemma fallback_counts :
  posts (fst (fallback_lbry_get dm canonical_uri)) = 1
  /\ client_calls (fst (fallback_lbry_get dm canonical_uri)) = 0.
Proof.
  unfold fallback_lbry_get, call_lbry_rpc.
  destruct (rpc_post dm "get" ("lbry://" ++ canonical_uri)) as [| |data];
    cbn; auto.
  destruct (contains_error data) as [[|]|e]; cbn; auto.
  { destruct (py_item "error" data); cbn; auto. }
  destruct (py_get "result" data) as [result|e]; cbn; auto.
  destruct result; cbn; auto;
    repeat match goal with
           | |- context [output_path dm ?v] => destruct (output_path dm v); cbn; auto
           | |- context [if ?b then _ else _] => destruct b; cbn; auto
           end.
Qed.

End ChainCounts.

(** X9. However the client and the endpoint answer,
    [download_with_lbrytools] calls the client at most once and posts to
    the RPC endpoint at most once; tier C alone posts exactly once.
    Without the client library ([lbryt] is [None]) it returns [False]
    and neither calls nor posts: the RPC fallback is not tried. *)
Theorem download_at_most_once (dm : daemon) (canonical_uri : string) :
  posts (fst (download_with_lbrytools dm canonical_uri)) <= 1
  /\ client_calls (fst (download_with_lbrytools dm canonical_uri)) <= 1
  /\ posts (fst (fallback_lbry_get dm canonical_uri)) = 1
  /\ (lbryt dm = None ->
      snd (download_with_lbrytools dm canonical_uri) = Ok false
      /\ posts (fst (download_with_lbrytools dm canonical_uri)) = 0
      /\ client_calls (fst (download_with_lbrytools dm canonical_uri)) = 0).
Proof.
  destruct (fallback_counts dm canonical_uri) as [Hp Hc].
  assert (Hboth : posts (fst (download_with_lbrytools dm canonical_uri)) <= 1
                  /\ client_calls (fst (download_with_lbrytools dm canonical_uri)) <= 1).
  { unfold download_with_lbrytools, handle_lbry_error.
    destruct (lbryt dm) as [download_single|]; [|cbn; lia].
    destruct (download_single canonical_uri) as [message|v|].
    - destruct (PyStr.contains "Cannot establish connection" message); [cbn; lia|].
      destruct (fallback_lbry_get dm canonical_uri) as [evs r]. cbn in *. lia.
    - destruct v as [|b|n|nz|s|l|d];
        try (destruct (fallback_lbry_get dm canonical_uri) as [evs r]; cbn in *; lia).
      + destruct b; [cbn; lia|].
        destruct (fallback_lbry_get dm canonical_uri) as [evs r]. cbn in *. lia.
      + destruct (output_path dm (PDict d)) as [p|e]; [|cbn; lia].
        destruct (truthy p); cbn; lia.
    - destruct (fallback_lbry_get dm canonical_uri) as [evs r]. cbn in *. lia. }
  destruct Hboth as [Hposts Hcalls].
  split; [exact Hposts|]. split; [exact Hcalls|]. split; [exact Hp|].
  intros Hnone. unfold download_with_lbrytools. rewrite Hnone. repeat split.
Qed.

(** X10. Tier C raises instead of returning exactly when the endpoint
    answers with an unexpected JSON value: one that is not an object, or
    an object without [error] whose [result] is a string, a number,
    [true] or a list that is not empty.  The exception is a [TypeError]
    when the answer is [null], a boolean or a number (the test
    ["error" in data] fails) and when it is a string or a list in which
    that test holds ([data["error"]] fails); in every other case it is an
    [AttributeError] (of [get]). *)
Theorem fallback_lbry_get_raises (dm : daemon) (canonical_uri : string) :
  ((exists e, snd (fallback_lbry_get dm canonical_uri) = Raise e) <->
   exists data,
     rpc_post dm "get" ("lbry://" ++ canonical_uri) = Body data
     /\ unexpected_answer data = true)
  /\ (forall e,
        snd (fallback_lbry_get dm canonical_uri) = Raise e ->
        e = TypeError \/ e = AttributeError)
  /\ (forall data,
        rpc_post dm "get" ("lbry://" ++ canonical_uri) = Body data ->
        (snd (fallback_lbry_get dm canonical_uri) = Raise TypeError <->
         not_iterable data || holds_error data = true)).
Proof.
  rewrite (fallback_result dm canonical_uri).
  destruct (rpc_post dm "get" ("lbry://" ++ canonical_uri)) as [| |data].
  - split; [split|split].
    + intros [e He]. discriminate.
    + intros [data [Hd _]]. discriminate.
    + intros e He. discriminate.
    + intros data Hd. discriminate.
  - split; [split|split].
    + intros [e He]. discriminate.
    + intros [data [Hd _]]. discriminate.
    + intros e He. discriminate.
    + intros data Hd. discriminate.
  - assert (Hcase :
      match (has_error <- contains_error data ;;
             if has_error then (_ <- py_item "error" data ;; Ok false)
             else result <- py_get "result" data ;;
                  if truthy result
                  then (_ <- output_path dm result ;; Ok true)
                  else Ok false) with
      | Ok _ => unexpected_answer data = false
                /\ not_iterable data || holds_error data = false
      | Raise e =>
          unexpected_answer data = true
          /\ (e = TypeError \/ e = AttributeError)
          /\ (e = TypeError <-> not_iterable data || holds_error data = true)
      end).
    { destruct data as [|b|n|nz|s|l|d];
        cbn [contains_error bind unexpected_answer not_iterable holds_error orb];
        try (repeat split; auto; tauto).
      - destruct (PyStr.contains "error" s); cbn;
          repeat split; auto; try discriminate; tauto.
      - destruct (existsb _ l); cbn;
          repeat split; auto; try discriminate; tauto.
      - cbn [py_item py_get].
        destruct (dict_get "error" d) as [err|]; cbn; [split; reflexivity|].
        destruct (dict_get "result" d) as [v|]; cbn; [|split; reflexivity].
        destruct v as [|b|n|nz|s|l|r]; cbn; try (split; reflexivity).
        + destruct b; cbn; [|split; reflexivity].
          repeat split; auto; try discriminate; tauto.
        + destruct (negb (n =? 0)%Z); cbn; [|split; reflexivity].
          repeat split; auto; try discriminate; tauto.
        + destruct nz; cbn; [|split; reflexivity].
          repeat split; auto; try discriminate; tauto.
        + destruct (PyStr.truthy s); cbn; [|split; reflexivity].
          repeat split; auto; try discriminate; tauto.
        + destruct l; cbn; [split; reflexivity|].
          repeat split; auto; try discriminate; tauto.
        + destruct r as [|kv r]; cbn; [split; reflexivity|].
          destruct (truthy _); cbn; split; reflexivity. }
    destruct (has_error <- contains_error data ;; _) as [b|e].
    + destruct Hcase as [Hu Hty]. split; [split|split].
      * intros [e He]. discriminate.
      * intros [data' [[= <-] Hu']]. congruence.
      * intros e He. discriminate.
      * intros data' [= <-]. split; [discriminate|]. congruence.
    + destruct Hcase as [Hu [He Hty]]. split; [split|split].
      * intros _. now exists data.
      * intros _. now exists e.
      * intros e' [= <-]. exact He.
      * intros data' [= <-]. split.
        -- intros [= ->]. now apply Hty.
        -- intros Hd. f_equal. now apply Hty.
Qed.

(** An endpoint that answers with the JSON string [some error] makes
    tier C raise a [TypeError]; one that answers with an empty list, an
    [AttributeError]. *)
Example fallback_lbry_get_string_answer :
  snd (fallback_lbry_get
         {| lbryt := None; rpc_post := fun _ _ => Body (PStr "some error");
            download_dir := "/srv" |} "frame#ab") = Raise TypeError
  /\ snd (fallback_lbry_get
            {| lbryt := None; rpc_post := fun _ _ => Body (PList []);
               download_dir := "/srv" |} "frame#ab") = Raise AttributeError.
Proof. split; reflexivity. Qed.

(** ** The crawl of the listing pages *)

Import Crawl.

Section CrawlFacts.
Context `{HtmlParser} `{Sqlite}.

(** [extract_links] raises nothing but the [AttributeError] of a [title]
    attribute. *)
Lemma extract_cards_raises (page_num : Z) (divs : list node) :
  forall found found' e,
    extract_cards page_num divs found = (found', Raise e) -> e = AttributeError.
Proof.
  induction divs as [|div rest IH]; intros found found' e; [discriminate|].
  cbn [extract_cards].
  destruct (extract_card page_num div) as [[item|]|e'] eqn:Hcard; try apply IH.
  intros [= _ <-]. unfold extract_card in Hcard.
  destruct (find is_anchor_with_href div) as [a|] eqn:Ha; [|discriminate].
  destruct (anchor_has_href div a Ha) as [href Hh].
  unfold getitem in Hcard. rewrite Hh in Hcard. cbn [bind] in Hcard.
  unfold card_title in Hcard.
  destruct (find is_title_heading div).
  - cbn [bind] in Hcard. destruct (PyStr.truthy _); discriminate.
  - destruct (get "title" a) as [t|].
    + destruct (PyStr.truthy t).
      * cbn [bind] in Hcard. congruence.
      * cbn [bind] in Hcard. destruct (PyStr.truthy _); discriminate.
    + cbn [bind] in Hcard. destruct (PyStr.truthy _); discriminate.
Qed.

Lemma scan_search_appends (net : site) (page : Z) (found : list link_item) :
  exists new,
    fst (scan_search net page found) = found ++ new
    /\ Forall (scanned page) new
    /\ (forall e, snd (scan_search net page found) = Raise e -> e = AttributeError).
Proof.
  unfold scan_search, extract_links.
  destruct (PyStr.truthy (fetch net (page_url page))); cbn [negb].
  - destruct (extract_cards_appends page
                (find_all is_card (parse_html (fetch net (page_url page)))) found)
      as [new [Heq Hall]].
    exists new. split; [exact Heq|]. split.
    + eapply Forall_impl; [|exact Hall].
      intros r [div [_ [a [href [title [_ [_ [_ [Hne ->]]]]]]]]].
      unfold scanned. cbn [Page Title]. split; [reflexivity|].
      split; [apply slice_to_length|].
      apply truthy_nonempty. apply slice_to_truthy. now apply truthy_nonempty.
    + intros e He.
      destruct (extract_cards page _ found) as [found' r] eqn:Hrun.
      cbn [snd] in He. subst r. now apply (extract_cards_raises _ _ _ _ _ Hrun).
  - exists []. cbn. rewrite app_nil_r. repeat split; [constructor|discriminate].
Qed.

Lemma run_scans_appends (net : site) (order : list Z) :
  forall found,
    exists new,
      fst (run_scans net order found) = found ++ new
      /\ Forall (fun it => exists page, In page order /\ scanned page it) new
      /\ (forall e, snd (run_scans net order found) = Raise e -> e = AttributeError).
Proof.
  induction order as [|page rest IH]; intros found.
  - exists []. cbn. rewrite app_nil_r. repeat split; [constructor|discriminate].
  - cbn [run_scans].
    destruct (scan_search_appends net page found) as [new [Heq [Hall Hexn]]].
    destruct (scan_search net page found) as [found' [u|e]]; cbn [fst snd] in *.
    + destruct (IH found') as [new' [Heq' [Hall' Hexn']]].
      exists (new ++ new'). split; [rewrite Heq', Heq; apply eq_sym, app_assoc|].
      split; [|exact Hexn'].
      apply Forall_app. split.
      * eapply Forall_impl; [|exact Hall]. intros it Hit. exists page.
        split; [now left|exact Hit].
      * eapply Forall_impl; [|exact Hall']. intros it [q [Hq Hit]]. exists q.
        split; [now right|exact Hit].
    + exists new. split; [exact Heq|]. split; [|exact Hexn].
      eapply Forall_impl; [|exact Hall]. intros it Hit. exists page.
      split; [now left|exact Hit].
Qed.

Lemma in_page_range (start_page end_page page : Z) :
  In page (page_range start_page end_page) <->
  (start_page <= page <= end_page)%Z.
Proof.
  unfold page_range. rewrite in_map_iff. split.
  - intros [i [<- Hi]]. apply in_seq in Hi. lia.
  - intros Hp. exists (Z.to_nat (page - start_page)). split; [lia|].
    apply in_seq. lia.
Qed.

(** The rows the loop of [save_links] appends are rows of the batch. *)
Lemma save_links_loop_rows (env : nat -> stmt_env) (items : list link_item) :
  forall (i : nat) (t : list link_row) (n : nat),
    exists added,
      save_links_loop env i items t n = (t ++ added, n + List.length added)
      /\ Forall (fun row => exists item,
                     In item items /\ l_page row = Page item
                     /\ l_title row = Title item /\ l_link row = Link item) added.
Proof.
  induction items as [|item rest IH]; intros i t n.
  - exists []. cbn. now rewrite app_nil_r, Nat.add_0_r.
  - cbn [save_links_loop]. unfold insert_or_ignore_link.
    assert (Hrest : forall added,
              Forall (fun row => exists item0,
                          In item0 rest /\ l_page row = Page item0
                          /\ l_title row = Title item0 /\ l_link row = Link item0)
                added ->
              Forall (fun row => exists item0,
                          In item0 (item :: rest) /\ l_page row = Page item0
                          /\ l_title row = Title item0 /\ l_link row = Link item0)
                added).
    { intros added Hall. eapply Forall_impl; [|exact Hall].
      intros row [it [Hin Hrow]]. exists it. split; [now right|exact Hrow]. }
    destruct (se_error (env i)).
    + destruct (IH (S i) t n) as [added [Heq Hall]]. exists added. auto.
    + destruct (link_exists (Link item) t).
      * destruct (IH (S i) t n) as [added [Heq Hall]]. exists added. cbn. auto.
      * match goal with
        | |- context [save_links_loop env (S i) rest (t ++ [?row]) ?n'] =>
            destruct (IH (S i) (t ++ [row]) n') as [added [Heq Hall]];
            exists (row :: added)
        end.
        rewrite Heq, <- app_assoc. cbn. split; [f_equal; lia|].
        constructor; [|now apply Hrest].
        exists item. cbn. split; [now left|auto].
Qed.

End CrawlFacts.

(** X11. [fetch] hands on the text of a response of status 200 and
    nothing else.  With any other answer (another status of the 2xx range
    too, or an exception) and with an empty body of status 200, a listing
    page gives no record and no error, and a detail page puts its url on
    the failure list and leaves the database as it is. *)
Theorem only_status_200_counts `{HtmlParser} `{UrlLib} `{Sqlite}
    (net : site) (url : string) :
  (forall text, session_get net url = Response 200 text -> fetch net url = text)
  /\ ((forall text, text <> EmptyString -> session_get net url <> Response 200 text) ->
      fetch net url = EmptyString
      /\ (forall now link_id s,
            scrape_detail now (fetch net url) link_id url s
            = Ok {| links_found := links_found s;
                    failed_deep := failed_deep s ++ [url];
                    database := database s |})
      /\ (forall page found,
            url = page_url page -> scan_search net page found = (found, Ok tt))).
Proof.
  split.
  - intros text Hget. unfold fetch. now rewrite Hget.
  - intros Hbad.
    assert (Hempty : fetch net url = EmptyString).
    { unfold fetch. destruct (session_get net url) as [|status text] eqn:Hget;
        [reflexivity|].
      destruct (Z.eqb status 200) eqn:Hst; [|reflexivity].
      apply Z.eqb_eq in Hst. subst status.
      destruct text as [|c r]; [reflexivity|].
      now destruct (Hbad (String c r)). }
    split; [exact Hempty|]. split.
    + intros now link_id s. now rewrite Hempty.
    + intros page found ->. unfold scan_search. now rewrite Hempty.
Qed.

(** Page 2 of the small site answers 404. *)
Lemma only_status_200_counts_witness :
  scan_search (H := Samples.relative_parser) MoreSamples.small_site 2 []
  = ([], Ok tt).
Proof.
  apply (proj2 (only_status_200_counts (H := Samples.relative_parser)
                  (H0 := Samples.plain_urllib) (H1 := Samples.sqlite_next)
                  MoreSamples.small_site "https://guncadindex.com/search?page=2")).
  - intros text _. discriminate.
  - reflexivity.
Defined.

(** X12. What stage 1 stores.  On a scraper that has found nothing yet,
    a run of stage 1 over the pages [start_page] to [end_page] only
    appends rows to the [links] table, each with a page number of that
    range and a title of 1 to 100 characters, and leaves the other two
    tables alone. *)
Theorem stage1_rows_in_range `{HtmlParser} `{Sqlite} (net : site)
    (env : nat -> stmt_env) (start_page end_page : Z) (s s' : scraper)
    (r : res (option nat)) :
  links_found s = [] ->
  stage1_search net env start_page end_page s (s', r) ->
  (exists added,
      links (database s') = links (database s) ++ added
      /\ Forall (fun row => (start_page <= l_page row <= end_page)%Z
                            /\ 1 <= String.length (l_title row) <= 100) added)
  /\ details (database s') = details (database s)
  /\ exturl (database s') = exturl (database s).
Proof.
  intros Hfresh [order [Hperm Hout]]. unfold stage1_in_order in Hout.
  rewrite Hfresh in Hout.
  destruct (run_scans_appends net order []) as [new [Heq [Hall _]]].
  destruct (run_scans net order []) as [found [u|e]]; cbn [fst app] in Heq;
    subst found.
  - destruct new as [|it new'] eqn:Hnew.
    + injection Hout as -> _. cbn. split; [|auto].
      exists []. now rewrite app_nil_r.
    + rewrite <- Hnew in *. clear Hnew.
      unfold save_links_bound, save_links in Hout.
      cbn [with_links links_found database] in Hout.
      destruct (forallb (fun item => fits_int64 (Page item)) new);
        [|injection Hout as -> _; cbn; split; [|auto];
          exists []; now rewrite app_nil_r].
      destruct (save_links_loop_rows env new 0 (links (database s)) 0)
        as [added [Hrun Hrows]].
      rewrite Hrun in Hout. injection Hout as -> _. cbn [database links details exturl].
      split; [|auto]. exists added. split; [reflexivity|].
      eapply Forall_impl; [|exact Hrows].
      intros row [item [Hin [Hp [Ht _]]]].
      rewrite Forall_forall in Hall. destruct (Hall item Hin) as [page [Hpage Hsc]].
      destruct Hsc as [Hpg [Hlen Hne]]. rewrite Hp, Ht, Hpg. split.
      * apply in_page_range. eapply Permutation_in; eassumption.
      * split; [|exact Hlen]. destruct (Title item); [congruence|cbn; lia].
  - injection Hout as -> _. cbn. split; [|auto].
    exists []. now rewrite app_nil_r.
Qed.

Lemma stage1_exists `{HtmlParser} `{Sqlite} (net : site) (env : nat -> stmt_env)
    (start_page end_page : Z) (s : scraper) :
  stage1_search net env start_page end_page s
    (stage1_in_order net env (page_range start_page end_page) s).
Proof. exists (page_range start_page end_page). split; [apply Permutation_refl|reflexivity]. Qed.

(** Stage 1 over the pages 1 and 2 of the small site. *)
Lemma stage1_rows_in_range_witness :
  exists added,
    links (database (fst (stage1_in_order (H := Samples.relative_parser)
                            (H0 := Samples.sqlite_next) MoreSamples.small_site
                            Samples.calm (page_range 1 2) MoreSamples.fresh_scraper)))
    = links (database MoreSamples.fresh_scraper) ++ added
    /\ Forall (fun row => (1 <= l_page row <= 2)%Z
                          /\ 1 <= String.length (l_title row) <= 100) added.
Proof.
  refine (proj1 (stage1_rows_in_range (H := Samples.relative_parser)
                   (H0 := Samples.sqlite_next) MoreSamples.small_site Samples.calm
                   1 2 MoreSamples.fresh_scraper _ _ eq_refl _)).
  rewrite <- surjective_pairing.
  apply (stage1_exists (H := Samples.relative_parser) (H0 := Samples.sqlite_next)).
Defined.



(** A search of the one page 2^63 of a site that lists something on every
    page finds a record and stores nothing: [save_links] raises. *)
Example stage1_page_out_of_range :
  stage1_in_order (H := Samples.relative_parser) (H0 := Samples.sqlite_next)
    {| session_get := fun _ => Response 200 Samples.relative_page |}
    Samples.calm (page_range (2 ^ 63) (2 ^ 63)) MoreSamples.fresh_scraper
  = ({| links_found :=
          [ {| Page := 2 ^ 63; Title := "Frame";
               Link := "detail/frame" |} ];
        failed_deep := []; database := Samples.empty_db |},
     Raise OverflowError).
Proof. vm_compute. reflexivity. Qed.

(** ** Statistics and export *)

Import Report.
From Stdlib Require Import Sorted.

Section ReportFacts.

Lemma left_join_rows (ls : list link_row) (ds : list detail_row)
    (l : link_row) (od : option detail_row) :
  In (l, od) (left_join ls ds) ->
  In l ls
  /\ match od with
     | None => existsb (is_detail_of (l_id l)) ds = false
     | Some d => In d ds /\ is_detail_of (l_id l) d = true
     end.
Proof.
  unfold left_join. rewrite in_flat_map. intros [l' [Hl Hin]].
  destruct (filter (is_detail_of (l_id l')) ds) as [|m ms] eqn:Hf.
  - destruct Hin as [[= <- <-]|[]]. split; [exact Hl|].
    rewrite existsb_filter. now rewrite Hf.
  - apply in_map_iff in Hin. destruct Hin as [d [[= <- <-] Hd]].
    split; [exact Hl|]. rewrite <- Hf in Hd. now apply filter_In in Hd.
Qed.

Lemma unique_details_one (s : db) (id : Z) :
  unique_details s -> List.length (details_of id s) <= 1.
Proof.
  unfold unique_details, details_of.
  induction (details s) as [|d t IH]; intros Hnd; [cbn; lia|].
  cbn [map] in Hnd. change (d_link_id d :: map d_link_id t)
    with ([d_link_id d] ++ map d_link_id t) in Hnd.
  rewrite non_null_app in Hnd. cbn [filter].
  destruct (is_detail_of id d) eqn:Hd.
  - unfold is_detail_of in Hd. destruct (d_link_id d) as [k|]; [|discriminate].
    apply Z.eqb_eq in Hd. subst k. cbn in Hnd.
    inversion Hnd as [|x xs Hnotin Hnd']. subst.
    assert (Hnil : filter (is_detail_of id) t = []).
    { destruct (filter (is_detail_of id) t) as [|d' r] eqn:Hf; [reflexivity|].
      assert (Hin : In d' (filter (is_detail_of id) t)) by (rewrite Hf; now left).
      apply filter_In in Hin. destruct Hin as [Hin Hm]. destruct Hnotin.
      apply in_non_null. apply in_map_iff. exists d'. split; [|exact Hin].
      unfold is_detail_of in Hm. destruct (d_link_id d') as [k|]; [|discriminate].
      apply Z.eqb_eq in Hm. now subst. }
    rewrite Hnil. cbn. lia.
  - apply IH. destruct (d_link_id d); cbn in Hnd; [now inversion Hnd|exact Hnd].
Qed.

(** With at most one detail row per listing, the join has one row per
    listing, in the order of the listings. *)
Lemma left_join_one_each (s : db) :
  unique_details s -> map fst (left_join (links s) (details s)) = links s.
Proof.
  intros Hu. unfold left_join. induction (links s) as [|l ls IH]; [reflexivity|].
  cbn [flat_map]. rewrite map_app, IH.
  pose proof (unique_details_one s (l_id l) Hu) as Hone. unfold details_of in Hone.
  destruct (filter (is_detail_of (l_id l)) (details s)) as [|m [|m' ms]];
    [reflexivity|reflexivity|cbn in Hone; lia].
Qed.

Lemma row_before_total (a b : link_row * option detail_row) :
  row_before a b = false -> row_before b a = true.
Proof. unfold row_before. lia. Qed.

Lemma row_before_trans (a b c : link_row * option detail_row) :
  row_before a b = true -> row_before b c = true -> row_before a c = true.
Proof. unfold row_before. lia. Qed.

Lemma insert_row_perm (r : link_row * option detail_row) rows :
  Permutation (insert_row r rows) (r :: rows).
Proof.
  induction rows as [|x rest IH]; [apply Permutation_refl|]. cbn.
  destruct (row_before r x); [apply Permutation_refl|].
  eapply Permutation_trans; [apply perm_skip, IH|apply perm_swap].
Qed.

Lemma order_by_perm rows : Permutation (order_by_page_id rows) rows.
Proof.
  induction rows as [|r rows IH]; [constructor|]. cbn.
  eapply Permutation_trans; [apply insert_row_perm|now apply perm_skip].
Qed.

Lemma insert_row_sorted (r : link_row * option detail_row) rows :
  StronglySorted (fun x y => row_before x y = true) rows ->
  StronglySorted (fun x y => row_before x y = true) (insert_row r rows).
Proof.
  induction rows as [|x rest IH]; intros Hs.
  - cbn. constructor; constructor.
  - inversion Hs as [|x' rest' Hrest Hall]. subst. cbn.
    destruct (row_before r x) eqn:Hrx.
    + constructor; [exact Hs|]. constructor; [exact Hrx|].
      eapply Forall_impl; [|exact Hall]. intros y Hy.
      now apply (row_before_trans r x y).
    + constructor; [now apply IH|].
      assert (Hperm := insert_row_perm r rest).
      apply Forall_forall. intros y Hy. apply (Permutation_in _ Hperm) in Hy.
      destruct Hy as [<-|Hy]; [now apply row_before_total|].
      rewrite Forall_forall in Hall. now apply Hall.
Qed.

Lemma order_by_sorted rows :
  StronglySorted (fun x y => row_before x y = true) (order_by_page_id rows).
Proof.
  induction rows as [|r rows IH]; [constructor|]. cbn. now apply insert_row_sorted.
Qed.

Lemma sorted_map {A B : Type} (R : A -> A -> Prop) (Q : B -> B -> Prop)
    (f : A -> B) (l : list A) :
  (forall x y, R x y -> Q (f x) (f y)) ->
  StronglySorted R l -> StronglySorted Q (map f l).
Proof.
  intros Hf. induction 1 as [|x l Hs IH Hall]; cbn; constructor; [exact IH|].
  apply Forall_forall. intros y Hy. apply in_map_iff in Hy.
  destruct Hy as [z [<- Hz]]. rewrite Forall_forall in Hall. now apply Hf, Hall.
Qed.

End ReportFacts.

(** X14. The statistics add up.  When the ids of the listings are
    pairwise different and every detail row belongs to a listing, the
    number of listings with details that [get_stats] reports and the size
    of the work set of [get_unscraped] sum to the number of listings. *)
Theorem stats_account (s : scraper) :
  NoDup (listing_ids (database s)) ->
  foreign_keys_hold (database s) = true ->
  links_with_details (get_stats s) + List.length (get_unscraped s)
  = total_links (get_stats s).
Proof.
  intros Hnd Hfk. unfold get_stats. cbn [links_with_details total_links].
  rewrite get_unscraped_filter, length_map.
  rewrite <- (filter_length
                (fun l => existsb (is_detail_of (l_id l)) (details (database s)))
                (links (database s))).
  f_equal. unfold count_distinct.
  rewrite <- (length_map l_id (filter _ (links (database s)))).
  apply Permutation_length. apply NoDup_Permutation.
  - apply NoDup_nodup.
  - now apply nodup_map_filter.
  - intros x. rewrite nodup_In, in_non_null, !in_map_iff. split.
    + intros [d [Hd Hin]].
      unfold foreign_keys_hold in Hfk. apply andb_true_iff in Hfk.
      destruct Hfk as [Hfk _]. rewrite forallb_forall in Hfk.
      specialize (Hfk d Hin). rewrite Hd in Hfk. cbn in Hfk.
      apply existsb_exists in Hfk. destruct Hfk as [k [Hk Hxk]].
      apply Z.eqb_eq in Hxk. subst k. unfold listing_ids in Hk.
      apply in_map_iff in Hk. destruct Hk as [l [Hl Hlin]].
      exists l. split; [exact Hl|]. apply filter_In. split; [exact Hlin|].
      apply existsb_exists. exists d. split; [exact Hin|].
      unfold is_detail_of. rewrite Hd, Hl. apply Z.eqb_refl.
    + intros [l [Hl Hin]]. apply filter_In in Hin. destruct Hin as [_ Hex].
      apply existsb_exists in Hex. destruct Hex as [d [Hd Hm]].
      exists d. split; [|exact Hd]. unfold is_detail_of in Hm.
      destruct (d_link_id d) as [k|]; [|discriminate].
      apply Z.eqb_eq in Hm. congruence.
Qed.

(** Two listings without details: none detailed, two to do. *)
Lemma stats_account_witness :
  links_with_details (get_stats Samples.two_listings)
  + List.length (get_unscraped Samples.two_listings) = 2.
Proof.
  apply (stats_account Samples.two_listings).
  - cbn. repeat constructor; cbn; intuition discriminate.
  - reflexivity.
Defined.

(** X15. The items of the export are those of the rows of the join of
    listings and details, sorted by page and then by id, so that their
    page numbers never decrease; and with at most one detail row per
    listing there is one item per listing. *)
Theorem export_items_ordered (now : string) (start_page end_page : Z) (s : scraper) :
  (exists rows,
      Permutation rows (left_join (links (database s)) (details (database s)))
      /\ StronglySorted (fun x y => row_before x y = true) rows
      /\ items (export_json now start_page end_page s)
         = map (export_item_of (database s)) rows)
  /\ StronglySorted (fun x y => (x_Page x <= x_Page y)%Z)
       (items (export_json now start_page end_page s))
  /\ (unique_details (database s) ->
      Permutation (map x_Link (items (export_json now start_page end_page s)))
        (map l_link (links (database s)))
      /\ List.length (items (export_json now start_page end_page s))
         = total_links (get_stats s)).
Proof.
  cbn [export_json items].
  set (rows := left_join (links (database s)) (details (database s))).
  split; [|split].
  - exists (order_by_page_id rows). split; [apply order_by_perm|].
    split; [apply order_by_sorted|reflexivity].
  - apply (sorted_map (fun x y => row_before x y = true)); [|apply order_by_sorted].
    intros x y Hxy. unfold row_before in Hxy. cbn [export_item_of x_Page]. lia.
  - intros Hu.
    assert (Hlinks : Permutation
                       (map x_Link (map (export_item_of (database s))
                                      (order_by_page_id rows)))
                       (map l_link (links (database s)))).
    { rewrite map_map. cbn [export_item_of x_Link].
      rewrite <- (left_join_one_each (database s) Hu), map_map.
      apply Permutation_map. apply order_by_perm. }
    split; [exact Hlinks|].
    apply Permutation_length in Hlinks. rewrite !length_map in Hlinks.
    rewrite length_map. exact Hlinks.
Qed.

(** X16. An item of the export comes from a listing: it has its page,
    title and url.  Its description is empty when the listing is in the
    work set of stage 2.  It has the key [ExternalURLs] exactly when the
    listing has reference rows, and then with the url and text of each of
    them in table order: the key never holds an empty list. *)
Theorem export_item_fields (now : string) (start_page end_page : Z) (s : scraper)
    (item : export_item) :
  In item (items (export_json now start_page end_page s)) ->
  exists l,
    In l (links (database s))
    /\ x_Page item = l_page l /\ x_Title item = l_title l /\ x_Link item = l_link l
    /\ (In (l_id l, l_link l) (get_unscraped s) -> x_Description item = EmptyString)
    /\ x_ExternalURLs item <> Some []
    /\ (x_ExternalURLs item = None <-> exturl_of (l_id l) (database s) = [])
    /\ (forall refs,
          x_ExternalURLs item = Some refs ->
          refs = map (fun e => (e_external_url e, e_link_text e))
                   (exturl_of (l_id l) (database s))).
Proof.
  cbn [export_json items]. rewrite in_map_iff. intros [[l od] [<- Hin]].
  apply (Permutation_in _ (order_by_perm _)) in Hin.
  apply left_join_rows in Hin. destruct Hin as [Hl Hod].
  exists l. cbn [export_item_of fst snd x_Page x_Title x_Link x_Description
                  x_ExternalURLs].
  split; [exact Hl|]. repeat split.
  - intros Hwork. destruct od as [d|]; [|reflexivity].
    destruct Hod as [Hd Hm]. apply in_get_unscraped in Hwork.
    destruct Hwork as [l' [_ [_ [_ Hno]]]]. destruct (Hno d Hd).
    unfold is_detail_of in Hm. destruct (d_link_id d) as [k|]; [|discriminate].
    apply Z.eqb_eq in Hm. now subst.
  - destruct (exturl_of (l_id l) (database s)); cbn; discriminate.
  - destruct (exturl_of (l_id l) (database s)); cbn; [reflexivity|discriminate].
  - destruct (exturl_of (l_id l) (database s)); cbn; [reflexivity|discriminate].
  - intros refs. destruct (exturl_of (l_id l) (database s)); cbn; [discriminate|].
    now intros [= <-].
Qed.

(** The export of two listings without details: the first item. *)
Lemma export_item_fields_witness :
  exists l,
    In l (links (database Samples.two_listings))
    /\ l_page l = 1%Z /\ l_title l = "Frame"
    /\ l_link l = "https://guncadindex.com/detail/frame".
Proof.
  destruct (export_item_fields "2026-01-01 00:00:00" 1 2 Samples.two_listings
              {| x_Page := 1; x_Title := "Frame";
                 x_Link := "https://guncadindex.com/detail/frame";
                 x_Description := EmptyString; x_ExternalURLs := None |})
    as [l [Hl [Hp [Ht [Hk _]]]]].
  - cbn. left. reflexivity.
  - exists l. cbn in Hp, Ht, Hk. auto.
Defined.

(** X17. The mode of the export after a deep run.  On a scraper without
    earlier failures, the export made after a run of stage 2 says
    [search+deep] exactly when the fetch of some listing of the work set
    returned nothing; after a deep run in which every fetch succeeded it
    says [search]. *)
Theorem export_mode_after_deep `{HtmlParser} `{UrlLib} `{Sqlite}
    (w : world) (s s' : scraper) (now : string) (start_page end_page : Z) :
  failed_deep s = [] ->
  stage2_deep w s s' ->
  (mode (metadata (export_json now start_page end_page s')) = "search+deep" <->
   exists id url, In (id, url) (get_unscraped s) /\ Scraper.fetch w url = EmptyString)
  /\ ((forall id url, In (id, url) (get_unscraped s) -> Scraper.fetch w url <> EmptyString) ->
      mode (metadata (export_json now start_page end_page s')) = "search").
Proof.
  intros Hnone [order [Hperm Hrun]].
  destruct (run_tasks_keeps w order s) as [s'' [Hrun' [_ [_ [Hfail _]]]]].
  { intros j u Hin. apply (unscraped_are_listings s j u).
    eapply Permutation_in; eassumption. }
  rewrite Hrun in Hrun'. injection Hrun' as <-.
  rewrite Hnone in Hfail. cbn [app] in Hfail.
  cbn [export_json metadata mode]. rewrite Hfail.
  set (failed := filter (fun t => negb (PyStr.truthy (Scraper.fetch w (snd t)))) order).
  assert (Hfailed : forall t, In t failed <->
                              In t order /\ Scraper.fetch w (snd t) = EmptyString).
  { intros t. unfold failed. rewrite filter_In. split.
    - intros [Hin Ht]. split; [exact Hin|].
      destruct (Scraper.fetch w (snd t)); [reflexivity|discriminate].
    - intros [Hin Ht]. split; [exact Hin|]. now rewrite Ht. }
  split; [split|].
  - destruct failed as [|[id url] rest] eqn:Hf; cbn; [discriminate|]. intros _.
    destruct (proj1 (Hfailed (id, url)) (or_introl eq_refl)) as [Hin He].
    exists id, url. split; [|exact He]. eapply Permutation_in; eassumption.
  - intros [id [url [Hin He]]].
    assert (Hf : In (id, url) failed).
    { apply Hfailed. split; [|exact He].
      apply Permutation_sym in Hperm. eapply Permutation_in; eassumption. }
    destruct failed; [destruct Hf|reflexivity].
  - intros Hok. destruct failed as [|[id url] rest] eqn:Hf; [reflexivity|].
    destruct (proj1 (Hfailed (id, url)) (or_introl eq_refl)) as [Hin He].
    destruct (Hok id url); [|exact He]. eapply Permutation_in; eassumption.
Qed.

(** A deep run in which both pages are fetched is exported as
    [search]. *)
Lemma export_mode_after_deep_witness :
  exists s',
    stage2_deep (H := MoreSamples.pages_parser) (H0 := Samples.plain_urllib)
      (H1 := Samples.sqlite_next) MoreSamples.steady Samples.two_listings s'
    /\ mode (metadata (export_json "2026-01-01 00:00:00" 1 2 s')) = "search".
Proof.
  destruct (stage2_deep_exists (H := MoreSamples.pages_parser)
              (H0 := Samples.plain_urllib) (H1 := Samples.sqlite_next)
              MoreSamples.steady Samples.two_listings) as [s' Hrun].
  exists s'. split; [exact Hrun|].
  apply (proj2 (export_mode_after_deep (H := MoreSamples.pages_parser)
                  (H0 := Samples.plain_urllib) (H1 := Samples.sqlite_next)
                  MoreSamples.steady Samples.two_listings s'
                  "2026-01-01 00:00:00" 1 2 eq_refl Hrun)).
  intros id url [[= <- <-]|[[= <- <-]|[]]]; discriminate.
Defined.

(** ** Generic pages and the loop over the references *)

Import Downloads.

Section TargetFacts.
Context `{UrlJoin}.

Lemma hd_error_app {A : Type} (a b : list A) :
  hd_error (a ++ b) = match hd_error a with Some x => Some x | None => hd_error b end.
Proof. now destruct a. Qed.




End TargetFacts.



(** On a page whose download link has the href [http://[::1] the
    function raises the [ValueError] of [urljoin]. *)
Example find_download_target_malformed_href :
  find_download_target (H := MoreSamples.broken_link_parser)
    (H0 := MoreSamples.plain_urljoin) "https://files.example/frame" "<a>"
  = Raise ValueError.
Proof. vm_compute. reflexivity. Qed.

Section LoopFacts.
Context `{HtmlParser} `{UrlLib} `{UrlJoin}.

Lemma insert_by_id_perm (e : exturl_row) (rows : list exturl_row) :
  Permutation (insert_by_id e rows) (e :: rows).
Proof.
  induction rows as [|x rest IH]; [apply Permutation_refl|]. cbn.
  destruct (e_id e <=? e_id x)%Z; [apply Permutation_refl|].
  eapply Permutation_trans; [apply perm_skip, IH|apply perm_swap].
Qed.

Lemma order_by_id_perm (rows : list exturl_row) :
  Permutation (order_by_id rows) rows.
Proof.
  induction rows as [|r rows IH]; [constructor|]. cbn.
  eapply Permutation_trans; [apply insert_by_id_perm|now apply perm_skip].
Qed.

Lemma insert_by_id_sorted (e : exturl_row) (rows : list exturl_row) :
  StronglySorted (fun x y => (e_id x <= e_id y)%Z) rows ->
  StronglySorted (fun x y => (e_id x <= e_id y)%Z) (insert_by_id e rows).
Proof.
  induction rows as [|x rest IH]; intros Hs.
  - cbn. constructor; constructor.
  - inversion Hs as [|x' rest' Hrest Hall]. subst. cbn.
    destruct (e_id e <=? e_id x)%Z eqn:Hex.
    + apply Z.leb_le in Hex. constructor; [exact Hs|]. constructor; [exact Hex|].
      eapply Forall_impl; [|exact Hall]. intros y Hy. cbn in Hy. lia.
    + apply Z.leb_gt in Hex. constructor; [now apply IH|].
      assert (Hperm := insert_by_id_perm e rest).
      apply Forall_forall. intros y Hy. apply (Permutation_in _ Hperm) in Hy.
      destruct Hy as [<-|Hy]; [lia|].
      rewrite Forall_forall in Hall. now apply Hall.
Qed.

Lemma order_by_id_sorted (rows : list exturl_row) :
  StronglySorted (fun x y => (e_id x <= e_id y)%Z) (order_by_id rows).
Proof.
  induction rows as [|r rows IH]; [constructor|]. cbn. now apply insert_by_id_sorted.
Qed.

Lemma taken_up_app (a b : list step) : taken_up (a ++ b) = taken_up a ++ taken_up b.
Proof. unfold taken_up. apply flat_map_app. Qed.

Lemma taken_up_chain (evs : list event) : taken_up (map Chain evs) = [].
Proof. induction evs as [|e evs IH]; [reflexivity|exact IH]. Qed.

Lemma filter_chain_chain (evs : list event) :
  filter is_get (map Chain evs) = [] /\ filter is_chain (map Chain evs) = map Chain evs.
Proof.
  induction evs as [|e evs [IH1 IH2]]; [split; reflexivity|]. cbn.
  split; [exact IH1|now rewrite IH2].
Qed.

Lemma visit_page_shape (net : web) (ext : ExternalLink) :
  exists rest,
    fst (visit_page net ext)
    = Visiting (el_id ext) (el_external_url ext) :: Get (el_external_url ext) :: rest
    /\ taken_up rest = []
    /\ filter is_chain rest = []
    /\ List.length (filter is_get rest) <= 1
    /\ (loaded (requests_get net (el_external_url ext)) = None ->
        rest = [Warn "Failed to load page"]
        /\ snd (visit_page net ext) = Ok tt)
    /\ (forall e,
          snd (visit_page net ext) = Raise e <->
          exists text,
            loaded (requests_get net (el_external_url ext)) = Some text
            /\ find_download_target (el_external_url ext) text = Raise e)
    /\ (forall e, snd (visit_page net ext) = Raise e -> rest = []).
Proof.
  unfold visit_page.
  destruct (loaded (requests_get net (el_external_url ext))) as [text|].
  - assert (Hno : forall e,
              find_download_target (el_external_url ext) text <> Raise e ->
              ~ exists t, Some text = Some t
                          /\ find_download_target (el_external_url ext) t = Raise e).
    { intros e Hne [t [[= <-] Hbad]]. now apply Hne. }
    destruct (find_download_target (el_external_url ext) text)
      as [[target|]|e0] eqn:Hfind.
    + destruct (PyStr.truthy target); [destruct (trigger_download net target)|];
        (eexists; split; [reflexivity|]); cbn [fst snd];
        (split; [reflexivity|]); (split; [reflexivity|]);
        (split; [cbn; lia|]); (split; [discriminate|]);
        (split; [|discriminate]);
        intros e; (split; [discriminate|]);
        intros Hex; (destruct (Hno e); [discriminate|exact Hex]).
    + eexists. split; [reflexivity|]. cbn [fst snd].
      split; [reflexivity|]. split; [reflexivity|].
      split; [cbn; lia|]. split; [discriminate|].
      split; [|discriminate].
      intros e. split; [discriminate|].
      intros Hex. destruct (Hno e); [discriminate|exact Hex].
    + exists []. split; [reflexivity|]. cbn [fst snd].
      split; [reflexivity|]. split; [reflexivity|].
      split; [cbn; lia|]. split; [discriminate|].
      split; [|reflexivity].
      intros e. split.
      * intros [= ->]. now exists text.
      * intros [t [[= <-] Hbad]]. congruence.
  - eexists. split; [reflexivity|]. cbn [fst snd].
    split; [reflexivity|]. split; [reflexivity|].
    split; [cbn; lia|]. split; [intros _; split; reflexivity|].
    split; [|discriminate].
    intros e. split; [discriminate|].
    intros [t [Hbad _]]. discriminate.
Qed.

(** The references one pass of the loop body takes up. *)
Lemma process_link_taken_up (dm : daemon) (net : web) (ext : ExternalLink) :
  (taken_up (fst (process_link dm net ext)) = [el_id ext]
   \/ (taken_up (fst (process_link dm net ext)) = []
       /\ exists e, snd (process_link dm net ext) = Raise e)).
Proof.
  assert (Hvisit : taken_up (fst (visit_page net ext)) = [el_id ext]).
  { destruct (visit_page_shape net ext) as [rest [-> [Ht _]]].
    change (taken_up (Visiting (el_id ext) (el_external_url ext)
                        :: Get (el_external_url ext) :: rest))
      with (el_id ext :: taken_up rest).
    now rewrite Ht. }
  unfold process_link.
  destruct (odysee_to_canonical (el_external_url ext)) as [canonical|e].
  - left. destruct canonical as [[|c r]|].
    + exact Hvisit.
    + destruct (download_with_lbrytools dm (String c r)) as [evs result].
      cbn [fst].
      change (taken_up (Processing (el_id ext) (String c r) :: map Chain evs))
        with (el_id ext :: taken_up (map Chain evs)).
      now rewrite taken_up_chain.
    + exact Hvisit.
  - right. split; [reflexivity|]. now exists e.
Qed.

Lemma process_from_prefix (dm : daemon) (net : web) (limit : option Z)
    (exts : list ExternalLink) :
  forall idx,
    exists k,
      taken_up (fst (process_from dm net limit idx exts)) = firstn k (map el_id exts)
      /\ k <= List.length exts
      /\ (forall n, limit = Some n -> (Z.of_nat k <= Z.max 0 (n - idx))%Z)
      /\ (limit = None ->
          snd (process_from dm net limit idx exts) = Ok tt ->
          k = List.length exts).
Proof.
  induction exts as [|ext rest IH]; intros idx.
  - exists 0. cbn. repeat split; auto. intros n _. lia.
  - cbn [process_from].
    destruct (match limit with Some n => (n <=? idx)%Z | None => false end) eqn:Hlim.
    + exists 0. cbn. repeat split; [lia| |].
      * intros n Hn. lia.
      * intros Hnone. rewrite Hnone in Hlim. discriminate.
    + assert (Hroom : forall n, limit = Some n -> (idx < n)%Z).
      { intros n ->. now apply Z.leb_gt in Hlim. }
      destruct (process_link_taken_up dm net ext) as [Hone|[Hzero [e He]]].
      * destruct (process_link dm net ext) as [steps [u|e]]; cbn [fst snd] in *.
        -- destruct (IH (idx + 1)%Z) as [k [Hk [Hle [Hn Hall]]]].
           destruct (process_from dm net limit (idx + 1) rest) as [more result].
           cbn [fst snd] in *. exists (S k).
           rewrite taken_up_app, Hone, Hk. cbn. repeat split; [lia| |].
           ++ intros n Hlimit. specialize (Hn n Hlimit).
              specialize (Hroom n Hlimit). lia.
           ++ intros Hnone Hok. f_equal. now apply Hall.
        -- exists 1. cbn. rewrite Hone. repeat split; [lia| |].
           ++ intros n Hlimit. specialize (Hroom n Hlimit). lia.
           ++ intros _ Hbad. discriminate.
      * destruct (process_link dm net ext) as [steps [u|e']]; cbn [fst snd] in *;
          [discriminate|].
        exists 0. cbn. rewrite Hzero. repeat split; [lia| |].
        -- intros n _. lia.
        -- intros _ Hbad. discriminate.
Qed.

End LoopFacts.

(** X19. [process_external_links] takes the references up in ascending
    order of their id, each at most once and without skipping one: the
    references it names in its log are an initial part of the ids of the
    [exturl] table in ascending order.  With a limit it takes up at most
    that many (none for a limit of zero or less); without a limit, a run
    that ends normally has taken up every reference. *)
Theorem process_external_links_in_order `{HtmlParser} `{UrlLib} `{UrlJoin}
    (dm : daemon) (net : web) (s : db) (limit : option Z) :
  exists k,
    taken_up (fst (process_external_links dm net s limit))
    = firstn k (map el_id (fetch_external_links s))
    /\ StronglySorted Z.le (map el_id (fetch_external_links s))
    /\ Permutation (map el_id (fetch_external_links s)) (map e_id (exturl s))
    /\ (forall n, limit = Some n -> (Z.of_nat k <= Z.max 0 n)%Z)
    /\ (limit = None ->
        snd (process_external_links dm net s limit) = Ok tt ->
        k = List.length (exturl s)).
Proof.
  destruct (process_from_prefix dm net limit (fetch_external_links s) 0)
    as [k [Hk [Hle [Hn Hall]]]].
  exists k. unfold process_external_links.
  destruct (process_from dm net limit 0 (fetch_external_links s)) as [steps result].
  cbn [fst snd] in *. split; [exact Hk|].
  assert (Hids : map el_id (fetch_external_links s) = map e_id (order_by_id (exturl s))).
  { unfold fetch_external_links. now rewrite map_map. }
  split; [|split; [|split]].
  - rewrite Hids.
    apply (sorted_map (fun x y => (e_id x <= e_id y)%Z) Z.le e_id);
      [auto|apply order_by_id_sorted].
  - rewrite Hids. apply Permutation_map, order_by_id_perm.
  - intros n Hlimit. specialize (Hn n Hlimit). lia.
  - intros Hnone Hok. rewrite (Hall Hnone Hok).
    unfold fetch_external_links. rewrite length_map.
    apply Permutation_length, order_by_id_perm.
Qed.

(** The three references of the sample store are taken up in the order
    1, 2, 3, and with a limit of two only the first two. *)
Example process_three_references :
  map el_id (fetch_external_links MoreSamples.three_references) = [1%Z; 2%Z; 3%Z]
  /\ taken_up (fst (process_external_links (H := MoreSamples.download_parser)
                      (H0 := Samples.plain_urllib) (H1 := MoreSamples.plain_urljoin)
                      Samples.serving MoreSamples.file_web
                      MoreSamples.three_references (Some 2%Z)))
     = [1%Z; 2%Z].
Proof. split; vm_compute; reflexivity. Qed.

(** X20. One reference goes one way only.  A reference with a canonical
    identifier that is not empty is handed to the download chain and
    causes no plain request.  Any other reference (also a native uri
    without identifier, such as [lbry://]) is visited as a page: the chain
    is not entered, the page is requested once, and the target is
    requested, once, only when the page was loaded; a page that answers
    with a status from 400 to 599 counts as not loaded, and the loop goes
    on.  The visit raises exactly when the page was loaded and
    [find_download_target] raised on it, and then nothing more is
    requested. *)
Theorem process_link_paths `{HtmlParser} `{UrlLib} `{UrlJoin}
    (dm : daemon) (net : web) (ext : ExternalLink) :
  (forall c,
      odysee_to_canonical (el_external_url ext) = Ok (Some c) ->
      c <> EmptyString ->
      fst (process_link dm net ext)
      = Processing (el_id ext) c :: map Chain (fst (download_with_lbrytools dm c))
      /\ filter is_get (fst (process_link dm net ext)) = [])
  /\ (odysee_to_canonical (el_external_url ext) = Ok None
      \/ odysee_to_canonical (el_external_url ext) = Ok (Some EmptyString) ->
      filter is_chain (fst (process_link dm net ext)) = []
      /\ exists rest,
           fst (process_link dm net ext)
           = Visiting (el_id ext) (el_external_url ext)
               :: Get (el_external_url ext) :: rest
           /\ List.length (filter is_get rest) <= 1
           /\ (loaded (requests_get net (el_external_url ext)) = None ->
               rest = [Warn "Failed to load page"]
               /\ snd (process_link dm net ext) = Ok tt)
           /\ (forall e,
                 snd (process_link dm net ext) = Raise e <->
                 exists text,
                   loaded (requests_get net (el_external_url ext)) = Some text
                   /\ find_download_target (el_external_url ext) text = Raise e)
           /\ (forall e, snd (process_link dm net ext) = Raise e -> rest = []))
  /\ (el_external_url ext = "lbry://" ->
      process_link dm net ext = visit_page net ext)
  /\ (forall status text,
        requests_get net (el_external_url ext) = Reply status text ->
        (400 <= status < 600)%Z ->
        loaded (requests_get net (el_external_url ext)) = None).
Proof.
  split; [|split; [|split]].
  - intros c Hc Hne. unfold process_link. rewrite Hc.
    destruct c as [|a r]; [congruence|].
    destruct (download_with_lbrytools dm (String a r)) as [evs result].
    cbn [fst]. split; [reflexivity|]. cbn [filter is_get].
    apply filter_chain_chain.
  - intros Hc.
    assert (Hvisit : process_link dm net ext = visit_page net ext).
    { unfold process_link. now destruct Hc as [-> | ->]. }
    rewrite Hvisit.
    destruct (visit_page_shape net ext)
      as [rest [Heq [_ [Hchain [Hget [Hfail [Hraise Hstop]]]]]]].
    rewrite Heq. split; [exact Hchain|].
    exists rest. auto.
  - intros Hurl. unfold process_link, odysee_to_canonical. rewrite Hurl. reflexivity.
  - intros status text Hreply Hrange. rewrite Hreply. unfold loaded, raises_for_status.
    destruct (400 <=? status)%Z eqn:H400; [|lia].
    destruct (status <? 600)%Z eqn:H600; [reflexivity|lia].
Qed.

(** The portal reference of the sample store goes to the chain. *)
Lemma process_link_paths_witness :
  filter is_get
    (fst (process_link (H := MoreSamples.download_parser)
            (H0 := Samples.plain_urllib) (H1 := MoreSamples.plain_urljoin)
            Samples.serving MoreSamples.file_web
            {| el_id := 1; el_link_id := Some 1%Z;
               el_external_url := "https://odysee.com/@maker:1/frame:ab";
               el_source_href := "/out/?u=a"; el_link_text := "Odysee" |}))
  = [].
Proof.
  apply (proj1 (process_link_paths (H := MoreSamples.download_parser)
                  (H0 := Samples.plain_urllib) (H1 := MoreSamples.plain_urljoin)
                  Samples.serving MoreSamples.file_web
                  {| el_id := 1; el_link_id := Some 1%Z;
                     el_external_url := "https://odysee.com/@maker:1/frame:ab";
                     el_source_href := "/out/?u=a"; el_link_text := "Odysee" |})
           "@maker#1/frame#ab").
  - vm_compute. reflexivity.
  - discriminate.
Defined.

(** A page whose download link has a malformed href ends the loop: the
    second reference is not taken up. *)
Example process_external_links_malformed_href :
  let refs :=
    {| links := []; details := [];
       exturl :=
         [ {| e_id := 1; e_link_id := Some 1%Z;
              e_external_url := "https://files.example/frame";
              e_source_href := "/out/?u=a"; e_link_text := "Files";
              e_scraped_at := 2000 |};
           {| e_id := 2; e_link_id := Some 1%Z;
              e_external_url := "lbry://frame#ab";
              e_source_href := "/out/?u=b"; e_link_text := "LBRY";
              e_scraped_at := 2000 |} ] |} in
  process_external_links (H := MoreSamples.broken_link_parser)
    (H0 := Samples.plain_urllib) (H1 := MoreSamples.plain_urljoin)
    Samples.serving MoreSamples.file_web refs None
  = ([Inform "Stage 2 download triggering:";
      Visiting 1 "https://files.example/frame";
      Get "https://files.example/frame"],
     Raise ValueError).
Proof. vm_compute. reflexivity. Qed.

(** ** The entry points: [run_stage_two], [_run_scraper] and [main] *)

Import Master.

(** X21. [main] of [master.py] never starts stage 2 and never ends
    normally.  It reads [args.stage2], an attribute the parser of
    [build_parser] does not define: whenever stage 1 is switched off or
    [run_scraper] returns, [main] raises an [AttributeError] after it has
    configured the logging (and run the scraper), whatever the arguments
    are; when [run_scraper] raises, [main] raises the same exception. *)
Theorem main_never_reaches_stage_two (run_scraper : Namespace -> res payload)
    (run_stage_two : payload -> res payload) (args : Namespace) :
  let level := determine_log_level (arg_verbose args) (arg_debug args) in
  ~ In RunStageTwo (fst (main run_scraper run_stage_two args))
  /\ snd (main run_scraper run_stage_two args) <> Ok tt
  /\ (arg_stage1 args = false ->
      main run_scraper run_stage_two args
      = ([ConfigureLogging level], Raise AttributeError))
  /\ (arg_stage1 args = true ->
      fst (main run_scraper run_stage_two args) = [ConfigureLogging level; RunScraper]
      /\ snd (main run_scraper run_stage_two args)
         = match run_scraper args with
           | Ok _ => Raise AttributeError
           | Raise e => Raise e
           end).
Proof.
  intros level. unfold main.
  change (getattr args "verbose") with (Ok (ABool (arg_verbose args))).
  change (getattr args "debug") with (Ok (ABool (arg_debug args))).
  change (getattr args "stage1") with (Ok (ABool (arg_stage1 args))).
  change (getattr args "stage2") with (@Raise attr_value AttributeError).
  cbn [attr_truthy]. fold level.
  destruct (arg_stage1 args).
  - destruct (run_scraper args) as [p|e]; cbn.
    + split; [intros [Hx|[Hx|[]]]; discriminate|].
      split; [discriminate|]. split; [discriminate|]. auto.
    + split; [intros [Hx|[Hx|[]]]; discriminate|].
      split; [discriminate|]. split; [discriminate|]. auto.
  - cbn. split; [intros [Hx|[]]; discriminate|].
    split; [discriminate|]. split; [reflexivity|discriminate].
Qed.

Section StageTwoFacts.
Context `{HtmlParser} `{UrlLib} `{UrlJoin}.

Lemma taken_up_inform (l : list step) :
  Forall (fun st => match st with Inform _ | Warn _ => True | _ => False end) l ->
  taken_up l = [] /\ filter is_get l = [] /\ filter is_chain l = [].
Proof.
  induction 1 as [|st l Hst _ [IHt [IHg IHc]]]; [auto|].
  destruct st; try contradiction; cbn; auto.
Qed.

Lemma summary_informs (p : payload) :
  Forall (fun st => match st with Inform _ | Warn _ => True | _ => False end)
    ([Inform "Stage 2 processing summary:"]
     ++ match p_stats p with
        | Some _ =>
            [Inform "  - total_links"; Inform "  - pages_with_links";
             Inform "  - links_with_details"; Inform "  - links_with_ext_urls";
             Inform "  - total_ext_urls"]
        | None => []
        end
     ++ match p_json_file p with
        | Some f => if PyStr.truthy f then [Inform "  JSON export"] else []
        | None => []
        end
     ++ [Inform "  DB path"]
     ++ match p_failed_details p with
        | [] => []
        | _ :: _ => [Warn "  Failed detail pages"]
        end).
Proof.
  apply Forall_app; split; [repeat constructor|].
  apply Forall_app; split; [destruct (p_stats p); repeat constructor|].
  apply Forall_app; split.
  { destruct (p_json_file p) as [f|]; [destruct (PyStr.truthy f)|];
      repeat constructor. }
  apply Forall_app; split; [repeat constructor|].
  destruct (p_failed_details p); repeat constructor.
Qed.

End StageTwoFacts.

(** X22. [run_stage_two] hands its dictionary back unchanged whenever it
    returns.  Without a database path (a missing key, [None] or the empty
    string) it only logs: no reference is taken up, no request is sent and
    the download chain is not entered.  With a path it takes up the
    references of that database as [process_external_links] does without a
    limit: an initial part of what [fetch_external_links] yields, and all
    of it when it returns. *)
Theorem run_stage_two_returns_payload `{HtmlParser} `{UrlLib} `{UrlJoin}
    (dm : daemon) (net : web) (connect : string -> db) (p : payload) :
  (forall q, snd (run_stage_two dm net connect p) = Ok q -> q = p)
  /\ ((p_db_path p = None \/ p_db_path p = Some EmptyString) ->
      snd (run_stage_two dm net connect p) = Ok p
      /\ taken_up (fst (run_stage_two dm net connect p)) = []
      /\ filter is_get (fst (run_stage_two dm net connect p)) = []
      /\ filter is_chain (fst (run_stage_two dm net connect p)) = [])
  /\ (forall path,
        p_db_path p = Some path -> path <> EmptyString ->
        (exists k,
            taken_up (fst (run_stage_two dm net connect p))
            = firstn k (map el_id (fetch_external_links (connect path))))
        /\ (snd (run_stage_two dm net connect p) = Ok p ->
            taken_up (fst (run_stage_two dm net connect p))
            = map el_id (fetch_external_links (connect path)))).
Proof.
  pose proof (summary_informs p) as Hsum.
  unfold run_stage_two.
  set (summary := _ ++ _ ++ _ ++ _ ++ _) in *.
  destruct (taken_up_inform summary Hsum) as [Ht [Hg Hc]].
  assert (Hskip : forall l,
             l = summary ++ [Warn "No database path provided; skipping download triggers."] ->
             taken_up l = [] /\ filter is_get l = [] /\ filter is_chain l = []).
  { intros l ->. rewrite taken_up_app, !filter_app, Ht, Hg, Hc. auto. }
  split; [|split].
  - intros q. destruct (p_db_path p) as [path|]; [destruct (PyStr.truthy path)|];
      cbn [snd]; try (intros Hq; now injection Hq).
    destruct (process_external_links dm net (connect path) None) as [steps [u|e]];
      cbn [snd]; [intros Hq; now injection Hq|discriminate].
  - intros [Hnone|Hempty].
    + rewrite Hnone. cbn [fst snd]. split; [reflexivity|]. now apply Hskip.
    + rewrite Hempty. cbn [PyStr.truthy fst snd].
      change (PyStr.truthy EmptyString) with false. cbn [fst snd].
      split; [reflexivity|]. now apply Hskip.
  - intros path Hpath Hne. rewrite Hpath.
    assert (Htruthy : PyStr.truthy path = true) by now apply truthy_nonempty.
    rewrite Htruthy.
    destruct (process_from_prefix dm net None (fetch_external_links (connect path)) 0)
      as [k [Hk [Hle [_ Hall]]]].
    unfold process_external_links.
    destruct (process_from dm net None 0 (fetch_external_links (connect path)))
      as [steps result].
    cbn [fst snd] in *.
    assert (Hup : taken_up (summary ++ Inform "Stage 2 download triggering:" :: steps)
                  = firstn k (map el_id (fetch_external_links (connect path)))).
    { rewrite taken_up_app, Ht. exact Hk. }
    split; [now exists k|].
    intros Hok. rewrite Hup.
    destruct result as [[]|e]; [|discriminate].
    rewrite (Hall eq_refl eq_refl), <- (length_map el_id). apply firstn_all.
Qed.

(** Without stage 1, on the store of the three references. *)
Lemma run_stage_two_returns_payload_witness :
  exists k,
    taken_up (fst (run_stage_two (H := MoreSamples.download_parser)
                     (H0 := Samples.plain_urllib) (H1 := MoreSamples.plain_urljoin)
                     Samples.serving MoreSamples.file_web
                     (fun _ => MoreSamples.three_references)
                     MoreSamples.stored_payload))
    = firstn k (map el_id (fetch_external_links MoreSamples.three_references)).
Proof.
  refine (proj1 (proj2 (proj2 (run_stage_two_returns_payload
                                 (H := MoreSamples.download_parser)
                                 (H0 := Samples.plain_urllib)
                                 (H1 := MoreSamples.plain_urljoin)
                                 Samples.serving MoreSamples.file_web
                                 (fun _ => MoreSamples.three_references)
                                 MoreSamples.stored_payload))
                  "guncad.db" eq_refl _)).
  discriminate.
Defined.

Section RunFacts.
Context `{HtmlParser} `{UrlLib} `{Sqlite}.



End RunFacts.


